(** * Calmate call analysis: a shallow embedding of the agentic backend

    The development follows the Python sources of [agentic-backed]:
    - [agents/base_agent.py]    : response parsing and the generation call,
    - [agents/*.py]             : the five specialised agents,
    - [agents/orchestrator.py]  : the parent agent that merges their results,
    - [models/analysis_models.py], [models/processed_call.py] : the data model,
    - [call_analyzer.py]        : the validated entry point,
    - [processors/call_report_processor.py] : the webhook message transform.

    Python values that reach the code untyped (decoded JSON, webhook bodies)
    are values of [pyval]; validated pydantic models are records.  Raised
    exceptions are the [Err] case of [result]. *)

From Stdlib Require Import ZArith String Ascii List Bool Lia DecimalString.
From Stdlib Require Import Floats.SpecFloat.
From stdpp Require Import base option gmap strings list.

#[local] Set Warnings "-register-all".
#[local] Arguments String.append !s1 s2 : simpl nomatch.
#[local] Open Scope string_scope.
#[local] Open Scope Z_scope.

(** ** Python strings *)

Module Str.

(** Characters are code points below 256; [str.isspace] on that range. *)
Definition isspace (c : ascii) : bool :=
  let n := N_of_ascii c in
  (((9 <=? n) && (n <=? 13)) || ((28 <=? n) && (n <=? 32))
   || (n =? 133) || (n =? 160))%N.

Fixpoint startswith (pat s : string) : bool :=
  match pat, s with
  | EmptyString, _ => true
  | String a pat', String b s' => if Ascii.eqb a b then startswith pat' s' else false
  | String _ _, EmptyString => false
  end.

Fixpoint drop (n : nat) (s : string) : string :=
  match n, s with
  | O, _ => s
  | S n', String _ s' => drop n' s'
  | S _, EmptyString => EmptyString
  end.

Fixpoint take (n : nat) (s : string) : string :=
  match n, s with
  | O, _ => EmptyString
  | S n', String c s' => String c (take n' s')
  | S _, EmptyString => EmptyString
  end.

(** Index of the first occurrence of [pat] in [s], counted from [i]. *)
Fixpoint find_at (pat s : string) (i : nat) : option nat :=
  if startswith pat s then Some i
  else match s with
       | EmptyString => None
       | String _ s' => find_at pat s' (S i)
       end.

(** [s.find(pat, start)] for [0 <= start]: [-1] when there is no
    occurrence at or after [start], also when [start] is past the end. *)
Definition find (s pat : string) (start : Z) : Z :=
  let k := Z.to_nat start in
  if (String.length s <? k)%nat then -1
  else match find_at pat (drop k s) k with
       | Some i => Z.of_nat i
       | None => -1
       end.

(** [pat in s] *)
Definition contains (pat s : string) : bool :=
  match find_at pat s 0 with Some _ => true | None => false end.

(** A slice bound as Python normalises it: a negative bound counts from
    the end, and every bound is clamped to [0 .. len]. *)
Definition clamp (len i : Z) : Z :=
  if i <? 0 then Z.max 0 (i + len) else Z.min i len.

(** [s[a:b]] *)
Definition slice (s : string) (a b : Z) : string :=
  let len := Z.of_nat (String.length s) in
  let a' := clamp len a in
  let b' := clamp len b in
  take (Z.to_nat (b' - a')) (drop (Z.to_nat a') s).

Fixpoint lstrip (s : string) : string :=
  match s with
  | String c s' => if isspace c then lstrip s' else s
  | EmptyString => EmptyString
  end.

Fixpoint rstrip (s : string) : string :=
  match s with
  | EmptyString => EmptyString
  | String c s' =>
      match rstrip s' with
      | EmptyString => if isspace c then EmptyString else String c EmptyString
      | r => String c r
      end
  end.

(** [s.strip()] *)
Definition strip (s : string) : string := rstrip (lstrip s).

(** The line feed character. *)
Definition nl : string := String (ascii_of_nat 10) EmptyString.

End Str.

(** ** Python values, exceptions and effects *)

(** A value as it comes out of [json.loads] or a webhook body. *)
Inductive pyval :=
| VNone
| VBool (b : bool)
| VInt (z : Z)
| VFloat (f : spec_float)
| VStr (s : string)
| VList (l : list pyval)
| VDict (d : gmap string pyval).

(** [bool(v)] *)
Definition truthy (v : pyval) : bool :=
  match v with
  | VNone => false
  | VBool b => b
  | VInt z => negb (z =? 0)
  | VFloat f => match f with S754_zero _ => false | _ => true end
  | VStr s => negb (String.eqb s "")
  | VList l => match l with [] => false | _ => true end
  | VDict d => negb (bool_decide (d = ∅))
  end.

(** The exception classes the code raises or meets; all derive from
    [Exception].  [OtherException] stands for what a library may raise. *)
Inductive exn_class :=
| RuntimeError | ValueError | TypeError | AttributeError
| ValidationError | OtherException.

(** An exception instance; [exn_msg e] is [str(e)]. *)
Record exn := Exn { exn_cls : exn_class; exn_msg : string }.

Inductive result (A : Type) :=
| Ok (a : A)
| Err (e : exn).
Arguments Ok {A} a.
Arguments Err {A} e.

(** The five sub-agents. *)
Inductive agent :=
| StressDetector | SentimentAnalyzer | StressorFinder | BlockerFinder
| SeverityClassifier.

(** What the code prints, line by line, with the wording left out. *)
Inductive notice :=
| NStart (call_id : pyval) (messages : nat) (duration : pyval)
| NRunning (a : agent)
| NSucceeded (a : agent)
| NFailed (a : agent) (e : exn)
| NDefault (field : string)
| NSafetyNeutral
| NComplete.

(** A computation that prints and then returns or raises. *)
Definition io (A : Type) : Type := list notice * result A.

Module IO.
Definition ret {A} (a : A) : io A := ([], Ok a).
Definition raise {A} (e : exn) : io A := ([], Err e).
Definition print (n : notice) : io unit := ([n], Ok tt).
Definition lift {A} (r : result A) : io A := ([], r).
Definition bind {A B} (m : io A) (k : A -> io B) : io B :=
  match m with
  | (out, Ok a) => let (out', r) := k a in ((out ++ out')%list, r)
  | (out, Err e) => (out, Err e)
  end.
(** [try: m except Exception as e: h e] *)
Definition try_except {A} (m : io A) (h : exn -> io A) : io A :=
  match m with
  | (out, Ok a) => (out, Ok a)
  | (out, Err e) => let (out', r) := h e in ((out ++ out')%list, r)
  end.
Definition output {A} (m : io A) : list notice := fst m.
Definition outcome {A} (m : io A) : result A := snd m.
End IO.

Notation "x <- m ;; k" := (IO.bind m (fun x => k))
  (at level 100, m at next level, right associativity).
Notation "m ;;; k" := (IO.bind m (fun _ => k))
  (at level 100, right associativity).

(** Bind on plain results, for code that does not print. *)
Definition rbind {A B} (r : result A) (k : A -> result B) : result B :=
  match r with Ok a => k a | Err e => Err e end.
Notation "x <-r m ;; k" := (rbind m (fun x => k))
  (at level 100, m at next level, right associativity).

(** ** The generation service and the libraries *)

(** The fixed instruction block an agent appends to the transcript. *)
Definition instruction := agent.

(** [base_prompt + "\n\n" + instruction] *)
Record prompt := { base_prompt : string; prompt_instruction : instruction }.

(** One candidate of a generation response: its finish reason, and whether
    [candidate.content] and [candidate.content.parts] are both non-empty. *)
Record candidate := { finish_reason : Z; has_parts : bool }.

(** A generation response; [text] is the accessor [response.text], which
    may itself raise. *)
Record response := { candidates : list candidate; text : result string }.

(** What lies outside the repository: the generation service, the JSON
    decoder, pydantic's conversions of values that are not already of the
    field's type, string rendering, the clock, and whether the dispatch
    primitive [asyncio.gather] itself raises. *)
Record runtime := {
  generate_content : string -> prompt -> result response;
  json_loads : string -> pyval + string;
  lax_bool : pyval -> option bool;
  lax_int : pyval -> option Z;
  lax_float : pyval -> option spec_float;
  str_upper : string -> string;
  format_value : pyval -> string;
  utcnow_isoformat : string;
  gather_fault : option exn
}.

(** ** pydantic field validation *)

Module Pydantic.

Definition validation_error (field : string) : exn :=
  Exn ValidationError ("validation error for " ++ field).

Definition validate_bool (rt : runtime) (field : string) (v : pyval) : result bool :=
  match v with
  | VBool b => Ok b
  | _ => match lax_bool rt v with
         | Some b => Ok b
         | None => Err (validation_error field)
         end
  end.

Definition validate_int (rt : runtime) (field : string) (v : pyval) : result Z :=
  match v with
  | VInt z => Ok z
  | _ => match lax_int rt v with
         | Some z => Ok z
         | None => Err (validation_error field)
         end
  end.

Definition validate_float (rt : runtime) (field : string) (v : pyval)
  : result spec_float :=
  match v with
  | VFloat f => Ok f
  | _ => match lax_float rt v with
         | Some f => Ok f
         | None => Err (validation_error field)
         end
  end.

Definition validate_str (field : string) (v : pyval) : result string :=
  match v with
  | VStr s => Ok s
  | _ => Err (validation_error field)
  end.

Fixpoint validate_str_list (field : string) (l : list pyval) : result (list string) :=
  match l with
  | [] => Ok []
  | v :: l' =>
      s <-r validate_str field v ;;
      ss <-r validate_str_list field l' ;;
      Ok (s :: ss)
  end.

(** [Field(ge=0)] on an [int] *)
Definition int_ge0 (field : string) (z : Z) : result Z :=
  if 0 <=? z then Ok z else Err (validation_error field).

Definition float_zero : spec_float := S754_zero false.
Definition float_one : spec_float := S754_finite false 4503599627370496 (-52).

(** [Field(ge=lo)] on a [float]; a NaN fails every comparison. *)
Definition float_ge (field : string) (lo f : spec_float) : result spec_float :=
  if SFleb lo f then Ok f else Err (validation_error field).

(** [Field(le=hi)] on a [float] *)
Definition float_le (field : string) (hi f : spec_float) : result spec_float :=
  if SFleb f hi then Ok f else Err (validation_error field).

(** A field without default. *)
Definition required (kwargs : gmap string pyval) (field : string) : result pyval :=
  match kwargs !! field with
  | Some v => Ok v
  | None => Err (validation_error field)
  end.

(** A model called on [v] unpacked as keyword arguments: the unpacked
    value must be a mapping. *)
Definition unpack (v : pyval) : result (gmap string pyval) :=
  match v with
  | VDict d => Ok d
  | _ => Err (Exn TypeError "argument after ** must be a mapping")
  end.

End Pydantic.

(** ** models/analysis_models.py *)

Module SentimentCounts.
Record t := { positive : Z; negative : Z }.

(** The constructor from keyword arguments; both fields are [int]
    with [ge=0]. *)
Definition new (rt : runtime) (kwargs : gmap string pyval) : result t :=
  p <-r (v <-r Pydantic.required kwargs "positive" ;;
         z <-r Pydantic.validate_int rt "positive" v ;;
         Pydantic.int_ge0 "positive" z) ;;
  n <-r (v <-r Pydantic.required kwargs "negative" ;;
         z <-r Pydantic.validate_int rt "negative" v ;;
         Pydantic.int_ge0 "negative" z) ;;
  Ok {| positive := p; negative := n |}.

(** A field of type [SentimentCounts] given a decoded value. *)
Definition validate (rt : runtime) (field : string) (v : pyval) : result t :=
  match v with
  | VDict d => new rt d
  | _ => Err (Pydantic.validation_error field)
  end.

Definition model_dump (c : t) : gmap string Z :=
  {[ "positive" := positive c; "negative" := negative c ]}.
End SentimentCounts.

Module CallAnalysis.
Record t := {
  stressed_detected : bool;
  sentiment_counts : SentimentCounts.t;
  top_stressors : string;
  common_blockers : string;
  is_severe_case : bool
}.

(** [CallAnalysis(...)]: the counts arrive as a model instance and are
    taken as they are; the other four fields are validated. *)
Definition new (rt : runtime) (stressed : pyval) (counts : SentimentCounts.t)
    (stressors blockers severe : pyval) : result t :=
  b <-r Pydantic.validate_bool rt "stressed_detected" stressed ;;
  s <-r Pydantic.validate_str "top_stressors" stressors ;;
  k <-r Pydantic.validate_str "common_blockers" blockers ;;
  v <-r Pydantic.validate_bool rt "is_severe_case" severe ;;
  Ok {| stressed_detected := b; sentiment_counts := counts;
        top_stressors := s; common_blockers := k; is_severe_case := v |}.
End CallAnalysis.

Module CallAnalysisReport.
Record t := {
  call_id : string;
  call_duration_seconds : spec_float;
  analysis_timestamp : string;
  analysis : CallAnalysis.t
}.

(** [CallAnalysisReport.create]: the analysis is built first, then the
    report around it; [call_duration_seconds] carries [ge=0]. *)
Definition create (rt : runtime) (call_id call_duration_seconds : pyval)
    (stressed_detected : pyval) (sentiment_counts : SentimentCounts.t)
    (top_stressors common_blockers is_severe_case : pyval) : result t :=
  a <-r CallAnalysis.new rt stressed_detected sentiment_counts
          top_stressors common_blockers is_severe_case ;;
  c <-r Pydantic.validate_str "call_id" call_id ;;
  d <-r (f <-r Pydantic.validate_float rt "call_duration_seconds" call_duration_seconds ;;
         Pydantic.float_ge "call_duration_seconds" Pydantic.float_zero f) ;;
  Ok {| call_id := c; call_duration_seconds := d;
        analysis_timestamp := utcnow_isoformat rt ++ "Z"; analysis := a |}.
End CallAnalysisReport.

(** *** Individual agent output schemas *)

Module StressDetectionResult.
Record t := { stressed_detected : bool; confidence : option spec_float }.

Definition new (rt : runtime) (kwargs : gmap string pyval) : result t :=
  b <-r (v <-r Pydantic.required kwargs "stressed_detected" ;;
         Pydantic.validate_bool rt "stressed_detected" v) ;;
  c <-r match kwargs !! "confidence" with
        | None | Some VNone => Ok None
        | Some v =>
            f <-r Pydantic.validate_float rt "confidence" v ;;
            f <-r Pydantic.float_ge "confidence" Pydantic.float_zero f ;;
            f <-r Pydantic.float_le "confidence" Pydantic.float_one f ;;
            Ok (Some f)
        end ;;
  Ok {| stressed_detected := b; confidence := c |}.
End StressDetectionResult.

Module SentimentAnalysisResult.
Record t := { sentiment_counts : SentimentCounts.t }.

Definition new (rt : runtime) (kwargs : gmap string pyval) : result t :=
  c <-r (v <-r Pydantic.required kwargs "sentiment_counts" ;;
         SentimentCounts.validate rt "sentiment_counts" v) ;;
  Ok {| sentiment_counts := c |}.
End SentimentAnalysisResult.

Module StressorIdentificationResult.
Record t := { top_stressors : string }.

Definition new (kwargs : gmap string pyval) : result t :=
  s <-r match kwargs !! "top_stressors" with
        | None => Ok ""
        | Some v => Pydantic.validate_str "top_stressors" v
        end ;;
  Ok {| top_stressors := s |}.
End StressorIdentificationResult.

Module BlockerIdentificationResult.
Record t := { common_blockers : string }.

Definition new (kwargs : gmap string pyval) : result t :=
  s <-r match kwargs !! "common_blockers" with
        | None => Ok ""
        | Some v => Pydantic.validate_str "common_blockers" v
        end ;;
  Ok {| common_blockers := s |}.
End BlockerIdentificationResult.

Module SeverityClassificationResult.
Record t := { is_severe_case : bool; severity_indicators : option (list string) }.

Definition new (rt : runtime) (kwargs : gmap string pyval) : result t :=
  b <-r (v <-r Pydantic.required kwargs "is_severe_case" ;;
         Pydantic.validate_bool rt "is_severe_case" v) ;;
  i <-r match kwargs !! "severity_indicators" with
        | None | Some VNone => Ok None
        | Some (VList l) =>
            ss <-r Pydantic.validate_str_list "severity_indicators" l ;;
            Ok (Some ss)
        | Some _ => Err (Pydantic.validation_error "severity_indicators")
        end ;;
  Ok {| is_severe_case := b; severity_indicators := i |}.
End SeverityClassificationResult.

(** *** The flattened form stored in the [call_reports] table *)

Module CallReportDB.
Record t := {
  call_id : string;
  call_duration_seconds : spec_float;
  stressed_detected : bool;
  sentiment_counts : gmap string Z;
  top_stressors : option string;
  common_blockers : option string;
  is_severe_case : bool
}.

(** [", ".join(l)]: every item must be a [str]. *)
Fixpoint join (l : list pyval) : result string :=
  match l with
  | [] => Ok ""
  | VStr s :: l' =>
      match l' with
      | [] => Ok s
      | _ => r <-r join l' ;; Ok (s ++ ", " ++ r)
      end
  | _ :: _ => Err (Exn TypeError "sequence item: expected str instance")
  end.

(** The handling shared by [top_stressors] and [common_blockers]: a falsy
    value is stored as [None], a string as it is, a list comma-joined,
    anything else through [str]. *)
Definition to_column (rt : runtime) (v : pyval) : result (option string) :=
  if truthy v then
    match v with
    | VStr s => Ok (Some s)
    | VList l => s <-r join l ;; Ok (Some s)
    | _ => Ok (Some (format_value rt v))
    end
  else Ok None.

Definition from_analysis_report (rt : runtime) (report : CallAnalysisReport.t)
  : result t :=
  let analysis := CallAnalysisReport.analysis report in
  top_stressors_str <-r to_column rt (VStr (CallAnalysis.top_stressors analysis)) ;;
  common_blockers_str <-r to_column rt (VStr (CallAnalysis.common_blockers analysis)) ;;
  Ok {| call_id := CallAnalysisReport.call_id report;
        call_duration_seconds := CallAnalysisReport.call_duration_seconds report;
        stressed_detected := CallAnalysis.stressed_detected analysis;
        sentiment_counts :=
          SentimentCounts.model_dump (CallAnalysis.sentiment_counts analysis);
        top_stressors := top_stressors_str;
        common_blockers := common_blockers_str;
        is_severe_case := CallAnalysis.is_severe_case analysis |}.
End CallReportDB.

(** ** agents/base_agent.py *)

Module BaseAgent.

(** One transcript line, [f"{role}: {content}"] with the role upper-cased;
    a message that is no dict, or whose role is no string, has no [get]
    or no [upper]. *)
Definition render_message (rt : runtime) (msg : pyval) : result string :=
  match msg with
  | VDict d =>
      match default (VStr "unknown") (d !! "role") with
      | VStr role =>
          let content := default (VStr "") (d !! "content") in
          Ok (str_upper rt role ++ ": " ++ format_value rt content)
      | _ => Err (Exn AttributeError "object has no attribute 'upper'")
      end
  | _ => Err (Exn AttributeError "object has no attribute 'get'")
  end.

Fixpoint render_messages (rt : runtime) (transcript : list pyval)
  : result (list string) :=
  match transcript with
  | [] => Ok []
  | msg :: rest =>
      line <-r render_message rt msg ;;
      lines <-r render_messages rt rest ;;
      Ok (line :: lines)
  end.

(** ["\\n".join(parts)] *)
Fixpoint join_lines (parts : list string) : string :=
  match parts with
  | [] => ""
  | [p] => p
  | p :: rest => p ++ Str.nl ++ join_lines rest
  end.

Definition _create_prompt (rt : runtime) (transcript : list pyval)
    (duration : option pyval) : result string :=
  lines <-r render_messages rt transcript ;;
  let prompt_parts := ("CALL TRANSCRIPT:" :: lines)%list in
  let prompt_parts :=
    match duration with
    | Some d =>
        let line := Str.nl ++ "CALL DURATION: " ++ format_value rt d ++ " seconds" in
        if truthy d then (prompt_parts ++ [line])%list else prompt_parts
    | None => prompt_parts
    end in
  Ok (join_lines prompt_parts).

(** [_parse_json_response]: a fenced block is cut out and stripped, then
    the text goes to [json.loads]; a decoding error becomes [ValueError]. *)
Definition extract_json_text (response_text : string) : string :=
  if Str.contains "```json" response_text then
    let json_start := Str.find response_text "```json" 0 + 7 in
    let json_end := Str.find response_text "```" json_start in
    Str.strip (Str.slice response_text json_start json_end)
  else if Str.contains "```" response_text then
    let json_start := Str.find response_text "```" 0 + 3 in
    let json_end := Str.find response_text "```" json_start in
    Str.strip (Str.slice response_text json_start json_end)
  else response_text.

Definition _parse_json_response (rt : runtime) (response_text : string)
  : result pyval :=
  let response_text := extract_json_text response_text in
  match json_loads rt response_text with
  | inl v => Ok v
  | inr e =>
      Err (Exn ValueError
             ("Failed to parse JSON response: " ++ e ++ Str.nl ++
              "Response: " ++ response_text))
  end.

(** The text for a finish reason other than [1] (normal completion). *)
Definition finish_reasons (finish_reason : Z) : string :=
  if finish_reason =? 2 then "SAFETY - Response blocked by safety filters"
  else if finish_reason =? 3 then "RECITATION - Response blocked due to recitation"
  else if finish_reason =? 4 then "OTHER - Response stopped for other reasons"
  else "Unknown (" ++ NilZero.string_of_int (Z.to_int finish_reason) ++ ")".

(** The body of the [try] in [generate_response]. *)
Definition checked_text (rt : runtime) (model_name : string) (p : prompt)
  : result string :=
  response <-r generate_content rt model_name p ;;
  match candidates response with
  | [] =>
      Err (Exn RuntimeError
             "No response candidates returned. Likely blocked by safety filters.")
  | candidate :: _ =>
      if negb (finish_reason candidate =? 1)
      then Err (Exn RuntimeError (finish_reasons (finish_reason candidate)))
      else if negb (has_parts candidate)
      then Err (Exn RuntimeError "Response has no content parts")
      else text response
  end.

(** [generate_response]: whatever the body raises is raised again as a
    [RuntimeError] that names the model. *)
Definition generate_response (rt : runtime) (model_name : string) (p : prompt)
  : result string :=
  match checked_text rt model_name p with
  | Ok t => Ok t
  | Err e =>
      Err (Exn RuntimeError ("Agent " ++ model_name ++ " failed: " ++ exn_msg e))
  end.

End BaseAgent.

(** ** agents/config.py *)

Module Config.
Definition STRESS_DETECTOR_MODEL := "gemini-flash-latest".
Definition SENTIMENT_ANALYZER_MODEL := "gemini-flash-latest".
Definition STRESSOR_FINDER_MODEL := "gemini-flash-latest".
Definition BLOCKER_FINDER_MODEL := "gemini-flash-latest".
Definition SEVERITY_CLASSIFIER_MODEL := "gemini-pro-latest".

Definition model_of (a : agent) : string :=
  match a with
  | StressDetector => STRESS_DETECTOR_MODEL
  | SentimentAnalyzer => SENTIMENT_ANALYZER_MODEL
  | StressorFinder => STRESSOR_FINDER_MODEL
  | BlockerFinder => BLOCKER_FINDER_MODEL
  | SeverityClassifier => SEVERITY_CLASSIFIER_MODEL
  end.
End Config.

(** ** The five agents *)

Module Agents.

(** The prompt of agent [a]: the rendered transcript, then the agent's
    instruction block. *)
Definition build_prompt (rt : runtime) (a : agent) (transcript : list pyval)
    (duration : option pyval) : result prompt :=
  base <-r BaseAgent._create_prompt rt transcript duration ;;
  Ok {| base_prompt := base; prompt_instruction := a |}.

(** The two calls every agent makes on its prompt. *)
Definition ask (rt : runtime) (a : agent) (p : prompt) : result pyval :=
  response_text <-r BaseAgent.generate_response rt (Config.model_of a) p ;;
  BaseAgent._parse_json_response rt response_text.

(** stress_detector.py *)
Definition detect_stress (rt : runtime) (transcript : list pyval)
  : io StressDetectionResult.t :=
  IO.lift (
    p <-r build_prompt rt StressDetector transcript None ;;
    result_dict <-r ask rt StressDetector p ;;
    kwargs <-r Pydantic.unpack result_dict ;;
    StressDetectionResult.new rt kwargs).

(** sentiment_analyzer.py: a [RuntimeError] whose text holds ["SAFETY"]
    is answered with neutral counts; every other exception is raised. *)
Definition analyze_sentiment (rt : runtime) (transcript : list pyval)
  : io SentimentAnalysisResult.t :=
  p <- IO.lift (build_prompt rt SentimentAnalyzer transcript None) ;;
  IO.try_except
    (IO.lift (
       result_dict <-r ask rt SentimentAnalyzer p ;;
       kwargs <-r Pydantic.unpack result_dict ;;
       SentimentAnalysisResult.new rt kwargs))
    (fun e =>
       match exn_cls e with
       | RuntimeError =>
           if Str.contains "SAFETY" (exn_msg e) then
             IO.print NSafetyNeutral ;;;
             IO.lift (
               c <-r SentimentCounts.new rt
                       {[ "positive" := VInt 0; "negative" := VInt 0 ]} ;;
               Ok {| SentimentAnalysisResult.sentiment_counts := c |})
           else IO.raise e
       | _ => IO.raise e
       end).

(** stressor_finder.py *)
Definition identify_stressors (rt : runtime) (transcript : list pyval)
  : io StressorIdentificationResult.t :=
  IO.lift (
    p <-r build_prompt rt StressorFinder transcript None ;;
    result_dict <-r ask rt StressorFinder p ;;
    kwargs <-r Pydantic.unpack result_dict ;;
    StressorIdentificationResult.new kwargs).

(** blocker_finder.py *)
Definition identify_blockers (rt : runtime) (transcript : list pyval)
  : io BlockerIdentificationResult.t :=
  IO.lift (
    p <-r build_prompt rt BlockerFinder transcript None ;;
    result_dict <-r ask rt BlockerFinder p ;;
    kwargs <-r Pydantic.unpack result_dict ;;
    BlockerIdentificationResult.new kwargs).

(** severity_classifier.py *)
Definition classify_severity (rt : runtime) (transcript : list pyval)
    (duration : pyval) : io SeverityClassificationResult.t :=
  IO.lift (
    p <-r build_prompt rt SeverityClassifier transcript (Some duration) ;;
    result_dict <-r ask rt SeverityClassifier p ;;
    kwargs <-r Pydantic.unpack result_dict ;;
    SeverityClassificationResult.new rt kwargs).

End Agents.

(** ** agents/orchestrator.py *)

Module Orchestrator.

(** What a [_run_*] wrapper returns: the agent's model, or the exception
    it caught, returned as a value. *)
Inductive agent_result :=
| StressResult (r : StressDetectionResult.t)
| SentimentResult (r : SentimentAnalysisResult.t)
| StressorResult (r : StressorIdentificationResult.t)
| BlockerResult (r : BlockerIdentificationResult.t)
| SeverityResult (r : SeverityClassificationResult.t)
| ExceptionResult (e : exn).

Definition opt_float (o : option spec_float) : pyval :=
  match o with Some f => VFloat f | None => VNone end.

Definition opt_strs (o : option (list string)) : pyval :=
  match o with Some l => VList (VStr <$> l) | None => VNone end.

(** The fields of a result model by name; the counts object is shown by
    its field mapping. *)
Definition fields (result : agent_result) : gmap string pyval :=
  match result with
  | StressResult r =>
      {[ "stressed_detected" := VBool (StressDetectionResult.stressed_detected r);
         "confidence" := opt_float (StressDetectionResult.confidence r) ]}
  | SentimentResult r =>
      {[ "sentiment_counts" :=
           VDict (VInt <$> SentimentCounts.model_dump
                             (SentimentAnalysisResult.sentiment_counts r)) ]}
  | StressorResult r =>
      {[ "top_stressors" := VStr (StressorIdentificationResult.top_stressors r) ]}
  | BlockerResult r =>
      {[ "common_blockers" := VStr (BlockerIdentificationResult.common_blockers r) ]}
  | SeverityResult r =>
      {[ "is_severe_case" := VBool (SeverityClassificationResult.is_severe_case r);
         "severity_indicators" :=
           opt_strs (SeverityClassificationResult.severity_indicators r) ]}
  | ExceptionResult _ => ∅
  end.

(** [getattr(result, field, default)] *)
Definition getattr (result : agent_result) (field : string) (default : pyval)
  : pyval :=
  match fields result !! field with
  | Some v => v
  | None => default
  end.

(** The shape shared by the five [_run_*] wrappers: the agent's
    exception is caught and returned. *)
Definition run_agent {A} (a : agent) (wrap : A -> agent_result) (call : io A)
  : io agent_result :=
  IO.try_except
    (IO.print (NRunning a) ;;;
     result <- call ;;
     IO.print (NSucceeded a) ;;;
     IO.ret (wrap result))
    (fun e => IO.print (NFailed a e) ;;; IO.ret (ExceptionResult e)).

Definition _run_stress_detector (rt : runtime) (transcript : list pyval) :=
  run_agent StressDetector StressResult (Agents.detect_stress rt transcript).

Definition _run_sentiment_analyzer (rt : runtime) (transcript : list pyval) :=
  run_agent SentimentAnalyzer SentimentResult (Agents.analyze_sentiment rt transcript).

Definition _run_stressor_finder (rt : runtime) (transcript : list pyval) :=
  run_agent StressorFinder StressorResult (Agents.identify_stressors rt transcript).

Definition _run_blocker_finder (rt : runtime) (transcript : list pyval) :=
  run_agent BlockerFinder BlockerResult (Agents.identify_blockers rt transcript).

Definition _run_severity_classifier (rt : runtime) (transcript : list pyval)
    (duration : pyval) :=
  run_agent SeverityClassifier SeverityResult
    (Agents.classify_severity rt transcript duration).

(** [asyncio.gather(..., return_exceptions=True)] once it runs: every
    task is awaited, and a task that raises yields its exception. *)
Fixpoint gather_all (tasks : list (io agent_result)) : io (list agent_result) :=
  match tasks with
  | [] => IO.ret []
  | task :: rest =>
      r <- IO.try_except task (fun e => IO.ret (ExceptionResult e)) ;;
      rs <- gather_all rest ;;
      IO.ret (r :: rs)
  end.

(** The dispatch itself may raise, in which case no task has run. *)
Definition gather (rt : runtime) (tasks : list (io agent_result))
  : io (list agent_result) :=
  match gather_fault rt with
  | Some e => IO.raise e
  | None => gather_all tasks
  end.

Definition _extract_result (result : agent_result) (field : string)
    (default : pyval) : io pyval :=
  match result with
  | ExceptionResult _ => IO.print (NDefault field) ;;; IO.ret default
  | _ => IO.ret (getattr result field default)
  end.

Definition _extract_sentiment (rt : runtime) (result : agent_result)
  : io SentimentCounts.t :=
  match result with
  | ExceptionResult _ =>
      IO.print (NDefault "sentiment_counts") ;;;
      IO.lift (SentimentCounts.new rt
                 {[ "positive" := VInt 0; "negative" := VInt 0 ]})
  | SentimentResult r => IO.ret (SentimentAnalysisResult.sentiment_counts r)
  | _ => IO.raise (Exn AttributeError "object has no attribute 'sentiment_counts'")
  end.

(** The five results of the dispatch, unpacked. *)
Definition dispatch (rt : runtime) (transcript : list pyval)
    (duration_seconds : pyval)
  : io (agent_result * agent_result * agent_result * agent_result * agent_result) :=
  IO.try_except
    (results <- gather rt
                  [ _run_stress_detector rt transcript;
                    _run_sentiment_analyzer rt transcript;
                    _run_stressor_finder rt transcript;
                    _run_blocker_finder rt transcript;
                    _run_severity_classifier rt transcript duration_seconds ] ;;
     match results with
     | [stress_result; sentiment_result; stressor_result; blocker_result;
        severity_result] =>
         IO.ret (stress_result, sentiment_result, stressor_result,
                 blocker_result, severity_result)
     | _ => IO.raise (Exn ValueError "wrong number of values to unpack")
     end)
    (fun e =>
       IO.raise (Exn RuntimeError
                   ("Critical failure in agent orchestration: " ++ exn_msg e))).

Definition analyze_call (rt : runtime) (call_id : pyval)
    (transcript : list pyval) (duration_seconds : pyval)
  : io CallAnalysisReport.t :=
  IO.print (NStart call_id (List.length transcript) duration_seconds) ;;;
  results <- dispatch rt transcript duration_seconds ;;
  let '(stress_result, sentiment_result, stressor_result, blocker_result,
        severity_result) := results in
  stressed_detected <- _extract_result stress_result "stressed_detected" (VBool false) ;;
  sentiment_counts <- _extract_sentiment rt sentiment_result ;;
  top_stressors <- _extract_result stressor_result "top_stressors" (VStr "") ;;
  common_blockers <- _extract_result blocker_result "common_blockers" (VStr "") ;;
  is_severe_case <- _extract_result severity_result "is_severe_case" (VBool false) ;;
  report <- IO.lift (CallAnalysisReport.create rt call_id duration_seconds
                       stressed_detected sentiment_counts top_stressors
                       common_blockers is_severe_case) ;;
  IO.print NComplete ;;;
  IO.ret report.

End Orchestrator.

(** ** call_analyzer.py *)

Module CallAnalyzer.

Definition required_fields : list string :=
  ["call_id"; "duration_seconds"; "transcript"].

(** The loop over [required_fields]: the first missing one is reported. *)
Fixpoint check_required (fields : list string) (data : gmap string pyval)
  : result unit :=
  match fields with
  | [] => Ok tt
  | field :: rest =>
      match data !! field with
      | None => Err (Exn ValueError ("Missing required field: " ++ field))
      | Some _ => check_required rest data
      end
  end.

(** [processed_call_data[key]] *)
Definition item (data : gmap string pyval) (key : string) : result pyval :=
  match data !! key with
  | Some v => Ok v
  | None => Err (Exn OtherException ("KeyError: " ++ key))
  end.

(** The transcript must be a list with at least one element. *)
Definition check_transcript (transcript : pyval) : result (list pyval) :=
  match transcript with
  | VList (m :: l) => Ok (m :: l)
  | _ => Err (Exn ValueError "Transcript must be a non-empty list")
  end.

(** [analyze_call] once the global orchestrator exists, when
    [get_orchestrator()] only returns it; [Startup.analyze_call] below is
    the entry point with the orchestrator made on demand. *)
Definition analyze_call (rt : runtime) (processed_call_data : gmap string pyval)
  : io CallAnalysisReport.t :=
  IO.lift (check_required required_fields processed_call_data) ;;;
  call_id <- IO.lift (item processed_call_data "call_id") ;;
  duration_seconds <- IO.lift (item processed_call_data "duration_seconds") ;;
  transcript <- IO.lift (item processed_call_data "transcript") ;;
  transcript <- IO.lift (check_transcript transcript) ;;
  Orchestrator.analyze_call rt call_id transcript duration_seconds.

End CallAnalyzer.

(** ** models/processed_call.py and processors/call_report_processor.py *)

Module TranscriptMessage.
Record t := { role : string; content : string }.

Definition new (role content : pyval) : result t :=
  r <-r Pydantic.validate_str "role" role ;;
  c <-r Pydantic.validate_str "content" content ;;
  Ok {| role := r; content := c |}.
End TranscriptMessage.

Module Processor.

(** [d.get(key, default)] *)
Definition get (d : gmap string pyval) (key : string) (default : pyval) : pyval :=
  match d !! key with
  | Some v => v
  | None => default
  end.

(** The loop of [_transform_messages], with the list built so far. *)
Fixpoint transform_loop (raw_messages : list pyval)
    (transcript : list TranscriptMessage.t) : result (list TranscriptMessage.t) :=
  match raw_messages with
  | [] => Ok transcript
  | raw_msg :: rest =>
      match raw_msg with
      | VDict d =>
          let role := get d "role" (VStr "unknown") in
          let content := get d "message" (VStr "") in
          if truthy content then
            m <-r TranscriptMessage.new role content ;;
            transform_loop rest (transcript ++ [m])%list
          else transform_loop rest transcript
      | _ => transform_loop rest transcript
      end
  end.

Definition _transform_messages (raw_messages : list pyval)
  : result (list TranscriptMessage.t) :=
  transform_loop raw_messages [].

End Processor.

(** ** Vocabulary of the statements *)

(** What a [_run_*] wrapper hands to the orchestrator for an agent call. *)
Definition settled {A} (wrap : A -> Orchestrator.agent_result) (call : io A)
  : Orchestrator.agent_result :=
  match IO.outcome call with
  | Ok a => wrap a
  | Err e => Orchestrator.ExceptionResult e
  end.

(** The value [_extract_result] returns. *)
Definition pick (result : Orchestrator.agent_result) (field : string)
    (default : pyval) : pyval :=
  match result with
  | Orchestrator.ExceptionResult _ => default
  | _ => Orchestrator.getattr result field default
  end.

Definition zero_counts : SentimentCounts.t :=
  {| SentimentCounts.positive := 0; SentimentCounts.negative := 0 |}.

(** The documented defaults of the five analysis fields. *)
Definition default_analysis : CallAnalysis.t :=
  {| CallAnalysis.stressed_detected := false;
     CallAnalysis.sentiment_counts := zero_counts;
     CallAnalysis.top_stressors := "";
     CallAnalysis.common_blockers := "";
     CallAnalysis.is_severe_case := false |}.

(** An agent call that raises. *)
Definition fails {A} (call : io A) : Prop := exists e, IO.outcome call = Err e.

(** The duration passes the [ge=0] check of the report model. *)
Definition nonnegative (f : spec_float) : Prop := SFleb Pydantic.float_zero f = true.

(** The field of the analysis that agent [a] feeds has its default. *)
Definition field_defaulted (a : agent) (an : CallAnalysis.t) : Prop :=
  match a with
  | StressDetector => CallAnalysis.stressed_detected an = false
  | SentimentAnalyzer => CallAnalysis.sentiment_counts an = zero_counts
  | StressorFinder => CallAnalysis.top_stressors an = ""
  | BlockerFinder => CallAnalysis.common_blockers an = ""
  | SeverityClassifier => CallAnalysis.is_severe_case an = false
  end.

(** The test made by the sentiment agent on a caught exception. *)
Definition marked_safety (e : exn) : bool := Str.contains "SAFETY" (exn_msg e).

(** The transcript entry the webhook message [raw_msg] stands for: a dict
    with a non-empty text under ["message"] gives its role, ["unknown"]
    when there is none, and that text; anything else gives no entry. *)
Definition kept_entry (raw_msg : pyval) : option TranscriptMessage.t :=
  match raw_msg with
  | VDict d =>
      match d !! "message" with
      | Some (VStr content) =>
          if String.eqb content "" then None
          else Some {| TranscriptMessage.role :=
                         match d !! "role" with
                         | Some (VStr role) => role
                         | _ => "unknown"
                         end;
                       TranscriptMessage.content := content |}
      | _ => None
      end
  | _ => None
  end.

(** A webhook message whose ["message"], when truthy, is a string, and
    whose ["role"] is then absent or a string. *)
Definition text_fields (raw_msg : pyval) : bool :=
  match raw_msg with
  | VDict d =>
      match d !! "message" with
      | Some v =>
          if truthy v then
            match v, d !! "role" with
            | VStr _, None | VStr _, Some (VStr _) => true
            | _, _ => false
            end
          else true
      | None => true
      end
  | _ => true
  end.

(** A text column of the flattened row as a value; [blank] is what a
    column stored as [None] is read as. *)
Definition column (blank : pyval) (o : option string) : pyval :=
  match o with
  | Some s => VStr s
  | None => blank
  end.

(** Modelled from the spec: the reconstruction of the Composite Analysis
    view from a flattened row, which the source does not have.  The columns
    of the row are given back to the [CallAnalysis] model, the stored counts
    through the [SentimentCounts] model.  A text column stored as [None]
    holds no name and is read as the empty text, the way the one reader of
    the rows in the repository, the report worker, reads it. *)
Definition rebuild (rt : runtime) (row : CallReportDB.t) : result CallAnalysis.t :=
  counts <-r SentimentCounts.new rt (VInt <$> CallReportDB.sentiment_counts row) ;;
  CallAnalysis.new rt
    (VBool (CallReportDB.stressed_detected row))
    counts
    (column (VStr "") (CallReportDB.top_stressors row))
    (column (VStr "") (CallReportDB.common_blockers row))
    (VBool (CallReportDB.is_severe_case row)).

(** The invariant of the [SentimentCounts] model, [ge=0] on both fields. *)
Definition counts_valid (c : SentimentCounts.t) : Prop :=
  0 <= SentimentCounts.positive c /\ 0 <= SentimentCounts.negative c.

(** No fence starts inside [s] when a fence follows it: [s] holds no
    triple backtick and does not end in a backtick. *)
Definition fence_clear (s : string) : Prop := Str.contains "```" (s ++ "``") = false.

(** The parser on the text it hands to the decoder. *)
Definition parsed (rt : runtime) (json_text : string) : result pyval :=
  match json_loads rt json_text with
  | inl v => Ok v
  | inr e =>
      Err (Exn ValueError
             ("Failed to parse JSON response: " ++ e ++ Str.nl ++
              "Response: " ++ json_text))
  end.

(** Whether the character [c] occurs in [s]. *)
Fixpoint has_char (c : ascii) (s : string) : bool :=
  match s with
  | EmptyString => false
  | String d s' => Ascii.eqb c d || has_char c s'
  end.

(** *** A scripted runtime for concrete runs *)

Module Script.

Definition dq : string := String (ascii_of_nat 34) EmptyString.

(** A normal completion with the given text. *)
Definition says (s : string) : result response :=
  Ok {| candidates := [ {| finish_reason := 1; has_parts := true |} ];
        text := Ok s |}.

(** A candidate stopped with finish reason [2], which the table of
    [generate_response] reads as a stop by the safety filters. *)
Definition blocked : result response :=
  Ok {| candidates := [ {| finish_reason := 2; has_parts := false |} ];
        text := Err (Exn ValueError "no valid part") |}.

Definition timeout : result response :=
  Err (Exn OtherException "deadline exceeded").

Definition stress_json : string :=
  "{" ++ dq ++ "stressed_detected" ++ dq ++ ": true}".
Definition sentiment_json : string :=
  "{" ++ dq ++ "sentiment_counts" ++ dq ++ ": {" ++ dq ++ "positive" ++ dq
  ++ ": 1, " ++ dq ++ "negative" ++ dq ++ ": 4}}".
Definition stressor_json : string :=
  "{" ++ dq ++ "top_stressors" ++ dq ++ ": " ++ dq ++ "workload, deadlines" ++ dq ++ "}".
Definition blocker_json : string :=
  "{" ++ dq ++ "common_blockers" ++ dq ++ ": " ++ dq ++ "lack of clarity" ++ dq ++ "}".
Definition severity_json : string :=
  "{" ++ dq ++ "is_severe_case" ++ dq ++ ": true, " ++ dq ++ "severity_indicators"
  ++ dq ++ ": [" ++ dq ++ "self-harm" ++ dq ++ "]}".

(** A decoder that knows the five texts above. *)
Definition decode (s : string) : pyval + string :=
  if String.eqb s stress_json then
    inl (VDict {[ "stressed_detected" := VBool true ]})
  else if String.eqb s sentiment_json then
    inl (VDict {[ "sentiment_counts" :=
                   VDict {[ "positive" := VInt 1; "negative" := VInt 4 ]} ]})
  else if String.eqb s stressor_json then
    inl (VDict {[ "top_stressors" := VStr "workload, deadlines" ]})
  else if String.eqb s blocker_json then
    inl (VDict {[ "common_blockers" := VStr "lack of clarity" ]})
  else if String.eqb s severity_json then
    inl (VDict {[ "is_severe_case" := VBool true;
                  "severity_indicators" := VList [VStr "self-harm"] ]})
  else inr "Expecting value: line 1 column 1 (char 0)".

(** A runtime whose service answers each agent as [answer] says. *)
Definition runtime_of (answer : agent -> result response) (fault : option exn)
  : runtime :=
  {| generate_content := fun _ p => answer (prompt_instruction p);
     json_loads := decode;
     lax_bool := fun _ => None;
     lax_int := fun _ => None;
     lax_float := fun _ => None;
     str_upper := fun s => s;
     format_value := fun v => match v with VStr s => s | _ => "?" end;
     utcnow_isoformat := "2025-11-29T06:55:00.142000";
     gather_fault := fault |}.

Definition all_good (a : agent) : result response :=
  match a with
  | StressDetector => says ("```json" ++ Str.nl ++ stress_json ++ Str.nl ++ "```")
  | SentimentAnalyzer => says sentiment_json
  | StressorFinder => says stressor_json
  | BlockerFinder => says ("```" ++ blocker_json ++ "```")
  | SeverityClassifier => says severity_json
  end.

Definition all_down (_ : agent) : result response := timeout.

Definition all_blocked (_ : agent) : result response := blocked.

Definition transcript : list pyval :=
  [ VDict {[ "role" := VStr "user"; "content" := VStr "I might hurt myself" ]} ].

(** 45.0 *)
Definition duration : spec_float := S754_finite false 6333186975989760 (-47).

End Script.

(** * Further parts of the code *)

(** ** More on strings *)

(** [s[:-1]]: [s] without its last character. *)
Definition but_last (s : string) : string :=
  Str.take (String.length s - 1) s.

(** ** More vocabulary *)

(** Every request made for agent [a] is answered, and the answer decodes
    to [v]. *)
Definition replies (rt : runtime) (a : agent) (v : pyval) : Prop :=
  forall p, prompt_instruction p = a -> Agents.ask rt a p = Ok v.

(** A transcript message [_create_prompt] cannot render: no dict, or a
    dict whose role is no string. *)
Definition unrenderable (msg : pyval) : bool :=
  match msg with
  | VDict d =>
      match default (VStr "unknown") (d !! "role") with
      | VStr _ => false
      | _ => true
      end
  | _ => true
  end.

(** The report with every analysis field at its default. *)
Definition default_report (rt : runtime) (call_id : string) (duration : spec_float)
  : CallAnalysisReport.t :=
  {| CallAnalysisReport.call_id := call_id;
     CallAnalysisReport.call_duration_seconds := duration;
     CallAnalysisReport.analysis_timestamp := utcnow_isoformat rt ++ "Z";
     CallAnalysisReport.analysis := default_analysis |}.

(** What a [_run_*] wrapper prints for an agent call: that it runs, what
    the agent itself prints, then that it returned or that it failed. *)
Definition agent_block {A} (a : agent) (call : io A) : list notice :=
  (NRunning a :: IO.output call ++
   [ match IO.outcome call with
     | Ok _ => NSucceeded a
     | Err e => NFailed a e
     end ])%list.

(** The notice printed when the default of [field] is substituted for an
    agent call that raised. *)
Definition default_notice {A} (field : string) (call : io A) : list notice :=
  match IO.outcome call with
  | Ok _ => []
  | Err _ => [NDefault field]
  end.

(** Sequencing on plain results when the first value is not used. *)
Notation "m ;;r k" := (rbind m (fun _ => k))
  (at level 100, right associativity).

(** ** models/processed_call.py *)

Module ProcessedCall.
Record t := {
  call_id : string;
  agent_id : string;
  customer_number : option string;
  call_type : string;
  start_timestamp : string;
  end_timestamp : string;
  duration_seconds : spec_float;
  transcript : list TranscriptMessage.t
}.

(** [Field(gt=lo)] on a [float]; a NaN fails every comparison. *)
Definition float_gt (field : string) (lo f : spec_float) : result spec_float :=
  if SFltb lo f then Ok f else Err (Pydantic.validation_error field).

(** A field of type [Optional[str]]. *)
Definition validate_optional_str (field : string) (v : pyval)
  : result (option string) :=
  match v with
  | VNone => Ok None
  | _ => s <-r Pydantic.validate_str field v ;; Ok (Some s)
  end.

(** [ProcessedCall(...)] with every field given, as the processor calls
    it.  The transcript arrives as a list of [TranscriptMessage] instances
    and is taken as it is; [duration_seconds] carries [gt=0]. *)
Definition new (rt : runtime) (call_id agent_id customer_number call_type
    start_timestamp end_timestamp duration_seconds : pyval)
    (transcript : list TranscriptMessage.t) : result t :=
  c <-r Pydantic.validate_str "call_id" call_id ;;
  a <-r Pydantic.validate_str "agent_id" agent_id ;;
  n <-r validate_optional_str "customer_number" customer_number ;;
  k <-r Pydantic.validate_str "call_type" call_type ;;
  s <-r Pydantic.validate_str "start_timestamp" start_timestamp ;;
  e <-r Pydantic.validate_str "end_timestamp" end_timestamp ;;
  d <-r (f <-r Pydantic.validate_float rt "duration_seconds" duration_seconds ;;
         float_gt "duration_seconds" Pydantic.float_zero f) ;;
  Ok {| call_id := c; agent_id := a; customer_number := n; call_type := k;
        start_timestamp := s; end_timestamp := e; duration_seconds := d;
        transcript := transcript |}.

(** [TranscriptMessage.model_dump()] *)
Definition dump_message (m : TranscriptMessage.t) : pyval :=
  VDict {[ "role" := VStr (TranscriptMessage.role m);
           "content" := VStr (TranscriptMessage.content m) ]}.

Definition dump_optional_str (o : option string) : pyval :=
  match o with Some s => VStr s | None => VNone end.

(** [model_dump()]: nested models are dumped as dicts. *)
Definition model_dump (c : t) : gmap string pyval :=
  {[ "call_id" := VStr (call_id c);
     "agent_id" := VStr (agent_id c);
     "customer_number" := dump_optional_str (customer_number c);
     "call_type" := VStr (call_type c);
     "start_timestamp" := VStr (start_timestamp c);
     "end_timestamp" := VStr (end_timestamp c);
     "duration_seconds" := VFloat (duration_seconds c);
     "transcript" := VList (dump_message <$> transcript c) ]}.
End ProcessedCall.

(** ** processors/call_report_processor.py, the entry point *)

Module CallReportProcessor.

(** [if cond: raise e] *)
Definition raise_if (cond : bool) (e : exn) : result unit :=
  if cond then Err e else Ok tt.

(** [v == s] for a string [s] *)
Definition equals_str (v : pyval) (s : string) : bool :=
  match v with
  | VStr s' => String.eqb s' s
  | _ => false
  end.

(** [isinstance(v, dict)], with the exception raised when it is not *)
Definition expect_dict (v : pyval) (e : exn) : result (gmap string pyval) :=
  match v with
  | VDict d => Ok d
  | _ => Err e
  end.

(** [v.get]: only a dict has the method. *)
Definition get_method (v : pyval) : result (gmap string pyval) :=
  expect_dict v (Exn AttributeError "object has no attribute 'get'").

(** What [for raw_msg in raw_messages] goes through: the items of a list,
    the characters of a string, the keys of a dict (none of which is a
    dict, so that their order is of no account); no other value can be
    iterated. *)
Definition iterate (v : pyval) : result (list pyval) :=
  match v with
  | VList l => Ok l
  | VStr s => Ok ((fun c => VStr (String c "")) <$> list_ascii_of_string s)
  | VDict d => Ok (VStr <$> (map_to_list d).*1)
  | _ => Err (Exn TypeError "object is not iterable")
  end.

Definition process_end_of_call_report (rt : runtime) (message : gmap string pyval)
  : result ProcessedCall.t :=
  let msg_type := Processor.get message "type" VNone in
  raise_if (negb (equals_str msg_type "end-of-call-report"))
    (Exn ValueError ("Expected message type 'end-of-call-report', got '"
                     ++ format_value rt msg_type ++ "'")) ;;r
  call <-r expect_dict (Processor.get message "call" (VDict ∅))
             (Exn ValueError "Missing or invalid 'call' object in message") ;;
  let call_id := Processor.get call "id" VNone in
  raise_if (negb (truthy call_id))
    (Exn ValueError "Missing 'call.id' in message") ;;r
  let call_type := Processor.get call "type" (VStr "unknown") in
  customer <-r get_method (Processor.get message "customer" (VDict ∅)) ;;
  let customer_number := Processor.get customer "number" VNone in
  assistant <-r expect_dict (Processor.get message "assistant" (VDict ∅))
                  (Exn ValueError "Missing or invalid 'assistant' object in message") ;;
  let agent_id := Processor.get assistant "id" VNone in
  raise_if (negb (truthy agent_id))
    (Exn ValueError "Missing 'assistant.id' in message") ;;r
  let start_timestamp := Processor.get message "startedAt" VNone in
  raise_if (negb (truthy start_timestamp))
    (Exn ValueError "Missing 'startedAt' in message") ;;r
  let end_timestamp := Processor.get message "endedAt" VNone in
  raise_if (negb (truthy end_timestamp))
    (Exn ValueError "Missing 'endedAt' in message") ;;r
  let duration_seconds := Processor.get message "durationSeconds" VNone in
  raise_if (match duration_seconds with VNone => true | _ => false end)
    (Exn ValueError "Missing 'durationSeconds' in message") ;;r
  let raw_messages := Processor.get message "messages" (VList []) in
  transcript <-r (items <-r iterate raw_messages ;;
                  Processor._transform_messages items) ;;
  ProcessedCall.new rt call_id agent_id customer_number call_type start_timestamp
    end_timestamp duration_seconds transcript.

End CallReportProcessor.

(** The line of the prompt that shows a transcript entry. *)
Definition entry_line (rt : runtime) (m : TranscriptMessage.t) : string :=
  str_upper rt (TranscriptMessage.role m) ++ ": "
  ++ format_value rt (VStr (TranscriptMessage.content m)).

(** *** A webhook message for concrete runs *)

Module Webhook.

(** The message of the processor's documentation, with two entries that
    are dropped. *)
Definition message : gmap string pyval :=
  {[ "type" := VStr "end-of-call-report";
     "call" := VDict {[ "id" := VStr "123"; "type" := VStr "webCall" ]};
     "assistant" := VDict {[ "id" := VStr "456" ]};
     "startedAt" := VStr "2025-11-29T06:53:19.677Z";
     "endedAt" := VStr "2025-11-29T06:55:00.142Z";
     "durationSeconds" := VFloat Script.duration;
     "messages" :=
       VList [ VDict {[ "role" := VStr "user"; "message" := VStr "Hello" ]};
               VDict {[ "role" := VStr "tool_calls" ]};
               VInt 3;
               VDict {[ "role" := VStr "assistant";
                        "message" := VStr "Hi there!" ]} ] ]}.

Definition call : ProcessedCall.t :=
  {| ProcessedCall.call_id := "123";
     ProcessedCall.agent_id := "456";
     ProcessedCall.customer_number := None;
     ProcessedCall.call_type := "webCall";
     ProcessedCall.start_timestamp := "2025-11-29T06:53:19.677Z";
     ProcessedCall.end_timestamp := "2025-11-29T06:55:00.142Z";
     ProcessedCall.duration_seconds := Script.duration;
     ProcessedCall.transcript :=
       [ {| TranscriptMessage.role := "user"; TranscriptMessage.content := "Hello" |};
         {| TranscriptMessage.role := "assistant";
            TranscriptMessage.content := "Hi there!" |} ] |}.

End Webhook.

(** ** Stateful code that logs what it does *)

Module Run.
Section Run.
Context {S E : Type}.

(** A computation over a state [S] that logs events [E] and returns or
    raises. *)
Definition t (A : Type) : Type := S -> list E * S * result A.

Definition ret {A} (a : A) : t A := fun s => ([], s, Ok a).
Definition raise {A} (e : exn) : t A := fun s => ([], s, Err e).
Definition emit (ev : E) : t unit := fun s => ([ev], s, Ok tt).
Definition lift {A} (r : result A) : t A := fun s => ([], s, r).
Definition read : t S := fun s => ([], s, Ok s).
Definition modify (f : S -> S) : t unit := fun s => ([], f s, Ok tt).

Definition bind {A B} (m : t A) (k : A -> t B) : t B :=
  fun s =>
    match m s with
    | (out, s', Ok a) =>
        match k a s' with
        | (out', s'', r) => ((out ++ out')%list, s'', r)
        end
    | (out, s', Err e) => (out, s', Err e)
    end.

(** A request to the outside: it is logged, then it returns or raises. *)
Definition request {A} (ev : E) (r : result A) : t A :=
  fun s => ([ev], s, r).

(** [try: m except Exception as e: h e] *)
Definition try_except {A} (m : t A) (h : exn -> t A) : t A :=
  fun s =>
    match m s with
    | (out, s', Ok a) => (out, s', Ok a)
    | (out, s', Err e) =>
        match h e s' with
        | (out', s'', r) => ((out ++ out')%list, s'', r)
        end
    end.

(** [try: m finally: f]: [f] runs however [m] ends; if [f] raises, its
    exception replaces the outcome of [m]. *)
Definition try_finally {A} (m : t A) (f : t unit) : t A :=
  fun s =>
    match m s with
    | (out, s', r) =>
        match f s' with
        | (out', s'', Ok _) => ((out ++ out')%list, s'', r)
        | (out', s'', Err e) => ((out ++ out')%list, s'', Err e)
        end
    end.

Definition events {A} (x : list E * S * result A) : list E := x.1.1.
Definition outcome {A} (x : list E * S * result A) : result A := x.2.
Definition final {A} (x : list E * S * result A) : S := x.1.2.

End Run.
Arguments t : clear implicits.
End Run.

Declare Scope run_scope.
Delimit Scope run_scope with run.
Notation "x <- m ;; k" := (Run.bind m (fun x => k)) : run_scope.
Notation "m ;;; k" := (Run.bind m (fun _ => k)) : run_scope.

(** ** database.py *)

Module Database.

(** What the manager asks of the driver and what it prints, in order. *)
Inductive event :=
| NewPool
| GetConn
| Cursor
| Execute (report_db : CallReportDB.t)
| FetchOne
| Commit
| Rollback
| CloseCursor
| PutConn
| PoolCreated
| PoolError (e : exn)
| Saved (report_id : pyval)
| SaveFailed (e : exn).

(** The driver: how each request to psycopg2 ends.  [fetchone] gives a
    row or [None]. *)
Record driver := {
  new_pool : result unit;
  getconn : result unit;
  cursor : result unit;
  execute : CallReportDB.t -> result unit;
  fetchone : result (option (list pyval));
  commit : result unit;
  rollback : result unit;
  close : result unit;
  putconn : result unit
}.

(** The manager's [_pool] and the two local names of [save_call_report]:
    [conn] is [None] or a connection, [cursor] is bound or not. *)
Record names := { _pool : bool; conn : bool; cursor_bound : bool }.

(** A computation over these names that logs events and returns or
    raises. *)
Definition db (A : Type) : Type := Run.t names event A.

Definition set_pool (b : bool) : db unit :=
  Run.modify (fun s => {| _pool := b; conn := conn s; cursor_bound := cursor_bound s |}).
Definition set_conn (b : bool) : db unit :=
  Run.modify (fun s => {| _pool := _pool s; conn := b; cursor_bound := cursor_bound s |}).
Definition set_cursor_bound (b : bool) : db unit :=
  Run.modify (fun s => {| _pool := _pool s; conn := conn s; cursor_bound := b |}).

End Database.

Module DatabaseManager.
Import Database.

(** Reading a local name that was never assigned: [UnboundLocalError],
    which [exn_class] files under [OtherException]. *)
Definition UnboundLocalError (name : string) : exn :=
  Exn OtherException
    ("cannot access local variable '" ++ name
     ++ "' where it is not associated with a value").

Definition _initialize_pool (dr : driver) : db unit :=
  (Run.try_except
     (Run.request NewPool (new_pool dr) ;;;
      set_pool true ;;;
      Run.emit PoolCreated)
     (fun e =>
        Run.emit (PoolError e) ;;;
        set_pool false))%run.

Definition get_connection (dr : driver) : db unit :=
  (s <- Run.read ;;
   if _pool s then Run.request GetConn (getconn dr)
   else
     _initialize_pool dr ;;;
     s <- Run.read ;;
     if _pool s then Run.request GetConn (getconn dr)
     else Run.raise (Exn OtherException "Database connection pool is not initialized."))%run.

Definition return_connection (dr : driver) : db unit :=
  (s <- Run.read ;;
   if _pool s && conn s then Run.request PutConn (putconn dr) else Run.ret tt)%run.

(** [cursor.fetchone()[0]] *)
Definition first_column (row : option (list pyval)) : result pyval :=
  match row with
  | None => Err (Exn TypeError "'NoneType' object is not subscriptable")
  | Some [] => Err (Exn OtherException "tuple index out of range")
  | Some (report_id :: _) => Ok report_id
  end.

(** [save_call_report]: on entry [cursor] is not bound, and [conn] is
    set to [None]. *)
Definition save_call_report (dr : driver) (report_db : CallReportDB.t) : db bool :=
  (set_cursor_bound false ;;;
   set_conn false ;;;
   Run.try_finally
     (Run.try_except
        (get_connection dr ;;;
         set_conn true ;;;
         Run.request Cursor (cursor dr) ;;;
         set_cursor_bound true ;;;
         Run.request (Execute report_db) (execute dr report_db) ;;;
         row <- Run.request FetchOne (fetchone dr) ;;
         report_id <- Run.lift (first_column row) ;;
         Run.request Commit (commit dr) ;;;
         Run.emit (Saved report_id) ;;;
         Run.ret true)
        (fun e =>
           Run.emit (SaveFailed e) ;;;
           s <- Run.read ;;
           (if conn s then Run.request Rollback (rollback dr) else Run.ret tt) ;;;
           Run.ret false))
     (s <- Run.read ;;
      (if cursor_bound s then Run.request CloseCursor (close dr)
       else Run.raise (UnboundLocalError "cursor")) ;;;
      return_connection dr))%run.

End DatabaseManager.

(** *** Drivers for concrete runs *)

Module Driver.
Import Database.

Definition working : driver :=
  {| new_pool := Ok tt; getconn := Ok tt; cursor := Ok tt;
     execute := fun _ => Ok tt; fetchone := Ok (Some [VInt 17]);
     commit := Ok tt; rollback := Ok tt; close := Ok tt; putconn := Ok tt |}.

Definition no_server : driver :=
  {| new_pool := Err (Exn OtherException "could not connect to server");
     getconn := Err (Exn OtherException "connection pool exhausted");
     cursor := Ok tt; execute := fun _ => Ok tt; fetchone := Ok None;
     commit := Ok tt; rollback := Ok tt; close := Ok tt; putconn := Ok tt |}.

Definition refusing : driver :=
  {| new_pool := Ok tt; getconn := Ok tt; cursor := Ok tt;
     execute := fun _ => Err (Exn OtherException "value too long for type");
     fetchone := Ok None;
     commit := Ok tt; rollback := Ok tt; close := Ok tt; putconn := Ok tt |}.

Definition row : CallReportDB.t :=
  {| CallReportDB.call_id := "123";
     CallReportDB.call_duration_seconds := Script.duration;
     CallReportDB.stressed_detected := true;
     CallReportDB.sentiment_counts := {[ "positive" := 1; "negative" := 4 ]};
     CallReportDB.top_stressors := Some "workload, deadlines";
     CallReportDB.common_blockers := None;
     CallReportDB.is_severe_case := false |}.

(** The manager as the import of the module leaves it. *)
Definition imported (pool : bool) : names :=
  {| _pool := pool; conn := false; cursor_bound := false |}.

End Driver.
(** ** ai-engine/worker.py, reading the stored columns *)

Module Worker.

(** [s.split(",")] *)
Fixpoint split_comma (s : string) : list string :=
  match s with
  | EmptyString => [EmptyString]
  | String c s' =>
      if Ascii.eqb c "," then EmptyString :: split_comma s'
      else match split_comma s' with
           | tok :: toks => String c tok :: toks
           | [] => [String c EmptyString]
           end
  end.

(** [str(x)]: a string is itself, another value is rendered. *)
Definition str (rt : runtime) (x : pyval) : string :=
  match x with
  | VStr s => s
  | _ => format_value rt x
  end.

(** One step of the two comprehensions: [tok.strip()], kept if it is not
    empty. *)
Definition stripped (tok : string) : option string :=
  let t := Str.strip tok in
  if String.eqb t "" then None else Some t.

(** The tokens read from the field of a row that holds the stressors or
    the blockers: nothing for a falsy field, the items of a list or tuple,
    and otherwise the comma-separated parts of its text. *)
Definition tokens (rt : runtime) (s_field : pyval) : list string :=
  if truthy s_field then
    match s_field with
    | VList l => omap (fun x => stripped (str rt x)) l
    | _ => omap stripped (split_comma (str rt s_field))
    end
  else [].

End Worker.

(** A name that survives the comma-separated storage: not empty, without
    a comma, without white space at either end. *)
Definition clean (name : string) : bool :=
  negb (String.eqb name "") && negb (has_char "," name)
  && String.eqb (Str.strip name) name.

(** ** The lazily made globals: base_agent.py and call_analyzer.py *)

Module Startup.

(** What the process finds around it: the environment variable, and
    whether the client library builds a model of a given name. *)
Record environment := {
  GOOGLE_API_KEY : option string;
  GenerativeModel : string -> result unit
}.

(** The module-level names [_api_configured] of base_agent.py and
    [_orchestrator] of call_analyzer.py, the latter [None] or set. *)
Record globals := { _api_configured : bool; _orchestrator : bool }.

(** The calls made to the client library. *)
Inductive event :=
| Configure (api_key : string)
| NewModel (model_name : string).

Definition startup (A : Type) : Type := Run.t globals event A.

Definition key_not_found : exn :=
  Exn ValueError
    ("GOOGLE_API_KEY not found in environment variables." ++ Str.nl ++
     "Please create a .env file with your Google API key." ++ Str.nl ++
     "Get your API key from: https://makersuite.google.com/app/apikey" ++ Str.nl ++
     "Example .env content:" ++ Str.nl ++
     "GOOGLE_API_KEY=your_actual_api_key_here").

Definition _get_api_key (env : environment) : result string :=
  match GOOGLE_API_KEY env with
  | Some api_key => if String.eqb api_key "" then Err key_not_found else Ok api_key
  | None => Err key_not_found
  end.

Definition _configure_api (env : environment) : startup unit :=
  (g <- Run.read ;;
   if _api_configured g then Run.ret tt
   else
     api_key <- Run.lift (_get_api_key env) ;;
     Run.emit (Configure api_key) ;;;
     Run.modify (fun g => {| _api_configured := true;
                             _orchestrator := _orchestrator g |}))%run.

(** [BaseAgent.__init__] as each agent class calls it, with the model
    name of its settings. *)
Definition new_agent (env : environment) (a : agent) : startup unit :=
  (_configure_api env ;;;
   Run.request (NewModel (Config.model_of a))
     (GenerativeModel env (Config.model_of a)))%run.

(** [OrchestratorAgent.__init__] *)
Definition new_orchestrator (env : environment) : startup unit :=
  (new_agent env StressDetector ;;;
   new_agent env SentimentAnalyzer ;;;
   new_agent env StressorFinder ;;;
   new_agent env BlockerFinder ;;;
   new_agent env SeverityClassifier)%run.

Definition get_orchestrator (env : environment) : startup unit :=
  (g <- Run.read ;;
   if _orchestrator g then Run.ret tt
   else
     new_orchestrator env ;;;
     Run.modify (fun g => {| _api_configured := _api_configured g;
                             _orchestrator := true |}))%run.

(** The checks [analyze_call] makes before it asks for the
    orchestrator. *)
Definition validated (processed_call_data : gmap string pyval)
  : result (pyval * pyval * list pyval) :=
  CallAnalyzer.check_required CallAnalyzer.required_fields processed_call_data ;;r
  call_id <-r CallAnalyzer.item processed_call_data "call_id" ;;
  duration_seconds <-r CallAnalyzer.item processed_call_data "duration_seconds" ;;
  transcript <-r CallAnalyzer.item processed_call_data "transcript" ;;
  transcript <-r CallAnalyzer.check_transcript transcript ;;
  Ok (call_id, duration_seconds, transcript).

(** [call_analyzer.analyze_call] with the orchestrator made on demand:
    what is asked of the library, the globals afterwards, and what the
    analysis prints and returns. *)
Definition analyze_call (rt : runtime) (env : environment)
    (processed_call_data : gmap string pyval) (g : globals)
  : list event * globals * io CallAnalysisReport.t :=
  match validated processed_call_data with
  | Err e => ([], g, IO.raise e)
  | Ok (call_id, duration_seconds, transcript) =>
      match get_orchestrator env g with
      | (out, g', Ok _) =>
          (out, g', Orchestrator.analyze_call rt call_id transcript duration_seconds)
      | (out, g', Err e) => (out, g', IO.raise e)
      end
  end.

End Startup.

(** The orchestrator can be had: it exists, or the key is there (or was
    read before) and the library builds the model of every agent. *)
Definition startable (env : Startup.environment) (g : Startup.globals) : Prop :=
  Startup._orchestrator g = true \/
  ((Startup._api_configured g = true \/
    exists api_key, Startup.GOOGLE_API_KEY env = Some api_key /\ api_key <> "") /\
   forall a, Startup.GenerativeModel env (Config.model_of a) = Ok tt).

(** *** Two deployments for concrete runs *)

Module Deployment.

Definition with_key : Startup.environment :=
  {| Startup.GOOGLE_API_KEY := Some "example-key";
     Startup.GenerativeModel := fun _ => Ok tt |}.

Definition without_key : Startup.environment :=
  {| Startup.GOOGLE_API_KEY := None;
     Startup.GenerativeModel := fun _ => Ok tt |}.

(** The globals when the modules have just been imported. *)
Definition fresh : Startup.globals :=
  {| Startup._api_configured := false; Startup._orchestrator := false |}.

End Deployment.
(** ** utils/log_helpers.py *)

Module LogHelpers.

(** [s.replace(old, new)] for single characters *)
Fixpoint replace_char (old new : ascii) (s : string) : string :=
  match s with
  | EmptyString => EmptyString
  | String c s' =>
      String (if Ascii.eqb c old then new else c) (replace_char old new s')
  end.

Definition backslash : ascii := ascii_of_nat 92.

(** The sanitised type of the four functions,
    [msg_type.replace("/", "_").replace("\\", "_")]; only a string has
    the method. *)
Definition safe_type (msg_type : pyval) : result string :=
  match msg_type with
  | VStr s => Ok (replace_char backslash "_" (replace_char "/" "_" s))
  | _ => Err (Exn AttributeError "object has no attribute 'replace'")
  end.

End LogHelpers.

(** ** main.py *)

Module Main.

(** What the handler prints and what it asks of its collaborators. *)
Inductive step :=
| Incoming (msg_type : pyval)
| Processed (call_id : string)
| ProcessingFailed (e : exn)
| WebhookLog (safe_type : string) (processed_data : option (gmap string pyval))
| SavedTo
| SavedProcessed
| Starting
| Start (ev : Startup.event)
| Analysis (n : notice)
| AnalysisLog (safe_type : string) (call_id : pyval)
| AnalysisPath
| SevereCase
| SavingToDatabase
| Db (ev : Database.event)
| AnalysisFailed (e : exn)
| MessageProcessed (msg_type : pyval).

(** How a request ends: with the acknowledgment [{"status": "ok"}], with
    an [HTTPException], or with an exception the handler lets through. *)
Inductive reply :=
| Acknowledged
| HTTPException (status_code : Z) (detail : string)
| Raised (e : exn).

(** The file system under [logs/]: whether the files of
    [save_webhook_log] and of [save_analysis_report] get written. *)
Record files := {
  write_webhook_log : string -> option (gmap string pyval) -> result unit;
  write_analysis_report : string -> pyval -> result unit
}.

(** What lasts from one request to the next: the globals of the analysis,
    whether the module [database] has been imported, and its manager's
    pool. *)
Record state := {
  globals : Startup.globals;
  database_imported : bool;
  pool : bool
}.

Definition handler (A : Type) : Type := Run.t state step A.

(** [process_end_of_call_report] under its [try], lines 63 to 71 *)
Definition process_report (rt : runtime) (msg_type : pyval)
    (message : gmap string pyval) : handler (option (gmap string pyval)) :=
  (if CallReportProcessor.equals_str msg_type "end-of-call-report" then
     Run.try_except
       (processed_call <-
          Run.lift (CallReportProcessor.process_end_of_call_report rt message) ;;
        Run.emit (Processed (ProcessedCall.call_id processed_call)) ;;;
        Run.ret (Some (ProcessedCall.model_dump processed_call)))
       (fun e => Run.emit (ProcessingFailed e) ;;; Run.ret None)
   else Run.ret None)%run.

(** [save_webhook_log], with the writing left to the file system *)
Definition save_webhook_log (fs : files) (msg_type : pyval)
    (processed_data : option (gmap string pyval)) : handler unit :=
  (safe_type <- Run.lift (LogHelpers.safe_type msg_type) ;;
   Run.request (WebhookLog safe_type processed_data)
     (write_webhook_log fs safe_type processed_data))%run.

(** [save_analysis_report] likewise *)
Definition save_analysis_report (fs : files) (msg_type call_id : pyval)
  : handler unit :=
  (safe_type <- Run.lift (LogHelpers.safe_type msg_type) ;;
   Run.request (AnalysisLog safe_type call_id)
     (write_analysis_report fs safe_type call_id))%run.

(** [await analyze_call(processed_data)] *)
Definition analyze_call (rt : runtime) (env : Startup.environment)
    (processed_data : gmap string pyval) : handler CallAnalysisReport.t :=
  fun st =>
    match Startup.analyze_call rt env processed_data (globals st) with
    | (started, g, (out, r)) =>
        (((Start <$> started) ++ (Analysis <$> out))%list,
         {| globals := g; database_imported := database_imported st;
            pool := pool st |},
         r)
    end.

(** A computation of the database manager run by the handler. *)
Definition manager {A} (m : Database.db A) : handler A :=
  fun st =>
    match m {| Database._pool := pool st; Database.conn := false;
               Database.cursor_bound := false |} with
    | (out, s, r) =>
        (Db <$> out,
         {| globals := globals st; database_imported := database_imported st;
            pool := Database._pool s |},
         r)
    end.

(** [from database import save_call_report]: the first import makes the
    manager, which makes its pool. *)
Definition import_database (dr : Database.driver) : handler unit :=
  (st <- Run.read ;;
   if database_imported st then Run.ret tt
   else
     Run.modify (fun st => {| globals := globals st; database_imported := true;
                              pool := false |}) ;;;
     manager (DatabaseManager._initialize_pool dr))%run.

(** The body of the second [try], lines 84 to 103 *)
Definition run_analysis (rt : runtime) (env : Startup.environment) (fs : files)
    (dr : Database.driver) (msg_type : pyval) (processed_data : gmap string pyval)
  : handler unit :=
  (Run.emit Starting ;;;
   analysis_report <- analyze_call rt env processed_data ;;
   call_id <- Run.lift (CallAnalyzer.item processed_data "call_id") ;;
   save_analysis_report fs msg_type call_id ;;;
   Run.emit AnalysisPath ;;;
   (if CallAnalysis.is_severe_case (CallAnalysisReport.analysis analysis_report)
    then Run.emit SevereCase else Run.ret tt) ;;;
   import_database dr ;;;
   Run.emit SavingToDatabase ;;;
   report_db <- Run.lift (CallReportDB.from_analysis_report rt analysis_report) ;;
   manager (DatabaseManager.save_call_report dr report_db) ;;;
   Run.ret tt)%run.

(** The handler once it holds the message, lines 36 to 112 *)
Definition handle (rt : runtime) (env : Startup.environment) (fs : files)
    (dr : Database.driver) (message : gmap string pyval) : handler unit :=
  (let msg_type := Processor.get message "type" VNone in
   Run.emit (Incoming msg_type) ;;;
   processed_data <- process_report rt msg_type message ;;
   save_webhook_log fs msg_type processed_data ;;;
   Run.emit SavedTo ;;;
   (match processed_data with
    | Some _ => Run.emit SavedProcessed
    | None => Run.ret tt
    end) ;;;
   (match processed_data with
    | Some data =>
        if CallReportProcessor.equals_str msg_type "end-of-call-report"
           && truthy (VDict data)
        then Run.try_except (run_analysis rt env fs dr msg_type data)
               (fun e => Run.emit (AnalysisFailed e))
        else Run.ret tt
    | None => Run.ret tt
    end) ;;;
   Run.emit (MessageProcessed msg_type))%run.

(** [vapi_webhook] on what [request.json()] gives *)
Definition vapi_webhook (rt : runtime) (env : Startup.environment) (fs : files)
    (dr : Database.driver) (request_json : result pyval) (st : state)
  : list step * state * reply :=
  match request_json with
  | Err _ => ([], st, HTTPException 400 "Invalid JSON")
  | Ok body =>
      match CallReportProcessor.get_method body with
      | Err e => ([], st, Raised e)
      | Ok body =>
          match Processor.get body "message" VNone with
          | VDict message =>
              match handle rt env fs dr message st with
              | (out, st', Ok _) => (out, st', Acknowledged)
              | (out, st', Err e) => (out, st', Raised e)
              end
          | _ => ([], st, HTTPException 400 "Missing 'message' object")
          end
      end
  end.

End Main.

(** *** A server for concrete runs *)

Module Server.

Definition disk : Main.files :=
  {| Main.write_webhook_log := fun _ _ => Ok tt;
     Main.write_analysis_report := fun _ _ => Ok tt |}.

(** The state when the application has just been started. *)
Definition started : Main.state :=
  {| Main.globals := Deployment.fresh; Main.database_imported := false;
     Main.pool := false |}.

Definition body : gmap string pyval := {[ "message" := VDict Webhook.message ]}.

End Server.

(** ** Requests the generation service does not answer *)

Module Refusal.




End Refusal.

(** * Properties *)

(** ** Outcomes of printing computations *)

Section IOFacts.
Context {A B : Type}.

Lemma outcome_bind (m : io A) (k : A -> io B) :
  IO.outcome (IO.bind m k) =
  match IO.outcome m with
  | Ok a => IO.outcome (k a)
  | Err e => Err e
  end.
Proof.
  destruct m as [out [a | e]]; simpl; [ | reflexivity ].
  destruct (k a); reflexivity.
Qed.

Lemma outcome_try_except (m : io A) (h : exn -> io A) :
  IO.outcome (IO.try_except m h) =
  match IO.outcome m with
  | Ok a => Ok a
  | Err e => IO.outcome (h e)
  end.
Proof.
  destruct m as [out [a | e]]; simpl; [ reflexivity | ].
  destruct (h e); reflexivity.
Qed.

Lemma outcome_lift (r : result A) : IO.outcome (IO.lift r) = r.
Proof. reflexivity. Qed.

Lemma outcome_ret (a : A) : IO.outcome (IO.ret a) = Ok a.
Proof. reflexivity. Qed.

Lemma outcome_raise (e : exn) : IO.outcome (IO.raise (A := A) e) = Err e.
Proof. reflexivity. Qed.
End IOFacts.

Lemma bind_lift_ok {A B} (a : A) (k : A -> io B) :
  IO.bind (IO.lift (Ok a)) k = k a.
Proof. unfold IO.bind, IO.lift. destruct (k a). reflexivity. Qed.

Lemma outcome_print (n : notice) : IO.outcome (IO.print n) = Ok tt.
Proof. reflexivity. Qed.

Create Rewrite HintDb outcome.
#[local] Hint Rewrite @outcome_bind @outcome_try_except @outcome_lift
  @outcome_ret @outcome_raise outcome_print : outcome.

(** ** The orchestrator reduced to its five settled results *)

Section OrchestratorFacts.
Variable rt : runtime.
Variables (call_id duration : pyval) (transcript : list pyval).

Let r_stress := settled Orchestrator.StressResult (Agents.detect_stress rt transcript).
Let r_sentiment :=
  settled Orchestrator.SentimentResult (Agents.analyze_sentiment rt transcript).
Let r_stressor :=
  settled Orchestrator.StressorResult (Agents.identify_stressors rt transcript).
Let r_blocker :=
  settled Orchestrator.BlockerResult (Agents.identify_blockers rt transcript).
Let r_severity :=
  settled Orchestrator.SeverityResult
    (Agents.classify_severity rt transcript duration).

Lemma run_agent_outcome {A} (a : agent) (wrap : A -> Orchestrator.agent_result)
    (call : io A) :
  IO.outcome (Orchestrator.run_agent a wrap call) = Ok (settled wrap call).
Proof.
  unfold Orchestrator.run_agent, settled.
  destruct call as [out [x | e]]; reflexivity.
Qed.

Lemma extract_result_outcome result field default :
  IO.outcome (Orchestrator._extract_result result field default)
  = Ok (pick result field default).
Proof. destruct result; reflexivity. Qed.

Lemma dispatch_outcome :
  gather_fault rt = None ->
  IO.outcome (Orchestrator.dispatch rt transcript duration)
  = Ok (r_stress, r_sentiment, r_stressor, r_blocker, r_severity).
Proof.
  intros Hg. unfold Orchestrator.dispatch, Orchestrator.gather. rewrite Hg.
  cbn [Orchestrator.gather_all].
  autorewrite with outcome.
  unfold Orchestrator._run_stress_detector, Orchestrator._run_sentiment_analyzer,
    Orchestrator._run_stressor_finder, Orchestrator._run_blocker_finder,
    Orchestrator._run_severity_classifier.
  repeat (rewrite run_agent_outcome; autorewrite with outcome).
  reflexivity.
Qed.

Lemma dispatch_fault e :
  gather_fault rt = Some e ->
  Orchestrator.dispatch rt transcript duration
  = ([], Err (Exn RuntimeError
                ("Critical failure in agent orchestration: " ++ exn_msg e))).
Proof.
  intros Hg. unfold Orchestrator.dispatch, Orchestrator.gather.
  rewrite Hg. reflexivity.
Qed.

(** Once the dispatch has run, the report is the model built from the
    five picked values. *)
Lemma analyze_call_outcome :
  gather_fault rt = None ->
  IO.outcome (Orchestrator.analyze_call rt call_id transcript duration)
  = (counts <-r IO.outcome (Orchestrator._extract_sentiment rt r_sentiment) ;;
     CallAnalysisReport.create rt call_id duration
       (pick r_stress "stressed_detected" (VBool false))
       counts
       (pick r_stressor "top_stressors" (VStr ""))
       (pick r_blocker "common_blockers" (VStr ""))
       (pick r_severity "is_severe_case" (VBool false))).
Proof.
  intros Hg. unfold Orchestrator.analyze_call.
  repeat (autorewrite with outcome; cbv beta iota).
  rewrite (dispatch_outcome Hg).
  repeat (first [ rewrite extract_result_outcome | progress autorewrite with outcome ];
          cbv beta iota).
  destruct (IO.outcome (Orchestrator._extract_sentiment rt r_sentiment)) as [c | e];
    [ | reflexivity ].
  cbn [rbind].
  repeat (first [ rewrite extract_result_outcome | progress autorewrite with outcome ];
          cbv beta iota).
  destruct (CallAnalysisReport.create _ _ _ _ _ _ _ _); reflexivity.
Qed.

Lemma analyze_call_fault e :
  gather_fault rt = Some e ->
  Orchestrator.analyze_call rt call_id transcript duration
  = ([NStart call_id (List.length transcript) duration],
     Err (Exn RuntimeError
            ("Critical failure in agent orchestration: " ++ exn_msg e))).
Proof.
  intros Hg. unfold Orchestrator.analyze_call.
  rewrite (dispatch_fault e Hg). reflexivity.
Qed.

(** The sentiment result is always one [_extract_sentiment] accepts. *)
Lemma extract_sentiment_settled :
  IO.outcome (Orchestrator._extract_sentiment rt r_sentiment)
  = Ok match IO.outcome (Agents.analyze_sentiment rt transcript) with
       | Ok r => SentimentAnalysisResult.sentiment_counts r
       | Err _ => zero_counts
       end.
Proof.
  unfold r_sentiment, settled.
  destruct (IO.outcome (Agents.analyze_sentiment rt transcript)); reflexivity.
Qed.

Lemma pick_stress :
  pick r_stress "stressed_detected" (VBool false)
  = VBool match IO.outcome (Agents.detect_stress rt transcript) with
          | Ok r => StressDetectionResult.stressed_detected r
          | Err _ => false
          end.
Proof.
  unfold r_stress, settled.
  destruct (IO.outcome (Agents.detect_stress rt transcript)); reflexivity.
Qed.

Lemma pick_stressor :
  pick r_stressor "top_stressors" (VStr "")
  = VStr match IO.outcome (Agents.identify_stressors rt transcript) with
         | Ok r => StressorIdentificationResult.top_stressors r
         | Err _ => ""
         end.
Proof.
  unfold r_stressor, settled.
  destruct (IO.outcome (Agents.identify_stressors rt transcript)); reflexivity.
Qed.

Lemma pick_blocker :
  pick r_blocker "common_blockers" (VStr "")
  = VStr match IO.outcome (Agents.identify_blockers rt transcript) with
         | Ok r => BlockerIdentificationResult.common_blockers r
         | Err _ => ""
         end.
Proof.
  unfold r_blocker, settled.
  destruct (IO.outcome (Agents.identify_blockers rt transcript)); reflexivity.
Qed.

Lemma pick_severity :
  pick r_severity "is_severe_case" (VBool false)
  = VBool match IO.outcome (Agents.classify_severity rt transcript duration) with
          | Ok r => SeverityClassificationResult.is_severe_case r
          | Err _ => false
          end.
Proof.
  unfold r_severity, settled.
  destruct (IO.outcome (Agents.classify_severity rt transcript duration));
    reflexivity.
Qed.

End OrchestratorFacts.

(** ** The report model *)

Lemma create_typed rt c f b counts s k v :
  nonnegative f ->
  CallAnalysisReport.create rt (VStr c) (VFloat f) (VBool b) counts (VStr s)
    (VStr k) (VBool v)
  = Ok {| CallAnalysisReport.call_id := c;
          CallAnalysisReport.call_duration_seconds := f;
          CallAnalysisReport.analysis_timestamp := utcnow_isoformat rt ++ "Z";
          CallAnalysisReport.analysis :=
            {| CallAnalysis.stressed_detected := b;
               CallAnalysis.sentiment_counts := counts;
               CallAnalysis.top_stressors := s;
               CallAnalysis.common_blockers := k;
               CallAnalysis.is_severe_case := v |} |}.
Proof.
  intros Hf. unfold CallAnalysisReport.create, CallAnalysis.new. cbn.
  unfold Pydantic.float_ge. unfold nonnegative in Hf. rewrite Hf. reflexivity.
Qed.

(** What a successful [create] says about its arguments. *)
Lemma create_inv rt call_id duration stressed counts stressors blockers severe report :
  CallAnalysisReport.create rt call_id duration stressed counts stressors blockers
    severe = Ok report ->
  call_id = VStr (CallAnalysisReport.call_id report) /\
  Pydantic.validate_float rt "call_duration_seconds" duration
    = Ok (CallAnalysisReport.call_duration_seconds report) /\
  nonnegative (CallAnalysisReport.call_duration_seconds report) /\
  CallAnalysis.sentiment_counts (CallAnalysisReport.analysis report) = counts.
Proof.
  unfold CallAnalysisReport.create, CallAnalysis.new, nonnegative.
  destruct (Pydantic.validate_bool rt "stressed_detected" stressed); [ | discriminate ].
  destruct (Pydantic.validate_str "top_stressors" stressors); [ | discriminate ].
  destruct (Pydantic.validate_str "common_blockers" blockers); [ | discriminate ].
  destruct (Pydantic.validate_bool rt "is_severe_case" severe); [ | discriminate ].
  cbn [rbind].
  destruct call_id; cbn; try discriminate.
  destruct (Pydantic.validate_float rt "call_duration_seconds" duration) as [f | ];
    cbn; [ | discriminate ].
  unfold Pydantic.float_ge.
  destruct (SFleb Pydantic.float_zero f) eqn:Hf; cbn; [ | discriminate ].
  intros [= <-]. cbn. auto.
Qed.

Lemma counts_new_nonneg rt kwargs c :
  SentimentCounts.new rt kwargs = Ok c ->
  0 <= SentimentCounts.positive c /\ 0 <= SentimentCounts.negative c.
Proof.
  unfold SentimentCounts.new, Pydantic.int_ge0.
  destruct (Pydantic.required kwargs "positive") as [vp | ]; cbn; [ | discriminate ].
  destruct (Pydantic.validate_int rt "positive" vp) as [p | ]; cbn; [ | discriminate ].
  destruct (0 <=? p) eqn:Hp; cbn; [ | discriminate ].
  destruct (Pydantic.required kwargs "negative") as [vn | ]; cbn; [ | discriminate ].
  destruct (Pydantic.validate_int rt "negative" vn) as [n | ]; cbn; [ | discriminate ].
  destruct (0 <=? n) eqn:Hn; cbn; [ | discriminate ].
  intros [= <-]. cbn. split; apply Z.leb_le; assumption.
Qed.

Lemma neutral_counts rt :
  SentimentCounts.new rt {[ "positive" := VInt 0; "negative" := VInt 0 ]}
  = Ok zero_counts.
Proof. reflexivity. Qed.

Lemma rbind_ok {A B} (m : result A) (k : A -> result B) b :
  rbind m k = Ok b -> exists a, m = Ok a /\ k a = Ok b.
Proof. destruct m as [a | e]; cbn; [ eauto | discriminate ]. Qed.

Lemma sentiment_result_nonneg rt kwargs r :
  SentimentAnalysisResult.new rt kwargs = Ok r ->
  0 <= SentimentCounts.positive (SentimentAnalysisResult.sentiment_counts r) /\
  0 <= SentimentCounts.negative (SentimentAnalysisResult.sentiment_counts r).
Proof.
  unfold SentimentAnalysisResult.new. intros H.
  apply rbind_ok in H as (c & Hc & [= <-]).
  apply rbind_ok in Hc as (v & _ & Hv).
  destruct v; try discriminate. cbn in *.
  eapply counts_new_nonneg; eassumption.
Qed.

Lemma analyze_sentiment_nonneg rt transcript r :
  IO.outcome (Agents.analyze_sentiment rt transcript) = Ok r ->
  0 <= SentimentCounts.positive (SentimentAnalysisResult.sentiment_counts r) /\
  0 <= SentimentCounts.negative (SentimentAnalysisResult.sentiment_counts r).
Proof.
  unfold Agents.analyze_sentiment. autorewrite with outcome.
  destruct (Agents.build_prompt rt SentimentAnalyzer transcript None) as [p | ];
    [ | discriminate ].
  autorewrite with outcome.
  match goal with
  | |- context [ match ?m with Ok _ => _ | Err _ => _ end ] =>
      destruct m as [r0 | e] eqn:Hin
  end.
  - intros [= <-].
    apply rbind_ok in Hin as (result_dict & _ & Hin).
    apply rbind_ok in Hin as (kwargs & _ & Hin).
    eapply sentiment_result_nonneg; eassumption.
  - destruct e as [cls msg]. destruct cls; try (cbn; discriminate).
    cbv beta iota. cbn [exn_cls exn_msg].
    destruct (Str.contains "SAFETY" msg); [ | cbn; discriminate ].
    autorewrite with outcome. cbv beta iota.
    autorewrite with outcome. rewrite neutral_counts.
    intros [= <-]. cbn. lia.
Qed.

(** ** The aggregator *)

(** C1.  When the dispatch runs and each of the five agents raises, the
    orchestrator still returns a report, for a string call id and a
    non-negative duration, and its analysis holds exactly the documented
    defaults: no stress, counts 0 and 0, empty stressors and blockers, not
    severe. *)
Theorem all_agents_fail_defaults rt c transcript f :
  gather_fault rt = None ->
  nonnegative f ->
  fails (Agents.detect_stress rt transcript) ->
  fails (Agents.analyze_sentiment rt transcript) ->
  fails (Agents.identify_stressors rt transcript) ->
  fails (Agents.identify_blockers rt transcript) ->
  fails (Agents.classify_severity rt transcript (VFloat f)) ->
  IO.outcome (Orchestrator.analyze_call rt (VStr c) transcript (VFloat f))
  = Ok {| CallAnalysisReport.call_id := c;
          CallAnalysisReport.call_duration_seconds := f;
          CallAnalysisReport.analysis_timestamp := utcnow_isoformat rt ++ "Z";
          CallAnalysisReport.analysis := default_analysis |}.
Proof.
  intros Hg Hf [e1 H1] [e2 H2] [e3 H3] [e4 H4] [e5 H5].
  rewrite analyze_call_outcome by assumption.
  rewrite extract_sentiment_settled, pick_stress, pick_stressor, pick_blocker,
    pick_severity.
  rewrite H1, H2, H3, H4, H5. cbn [rbind].
  apply create_typed. assumption.
Qed.

Lemma all_agents_fail_defaults_run :
  IO.outcome
    (Orchestrator.analyze_call (Script.runtime_of Script.all_down None)
       (VStr "call-1") Script.transcript (VFloat Script.duration))
  = Ok {| CallAnalysisReport.call_id := "call-1";
          CallAnalysisReport.call_duration_seconds := Script.duration;
          CallAnalysisReport.analysis_timestamp := "2025-11-29T06:55:00.142000Z";
          CallAnalysisReport.analysis := default_analysis |}.
Proof.
  apply (all_agents_fail_defaults (Script.runtime_of Script.all_down None)
           "call-1" Script.transcript Script.duration);
    first [ reflexivity | eexists; reflexivity ].
Defined.

(** C2.  Whatever the five agents do, a call with a string call id and a
    non-negative duration has exactly two outcomes.  If the dispatch runs,
    a complete report is returned: no agent exception reaches the caller,
    and the field of every agent that raised holds its default.  If the
    dispatch itself raises, the call raises the orchestration
    [RuntimeError], and nothing but the start notice has happened: there
    is no report. *)
Theorem only_dispatch_failure_propagates rt c transcript f :
  nonnegative f ->
  match gather_fault rt with
  | None =>
      exists report,
        IO.outcome (Orchestrator.analyze_call rt (VStr c) transcript (VFloat f))
        = Ok report /\
        (fails (Agents.detect_stress rt transcript) ->
         field_defaulted StressDetector (CallAnalysisReport.analysis report)) /\
        (fails (Agents.analyze_sentiment rt transcript) ->
         field_defaulted SentimentAnalyzer (CallAnalysisReport.analysis report)) /\
        (fails (Agents.identify_stressors rt transcript) ->
         field_defaulted StressorFinder (CallAnalysisReport.analysis report)) /\
        (fails (Agents.identify_blockers rt transcript) ->
         field_defaulted BlockerFinder (CallAnalysisReport.analysis report)) /\
        (fails (Agents.classify_severity rt transcript (VFloat f)) ->
         field_defaulted SeverityClassifier (CallAnalysisReport.analysis report))
  | Some e =>
      Orchestrator.analyze_call rt (VStr c) transcript (VFloat f)
      = ([NStart (VStr c) (List.length transcript) (VFloat f)],
         Err (Exn RuntimeError
                ("Critical failure in agent orchestration: " ++ exn_msg e)))
  end.
Proof.
  intros Hf. destruct (gather_fault rt) as [e | ] eqn:Hg.
  - apply analyze_call_fault. assumption.
  - rewrite analyze_call_outcome by assumption.
    rewrite extract_sentiment_settled, pick_stress, pick_stressor, pick_blocker,
      pick_severity.
    cbn [rbind]. rewrite create_typed by assumption.
    eexists. split; [ reflexivity | ].
    cbn [field_defaulted CallAnalysisReport.analysis CallAnalysis.stressed_detected
           CallAnalysis.sentiment_counts CallAnalysis.top_stressors
           CallAnalysis.common_blockers CallAnalysis.is_severe_case].
    repeat split; intros [e He]; rewrite He; reflexivity.
Qed.

Lemma only_dispatch_failure_propagates_run :
  (exists report,
     IO.outcome
       (Orchestrator.analyze_call (Script.runtime_of Script.all_down None)
          (VStr "call-1") Script.transcript (VFloat Script.duration))
     = Ok report /\
     CallAnalysisReport.analysis report = default_analysis) /\
  Orchestrator.analyze_call
    (Script.runtime_of Script.all_good (Some (Exn TypeError "unhashable type")))
    (VStr "call-1") Script.transcript (VFloat Script.duration)
  = ([NStart (VStr "call-1") 1 (VFloat Script.duration)],
     Err (Exn RuntimeError
            "Critical failure in agent orchestration: unhashable type")).
Proof.
  split.
  - destruct (only_dispatch_failure_propagates
                (Script.runtime_of Script.all_down None) "call-1" Script.transcript
                Script.duration eq_refl)
      as (report & Hr & H1 & H2 & H3 & H4 & H5).
    exists report. split; [ exact Hr | ].
    cbn in H1, H2, H3, H4, H5.
    destruct report as [ci d ts [b counts s k v]]. cbn in *.
    rewrite H1, H2, H3, H4, H5 by (eexists; reflexivity). reflexivity.
  - apply (only_dispatch_failure_propagates
             (Script.runtime_of Script.all_good
                (Some (Exn TypeError "unhashable type")))
             "call-1" Script.transcript Script.duration).
    reflexivity.
Defined.

(** C3.  When the dispatch runs and all five agents return, each field of
    the analysis is the value of the one result that feeds it: the stress
    flag of the stress detector, the counts of the sentiment analyzer, the
    stressors of the stressor finder, the blockers of the blocker finder,
    the severity flag of the severity classifier.  No field depends on
    another agent's result. *)
Theorem all_agents_succeed_fields rt c transcript f r1 r2 r3 r4 r5 :
  gather_fault rt = None ->
  nonnegative f ->
  IO.outcome (Agents.detect_stress rt transcript) = Ok r1 ->
  IO.outcome (Agents.analyze_sentiment rt transcript) = Ok r2 ->
  IO.outcome (Agents.identify_stressors rt transcript) = Ok r3 ->
  IO.outcome (Agents.identify_blockers rt transcript) = Ok r4 ->
  IO.outcome (Agents.classify_severity rt transcript (VFloat f)) = Ok r5 ->
  exists report,
    IO.outcome (Orchestrator.analyze_call rt (VStr c) transcript (VFloat f))
    = Ok report /\
    CallAnalysisReport.analysis report
    = {| CallAnalysis.stressed_detected := StressDetectionResult.stressed_detected r1;
         CallAnalysis.sentiment_counts := SentimentAnalysisResult.sentiment_counts r2;
         CallAnalysis.top_stressors := StressorIdentificationResult.top_stressors r3;
         CallAnalysis.common_blockers := BlockerIdentificationResult.common_blockers r4;
         CallAnalysis.is_severe_case := SeverityClassificationResult.is_severe_case r5 |}.
Proof.
  intros Hg Hf H1 H2 H3 H4 H5.
  rewrite analyze_call_outcome by assumption.
  rewrite extract_sentiment_settled, pick_stress, pick_stressor, pick_blocker,
    pick_severity.
  rewrite H1, H2, H3, H4, H5. cbn [rbind].
  rewrite create_typed by assumption.
  eexists. split; reflexivity.
Qed.

Lemma all_agents_succeed_fields_run :
  exists report,
    IO.outcome
      (Orchestrator.analyze_call (Script.runtime_of Script.all_good None)
         (VStr "call-1") Script.transcript (VFloat Script.duration))
    = Ok report /\
    CallAnalysisReport.analysis report
    = {| CallAnalysis.stressed_detected := true;
         CallAnalysis.sentiment_counts :=
           {| SentimentCounts.positive := 1; SentimentCounts.negative := 4 |};
         CallAnalysis.top_stressors := "workload, deadlines";
         CallAnalysis.common_blockers := "lack of clarity";
         CallAnalysis.is_severe_case := true |}.
Proof.
  apply (all_agents_succeed_fields (Script.runtime_of Script.all_good None)
           "call-1" Script.transcript Script.duration
           {| StressDetectionResult.stressed_detected := true;
              StressDetectionResult.confidence := None |}
           {| SentimentAnalysisResult.sentiment_counts :=
                {| SentimentCounts.positive := 1; SentimentCounts.negative := 4 |} |}
           {| StressorIdentificationResult.top_stressors := "workload, deadlines" |}
           {| BlockerIdentificationResult.common_blockers := "lack of clarity" |}
           {| SeverityClassificationResult.is_severe_case := true;
              SeverityClassificationResult.severity_indicators := Some ["self-harm"] |});
    reflexivity.
Defined.

(** C5.  In every report the orchestrator returns, both sentiment counts
    are non-negative, whether the sentiment analyzer returned or raised. *)
Theorem report_counts_nonnegative rt call_id transcript duration report :
  IO.outcome (Orchestrator.analyze_call rt call_id transcript duration) = Ok report ->
  0 <= SentimentCounts.positive
         (CallAnalysis.sentiment_counts (CallAnalysisReport.analysis report)) /\
  0 <= SentimentCounts.negative
         (CallAnalysis.sentiment_counts (CallAnalysisReport.analysis report)).
Proof.
  destruct (gather_fault rt) as [e | ] eqn:Hg.
  - rewrite (analyze_call_fault rt call_id duration transcript e Hg). discriminate.
  - rewrite analyze_call_outcome by assumption.
    rewrite extract_sentiment_settled. cbn [rbind]. intros H.
    apply create_inv in H as (_ & _ & _ & ->).
    destruct (IO.outcome (Agents.analyze_sentiment rt transcript)) as [r | e] eqn:Hs.
    + eapply analyze_sentiment_nonneg; eassumption.
    + cbn. lia.
Qed.

Lemma report_counts_nonnegative_run :
  exists report,
    IO.outcome
      (Orchestrator.analyze_call (Script.runtime_of Script.all_good None)
         (VStr "call-1") Script.transcript (VFloat Script.duration))
    = Ok report /\
    0 <= SentimentCounts.positive
           (CallAnalysis.sentiment_counts (CallAnalysisReport.analysis report)) /\
    0 <= SentimentCounts.negative
           (CallAnalysis.sentiment_counts (CallAnalysisReport.analysis report)).
Proof.
  eexists. split; [ reflexivity | ].
  apply (report_counts_nonnegative (Script.runtime_of Script.all_good None)
           (VStr "call-1") Script.transcript (VFloat Script.duration)).
  reflexivity.
Defined.

(** C9.  A report the orchestrator returns carries the call id it was
    given, and the duration it was given as a float, whichever agents
    returned or raised. *)
Theorem report_keeps_call_metadata rt call_id transcript duration report :
  IO.outcome (Orchestrator.analyze_call rt call_id transcript duration) = Ok report ->
  call_id = VStr (CallAnalysisReport.call_id report) /\
  (forall f, duration = VFloat f ->
             CallAnalysisReport.call_duration_seconds report = f).
Proof.
  destruct (gather_fault rt) as [e | ] eqn:Hg.
  - rewrite (analyze_call_fault rt call_id duration transcript e Hg). discriminate.
  - rewrite analyze_call_outcome by assumption.
    intros H. apply rbind_ok in H as (counts & _ & H).
    apply create_inv in H as (Hc & Hd & _ & _).
    split; [ assumption | ].
    intros f ->. cbn in Hd. congruence.
Qed.

Lemma report_keeps_call_metadata_run :
  exists report,
    IO.outcome
      (Orchestrator.analyze_call (Script.runtime_of Script.all_blocked None)
         (VStr "call-1") Script.transcript (VFloat Script.duration))
    = Ok report /\
    VStr "call-1" = VStr (CallAnalysisReport.call_id report) /\
    (forall f, VFloat Script.duration = VFloat f ->
               CallAnalysisReport.call_duration_seconds report = f).
Proof.
  eexists. split; [ reflexivity | ].
  apply (report_keeps_call_metadata (Script.runtime_of Script.all_blocked None)
           (VStr "call-1") Script.transcript (VFloat Script.duration)).
  reflexivity.
Defined.

(** ** The validated entry point *)

Lemma check_required_ok (data : gmap string pyval) call_id duration transcript :
  data !! "call_id" = Some call_id ->
  data !! "duration_seconds" = Some duration ->
  data !! "transcript" = Some transcript ->
  CallAnalyzer.check_required CallAnalyzer.required_fields data = Ok tt.
Proof. intros H1 H2 H3. cbn. rewrite H1, H2, H3. reflexivity. Qed.

Lemma check_required_missing (data : gmap string pyval) :
  (data !! "call_id" = None \/ data !! "duration_seconds" = None
   \/ data !! "transcript" = None) ->
  exists field,
    CallAnalyzer.check_required CallAnalyzer.required_fields data
    = Err (Exn ValueError ("Missing required field: " ++ field)).
Proof.
  intros H. cbn.
  destruct (data !! "call_id"); [ | eauto ].
  destruct (data !! "duration_seconds"); [ | eauto ].
  destruct (data !! "transcript"); [ | eauto ].
  destruct H as [H | [H | H]]; discriminate.
Qed.

(** C8.  Input whose transcript is the empty list is rejected with a
    [ValueError] and nothing is printed, so the orchestrator, whose first
    act is to print its start notice, has not been called.  More generally
    every input is either rejected in that way, or is handed to the
    orchestrator with a transcript of at least one message. *)
Theorem empty_transcript_rejected rt (data : gmap string pyval) :
  (data !! "transcript" = Some (VList []) ->
   exists msg, CallAnalyzer.analyze_call rt data = ([], Err (Exn ValueError msg))) /\
  ((exists msg, CallAnalyzer.analyze_call rt data = ([], Err (Exn ValueError msg))) \/
   (exists call_id duration m rest,
      data !! "transcript" = Some (VList (m :: rest)) /\
      CallAnalyzer.analyze_call rt data
      = Orchestrator.analyze_call rt call_id (m :: rest) duration)).
Proof.
  unfold CallAnalyzer.analyze_call.
  destruct (data !! "call_id") as [call_id | ] eqn:H1;
    [ | destruct (check_required_missing data) as [x Hx]; [ auto | ];
        rewrite Hx; split; [ intros _ | left ]; eexists; reflexivity ].
  destruct (data !! "duration_seconds") as [duration | ] eqn:H2;
    [ | destruct (check_required_missing data) as [x Hx]; [ auto | ];
        rewrite Hx; split; [ intros _ | left ]; eexists; reflexivity ].
  destruct (data !! "transcript") as [transcript | ] eqn:H3;
    [ | destruct (check_required_missing data) as [x Hx]; [ auto | ];
        rewrite Hx; split; [ intros _ | left ]; eexists; reflexivity ].
  rewrite (check_required_ok data call_id duration transcript) by assumption.
  unfold CallAnalyzer.item. rewrite H1, H2, H3.
  split.
  - intros [= ->]. rewrite !bind_lift_ok. eexists. reflexivity.
  - destruct transcript as [ | | | | | [ | m rest] | ];
      try (left; rewrite !bind_lift_ok; eexists; reflexivity).
    right. exists call_id, duration, m, rest. split; [ reflexivity | ].
    rewrite !bind_lift_ok. cbn [CallAnalyzer.check_transcript].
    rewrite bind_lift_ok. reflexivity.
Qed.

Lemma empty_transcript_rejected_run :
  exists msg,
    CallAnalyzer.analyze_call (Script.runtime_of Script.all_good None)
      {[ "call_id" := VStr "call-1";
         "duration_seconds" := VFloat Script.duration;
         "transcript" := VList [] ]}
    = ([], Err (Exn ValueError msg)).
Proof.
  apply (empty_transcript_rejected (Script.runtime_of Script.all_good None)
           {[ "call_id" := VStr "call-1";
              "duration_seconds" := VFloat Script.duration;
              "transcript" := VList [] ]}).
  reflexivity.
Defined.

(** ** The flattened row *)

Lemma to_column_str rt (s : string) :
  CallReportDB.to_column rt (VStr s) = Ok (if String.eqb s "" then None else Some s).
Proof. unfold CallReportDB.to_column. cbn. destruct (String.eqb s ""); reflexivity. Qed.

(** A list is stored comma-joined. *)
Lemma to_column_list rt :
  CallReportDB.to_column rt (VList [VStr "workload"; VStr "deadlines"])
  = Ok (Some "workload, deadlines").
Proof. reflexivity. Qed.

Lemma counts_round_trip rt (c : SentimentCounts.t) :
  counts_valid c ->
  SentimentCounts.new rt (VInt <$> SentimentCounts.model_dump c) = Ok c.
Proof.
  intros [Hp Hn]. destruct c as [p n]. cbn in Hp, Hn.
  unfold SentimentCounts.new, SentimentCounts.model_dump.
  cbn [SentimentCounts.positive SentimentCounts.negative].
  change (Pydantic.required (VInt <$> {[ "positive" := p; "negative" := n ]}) "positive")
    with (Ok (A := pyval) (VInt p)).
  change (Pydantic.required (VInt <$> {[ "positive" := p; "negative" := n ]}) "negative")
    with (Ok (A := pyval) (VInt n)).
  cbn [rbind Pydantic.validate_int]. unfold Pydantic.int_ge0.
  apply Z.leb_le in Hp, Hn. rewrite Hp, Hn. reflexivity.
Qed.

(** C6.  Flattening never fails, and the row rebuilt gives the analysis
    of the report again, all five fields.  The row keeps the stress flag,
    the two counts and the severity flag as they are, and each of
    [top_stressors] and [common_blockers] as it is when it is not empty,
    as [None] when it is. *)
Theorem flatten_rebuild rt (report : CallAnalysisReport.t) :
  counts_valid (CallAnalysis.sentiment_counts (CallAnalysisReport.analysis report)) ->
  exists row,
    CallReportDB.from_analysis_report rt report = Ok row /\
    CallReportDB.stressed_detected row
      = CallAnalysis.stressed_detected (CallAnalysisReport.analysis report) /\
    CallReportDB.sentiment_counts row
      = SentimentCounts.model_dump
          (CallAnalysis.sentiment_counts (CallAnalysisReport.analysis report)) /\
    CallReportDB.is_severe_case row
      = CallAnalysis.is_severe_case (CallAnalysisReport.analysis report) /\
    CallReportDB.top_stressors row
      = (let s := CallAnalysis.top_stressors (CallAnalysisReport.analysis report) in
         if String.eqb s "" then None else Some s) /\
    CallReportDB.common_blockers row
      = (let s := CallAnalysis.common_blockers (CallAnalysisReport.analysis report) in
         if String.eqb s "" then None else Some s) /\
    rebuild rt row = Ok (CallAnalysisReport.analysis report).
Proof.
  intros Hc. unfold CallReportDB.from_analysis_report. rewrite !to_column_str.
  cbn [rbind]. eexists. split; [ reflexivity | ].
  repeat (split; [ reflexivity | ]).
  unfold rebuild.
  cbn [CallReportDB.sentiment_counts CallReportDB.stressed_detected
         CallReportDB.top_stressors CallReportDB.common_blockers
         CallReportDB.is_severe_case].
  rewrite (counts_round_trip rt _ Hc). cbn [rbind].
  destruct report as [c d ts [b counts s k v]].
  cbn [CallAnalysisReport.analysis CallAnalysis.top_stressors
         CallAnalysis.common_blockers CallAnalysis.stressed_detected
         CallAnalysis.is_severe_case CallAnalysis.sentiment_counts].
  assert (Hcol : forall x : string,
            column (VStr "") (if String.eqb x "" then None else Some x) = VStr x).
  { intros x. destruct (String.eqb x "") eqn:Hx; [ | reflexivity ].
    apply String.eqb_eq in Hx. subst. reflexivity. }
  rewrite !Hcol. reflexivity.
Qed.

Lemma flatten_rebuild_run :
  exists row,
    CallReportDB.from_analysis_report (Script.runtime_of Script.all_down None)
      {| CallAnalysisReport.call_id := "call-1";
         CallAnalysisReport.call_duration_seconds := Script.duration;
         CallAnalysisReport.analysis_timestamp := "2025-11-29T06:55:00.142000Z";
         CallAnalysisReport.analysis :=
           {| CallAnalysis.stressed_detected := true;
              CallAnalysis.sentiment_counts :=
                {| SentimentCounts.positive := 1; SentimentCounts.negative := 4 |};
              CallAnalysis.top_stressors := "workload, deadlines";
              CallAnalysis.common_blockers := "";
              CallAnalysis.is_severe_case := false |} |}
    = Ok row /\
    CallReportDB.top_stressors row = Some "workload, deadlines" /\
    CallReportDB.common_blockers row = None /\
    rebuild (Script.runtime_of Script.all_down None) row
    = Ok {| CallAnalysis.stressed_detected := true;
            CallAnalysis.sentiment_counts :=
              {| SentimentCounts.positive := 1; SentimentCounts.negative := 4 |};
            CallAnalysis.top_stressors := "workload, deadlines";
            CallAnalysis.common_blockers := "";
            CallAnalysis.is_severe_case := false |}.
Proof.
  destruct (flatten_rebuild (Script.runtime_of Script.all_down None)
              {| CallAnalysisReport.call_id := "call-1";
                 CallAnalysisReport.call_duration_seconds := Script.duration;
                 CallAnalysisReport.analysis_timestamp := "2025-11-29T06:55:00.142000Z";
                 CallAnalysisReport.analysis :=
                   {| CallAnalysis.stressed_detected := true;
                      CallAnalysis.sentiment_counts :=
                        {| SentimentCounts.positive := 1;
                           SentimentCounts.negative := 4 |};
                      CallAnalysis.top_stressors := "workload, deadlines";
                      CallAnalysis.common_blockers := "";
                      CallAnalysis.is_severe_case := false |} |})
    as (row & Hrow & _ & _ & _ & Hs & Hb & Hr).
  - unfold counts_valid. cbn. lia.
  - exists row. repeat split; assumption.
Defined.

(** ** The webhook message transform *)

Lemma transform_loop_entries raw_messages :
  forallb text_fields raw_messages = true ->
  forall transcript,
    Processor.transform_loop raw_messages transcript
    = Ok (transcript ++ omap kept_entry raw_messages)%list.
Proof.
  induction raw_messages as [ | raw_msg rest IH]; intros Hwf transcript.
  - cbn. rewrite app_nil_r. reflexivity.
  - cbn [forallb] in Hwf. apply andb_prop in Hwf as [Hm Hrest].
    specialize (IH Hrest).
    cbn [Processor.transform_loop omap list_omap].
    destruct raw_msg as [ | b | z | f | s | l | d]; try apply IH.
    unfold Processor.get, kept_entry, text_fields in *.
    destruct (d !! "message") as [v | ] eqn:Hv.
    + destruct (truthy v) eqn:Ht.
      * destruct v as [ | b | z | f | content | l | d']; try discriminate Hm.
        cbn in Ht. destruct (String.eqb content "") eqn:Hc; [ discriminate Ht | ].
        destruct (d !! "role") as [r | ] eqn:Hr.
        -- destruct r as [ | b | z | f | role | l | d']; try discriminate Hm.
           cbn. rewrite IH, <- app_assoc. reflexivity.
        -- cbn. rewrite IH, <- app_assoc. reflexivity.
      * rewrite IH. destruct v as [ | b | z | f | content | l | d']; try reflexivity.
        cbn in Ht. destruct (String.eqb content ""); [ reflexivity | discriminate Ht ].
    + cbn. apply IH.
Qed.

(** A transcript that is returned is the list of kept entries, whatever
    the input. *)
Lemma transform_loop_result raw_messages :
  forall transcript result,
    Processor.transform_loop raw_messages transcript = Ok result ->
    result = (transcript ++ omap kept_entry raw_messages)%list.
Proof.
  induction raw_messages as [ | raw_msg rest IH]; intros transcript result.
  - cbn. rewrite app_nil_r. congruence.
  - cbn [Processor.transform_loop omap list_omap].
    destruct raw_msg as [ | b | z | f | s | l | d]; try apply IH.
    unfold Processor.get, kept_entry.
    destruct (d !! "message") as [v | ] eqn:Hv.
    + destruct (truthy v) eqn:Ht.
      * unfold TranscriptMessage.new.
        destruct (d !! "role") as [r | ] eqn:Hr.
        -- destruct r as [ | b | z | f | role | l | d']; try discriminate.
           destruct v as [ | b | z | f | content | l | d']; try discriminate.
           cbn in Ht. destruct (String.eqb content ""); [ discriminate Ht | ].
           cbn. intros H. apply IH in H. rewrite <- app_assoc in H. exact H.
        -- destruct v as [ | b | z | f | content | l | d']; try discriminate.
           cbn in Ht. destruct (String.eqb content ""); [ discriminate Ht | ].
           cbn. intros H. apply IH in H. rewrite <- app_assoc in H. exact H.
      * intros H. apply IH in H. rewrite H.
        destruct v as [ | b | z | f | content | l | d']; try reflexivity.
        cbn in Ht. destruct (String.eqb content ""); [ reflexivity | discriminate Ht ].
    + apply IH.
Qed.

Lemma transform_result_entries raw_messages result :
  Processor._transform_messages raw_messages = Ok result ->
  result = omap kept_entry raw_messages.
Proof. apply transform_loop_result. Qed.

(** C10, as stated, fails: a dict with a non-empty message whose role is
    null is not mapped to an entry; the transform raises and there is no
    transcript. *)
Lemma null_role_raises :
  Processor._transform_messages
    [ VDict {[ "role" := VStr "user"; "message" := VStr "Hello" ]};
      VDict {[ "role" := VNone; "message" := VStr "I need help" ]} ]
  = Err (Pydantic.validation_error "role").
Proof. reflexivity. Qed.

(** C10, amended.  When every dict with a truthy message has a string
    message and a role that is absent or a string, the transcript holds,
    in the order of the input, one entry for each dict with a non-empty
    message: its role, or ["unknown"] when it has none, and the message as
    content.  Entries that are no dicts and dicts without a message, or
    with an empty one, are dropped. *)
Theorem transform_keeps_text_messages raw_messages :
  forallb text_fields raw_messages = true ->
  Processor._transform_messages raw_messages = Ok (omap kept_entry raw_messages).
Proof.
  intros Hwf. unfold Processor._transform_messages.
  rewrite transform_loop_entries by assumption. reflexivity.
Qed.

Lemma transform_keeps_text_messages_run :
  Processor._transform_messages
    [ VDict {[ "role" := VStr "user"; "message" := VStr "Hello" ]};
      VStr "noise";
      VDict {[ "role" := VStr "tool_calls" ]};
      VDict {[ "message" := VStr "Hi there!" ]};
      VDict {[ "role" := VStr "assistant"; "message" := VStr "" ]} ]
  = Ok [ {| TranscriptMessage.role := "user"; TranscriptMessage.content := "Hello" |};
         {| TranscriptMessage.role := "unknown";
            TranscriptMessage.content := "Hi there!" |} ].
Proof.
  exact (transform_keeps_text_messages
           [ VDict {[ "role" := VStr "user"; "message" := VStr "Hello" ]};
             VStr "noise";
             VDict {[ "role" := VStr "tool_calls" ]};
             VDict {[ "message" := VStr "Hi there!" ]};
             VDict {[ "role" := VStr "assistant"; "message" := VStr "" ]} ]
           eq_refl).
Defined.

(** ** Strings: fences, slices *)

Section StrFacts.

Lemma length_app (a b : string) :
  String.length (a ++ b) = (String.length a + String.length b)%nat.
Proof. induction a as [ | c a IH]; cbn; [ reflexivity | f_equal; exact IH ]. Qed.

Lemma drop_app (a b : string) (n : nat) :
  Str.drop (String.length a + n) (a ++ b) = Str.drop n b.
Proof. induction a as [ | c a IH]; cbn; [ reflexivity | exact IH ]. Qed.

Lemma take_app (a b : string) : Str.take (String.length a) (a ++ b) = a.
Proof. induction a as [ | c a IH]; cbn; [ reflexivity | f_equal; exact IH ]. Qed.

Lemma startswith_app (pat rest : string) : Str.startswith pat (pat ++ rest) = true.
Proof.
  induction pat as [ | c pat IH]; cbn; [ reflexivity | ].
  rewrite Ascii.eqb_refl. exact IH.
Qed.

Lemma startswith_prefix (a b s : string) :
  Str.startswith (a ++ b) s = true -> Str.startswith a s = true.
Proof.
  revert s. induction a as [ | c a IH]; intros s; cbn; [ reflexivity | ].
  destruct s as [ | d s]; [ discriminate | ].
  destruct (Ascii.eqb c d); [ apply IH | discriminate ].
Qed.

(** Where the search starts counting does not change what it finds. *)
Lemma find_at_shift (pat s : string) (i : nat) :
  Str.find_at pat s i = (fun k => (i + k)%nat) <$> Str.find_at pat s 0.
Proof.
  revert i. induction s as [ | c s IH]; intros i; cbn.
  - destruct (Str.startswith pat ""); cbn; [ f_equal; lia | reflexivity ].
  - destruct (Str.startswith pat (String c s)); cbn; [ f_equal; lia | ].
    rewrite (IH (S i)), (IH 1%nat).
    destruct (Str.find_at pat s 0); cbn; [ f_equal; lia | reflexivity ].
Qed.

Lemma fence_clear_cons (c : ascii) (p : string) :
  fence_clear (String c p) ->
  Str.startswith "```" (String c (p ++ "``")) = false /\ fence_clear p.
Proof.
  unfold fence_clear, Str.contains. cbn [append Str.find_at].
  destruct (Str.startswith "```" (String c (p ++ "``"))); [ discriminate | ].
  rewrite find_at_shift.
  destruct (Str.find_at "```" (p ++ "``") 0); cbn; [ discriminate | auto ].
Qed.

(** The first three characters of [c p] followed by a fence are those of
    [c p] followed by two backticks. *)
Lemma fence_head (c : ascii) (p x : string) :
  Str.startswith "```" (String c (p ++ "```" ++ x))
  = Str.startswith "```" (String c (p ++ "``")).
Proof. destruct p as [ | d [ | e p]]; reflexivity. Qed.

Lemma app_cons (c : ascii) (a b : string) : String c a ++ b = String c (a ++ b).
Proof. reflexivity. Qed.

Lemma find_at_cons (pat : string) (c : ascii) (s : string) (i : nat) :
  Str.find_at pat (String c s) i
  = if Str.startswith pat (String c s) then Some i else Str.find_at pat s (S i).
Proof. reflexivity. Qed.

(** In a fence-clear text followed by a fence, the first fence is the
    one that follows; the same holds for a fence with a tag. *)
Lemma find_at_fence (pre tag rest : string) (i : nat) :
  fence_clear pre ->
  Str.find_at ("```" ++ tag) (pre ++ ("```" ++ tag) ++ rest) i
  = Some (i + String.length pre)%nat.
Proof.
  revert i. induction pre as [ | c p IH]; intros i Hclear.
  - change ("" ++ ("```" ++ tag) ++ rest) with (String "`" ("``" ++ tag ++ rest)).
    rewrite find_at_cons.
    change (String "`" ("``" ++ tag ++ rest)) with (("```" ++ tag) ++ rest).
    rewrite startswith_app. cbn [String.length]. f_equal. lia.
  - apply fence_clear_cons in Hclear as [Hhead Hp].
    change (String c p ++ ("```" ++ tag) ++ rest)
      with (String c (p ++ ("```" ++ tag) ++ rest)).
    rewrite find_at_cons.
    destruct (Str.startswith ("```" ++ tag) (String c (p ++ ("```" ++ tag) ++ rest)))
      eqn:Hs.
    + apply (startswith_prefix "```" tag) in Hs.
      change (("```" ++ tag) ++ rest) with ("```" ++ (tag ++ rest)) in Hs.
      rewrite fence_head in Hs. congruence.
    + rewrite (IH (S i) Hp). cbn [String.length]. f_equal. lia.
Qed.

Lemma app_assoc (a b c : string) : (a ++ b) ++ c = a ++ b ++ c.
Proof. induction a as [ | x a IH]; cbn; [ reflexivity | f_equal; exact IH ]. Qed.

(** [s.find(fence)] on a fence-clear text followed by the fence. *)
Lemma find_fence (pre tag rest : string) :
  fence_clear pre ->
  Str.contains ("```" ++ tag) (pre ++ ("```" ++ tag) ++ rest) = true /\
  Str.find (pre ++ ("```" ++ tag) ++ rest) ("```" ++ tag) 0
  = Z.of_nat (String.length pre).
Proof.
  intros Hclear. unfold Str.contains, Str.find.
  change (Z.to_nat 0) with 0%nat. change (Str.drop 0 ?s) with s.
  rewrite (find_at_fence pre tag rest 0 Hclear).
  split; [ reflexivity | ].
  destruct (String.length _ <? 0)%nat eqn:H; [ | reflexivity ].
  apply Nat.ltb_lt in H. lia.
Qed.

(** [s.find("```", start)] from the end of [head], when a fence-clear
    body and a fence follow. *)
Lemma find_closing (head body rest : string) :
  fence_clear body ->
  Str.find (head ++ body ++ "```" ++ rest) "```" (Z.of_nat (String.length head))
  = Z.of_nat (String.length head + String.length body).
Proof.
  intros Hclear. unfold Str.find. rewrite Nat2Z.id.
  destruct (String.length _ <? String.length head)%nat eqn:H.
  - apply Nat.ltb_lt in H. rewrite length_app in H. lia.
  - pose proof (drop_app head (body ++ "```" ++ rest) 0) as Hd.
    rewrite Nat.add_0_r in Hd. change (Str.drop 0 ?s) with s in Hd. rewrite Hd.
    pose proof (find_at_fence body "" rest (String.length head) Hclear) as Hf.
    change (("```" ++ "") ++ rest) with ("```" ++ rest) in Hf.
    change ("```" ++ "") with "```" in Hf.
    rewrite Hf. reflexivity.
Qed.

(** [s[a:b]] with [a] the end of [head] and [b] the end of [body]. *)
Lemma slice_middle (head body rest : string) :
  Str.slice (head ++ body ++ rest) (Z.of_nat (String.length head))
    (Z.of_nat (String.length head + String.length body))
  = body.
Proof.
  unfold Str.slice, Str.clamp. rewrite !length_app.
  destruct (Z.of_nat (String.length head) <? 0) eqn:Ha;
    [ apply Z.ltb_lt in Ha; lia | ].
  destruct (Z.of_nat (String.length head + String.length body) <? 0) eqn:Hb;
    [ apply Z.ltb_lt in Hb; lia | ].
  rewrite !Z.min_l by lia. rewrite Nat2Z.id.
  replace (Z.to_nat (Z.of_nat (String.length head + String.length body)
                     - Z.of_nat (String.length head)))
    with (String.length body) by lia.
  pose proof (drop_app head (body ++ rest) 0) as Hd.
  rewrite Nat.add_0_r in Hd. change (Str.drop 0 ?s) with s in Hd. rewrite Hd.
  apply take_app.
Qed.

(** The text the parser hands to [json.loads], for a response with a
    block fenced by [```] and a tag. *)
Lemma fenced_text (pre tag body post : string) :
  fence_clear pre -> fence_clear body ->
  let text := pre ++ ("```" ++ tag) ++ body ++ "```" ++ post in
  let start := Str.find text ("```" ++ tag) 0 + Z.of_nat (String.length ("```" ++ tag)) in
  Str.strip (Str.slice text start (Str.find text "```" start)) = Str.strip body.
Proof.
  intros Hpre Hbody text start.
  assert (Hstart : start = Z.of_nat (String.length (pre ++ "```" ++ tag))).
  { unfold start, text.
    rewrite (proj2 (find_fence pre tag (body ++ "```" ++ post) Hpre)).
    rewrite !length_app. lia. }
  assert (Htext : text = (pre ++ "```" ++ tag) ++ body ++ "```" ++ post).
  { unfold text. rewrite !app_assoc. reflexivity. }
  rewrite Hstart, Htext, find_closing by assumption.
  rewrite slice_middle. reflexivity.
Qed.

End StrFacts.

(** ** Parsing a model response *)

Lemma extract_json_fence (pre body post : string) :
  fence_clear pre -> fence_clear body ->
  BaseAgent.extract_json_text (pre ++ "```json" ++ body ++ "```" ++ post)
  = Str.strip body.
Proof.
  intros Hpre Hbody. unfold BaseAgent.extract_json_text.
  pose proof (proj1 (find_fence pre "json" (body ++ "```" ++ post) Hpre)) as Hc.
  change ("```" ++ "json") with "```json" in Hc. rewrite Hc.
  exact (fenced_text pre "json" body post Hpre Hbody).
Qed.

Lemma extract_plain_fence (pre body post : string) :
  fence_clear pre -> fence_clear body ->
  Str.contains "```json" (pre ++ "```" ++ body ++ "```" ++ post) = false ->
  BaseAgent.extract_json_text (pre ++ "```" ++ body ++ "```" ++ post)
  = Str.strip body.
Proof.
  intros Hpre Hbody Hno. unfold BaseAgent.extract_json_text. rewrite Hno.
  pose proof (proj1 (find_fence pre "" (body ++ "```" ++ post) Hpre)) as Hc.
  change ("```" ++ "") with "```" in Hc. rewrite Hc.
  exact (fenced_text pre "" body post Hpre Hbody).
Qed.

(** C7.  For a response that wraps its object in a fenced block, tagged
    [json] or plain, where the opening fence is the first fence of the
    response and the closing fence the first after it, the fences and
    what surrounds them are cut away and the stripped body is what is
    decoded.  For every response, a text the decoder rejects makes the
    parser raise a [ValueError]; it never returns a value then. *)
Theorem fenced_json_is_unwrapped rt (pre body post : string) :
  fence_clear pre -> fence_clear body ->
  BaseAgent._parse_json_response rt (pre ++ "```json" ++ body ++ "```" ++ post)
  = parsed rt (Str.strip body) /\
  (Str.contains "```json" (pre ++ "```" ++ body ++ "```" ++ post) = false ->
   BaseAgent._parse_json_response rt (pre ++ "```" ++ body ++ "```" ++ post)
   = parsed rt (Str.strip body)) /\
  (forall response_text e,
     json_loads rt (BaseAgent.extract_json_text response_text) = inr e ->
     exists msg,
       BaseAgent._parse_json_response rt response_text = Err (Exn ValueError msg)).
Proof.
  intros Hpre Hbody. unfold BaseAgent._parse_json_response.
  split; [ | split ].
  - rewrite extract_json_fence by assumption. reflexivity.
  - intros Hno. rewrite extract_plain_fence by assumption. reflexivity.
  - intros response_text e He. rewrite He. eexists. reflexivity.
Qed.

Lemma fenced_json_is_unwrapped_run :
  BaseAgent._parse_json_response (Script.runtime_of Script.all_good None)
    ("Here is the analysis:" ++ Str.nl ++ "```json" ++
     (Str.nl ++ Script.stress_json ++ Str.nl) ++ "```" ++ Str.nl)
  = Ok (VDict {[ "stressed_detected" := VBool true ]}).
Proof.
  exact (proj1 (fenced_json_is_unwrapped (Script.runtime_of Script.all_good None)
                  ("Here is the analysis:" ++ Str.nl)
                  (Str.nl ++ Script.stress_json ++ Str.nl) Str.nl
                  eq_refl eq_refl)).
Defined.

(** ** Content blocked by the safety filters *)

Section SafetyMark.








Variable rt : runtime.
Variable a : agent.
Variable p : prompt.


End SafetyMark.

Lemma build_prompt_instruction rt (a : agent) transcript duration p :
  Agents.build_prompt rt a transcript duration = Ok p -> prompt_instruction p = a.
Proof.
  unfold Agents.build_prompt.
  destruct (BaseAgent._create_prompt rt transcript duration); cbn;
    [ intros [= <-]; reflexivity | discriminate ].
Qed.


(** ** Sample evaluations *)

Example find_first_fence : Str.find "ab```json{}" "```json" 0 = 2.
Proof. reflexivity. Qed.

Example find_past_last_fence : Str.find "ab```json{}" "```" 9 = -1.
Proof. reflexivity. Qed.

Example slice_to_minus_one : Str.slice "abcdef" 2 (-1) = "cde".
Proof. reflexivity. Qed.

Example strip_both_ends : Str.strip (Str.nl ++ " {} " ++ Str.nl) = "{}".
Proof. reflexivity. Qed.

(** A block that is opened and never closed loses its last character. *)
Example unclosed_fence_cut :
  BaseAgent.extract_json_text ("```json" ++ Script.stress_json)
  = "{" ++ Script.dq ++ "stressed_detected" ++ Script.dq ++ ": true".
Proof. reflexivity. Qed.

(** The sentiment agent alone answers a safety block by itself. *)
Example sentiment_neutral_on_block :
  Agents.analyze_sentiment (Script.runtime_of Script.all_blocked None)
    Script.transcript
  = ([NSafetyNeutral],
     Ok {| SentimentAnalysisResult.sentiment_counts := zero_counts |}).
Proof. reflexivity. Qed.

(** A negative duration fails the report model, after the agents ran. *)
Example negative_duration_refused :
  IO.outcome
    (Orchestrator.analyze_call (Script.runtime_of Script.all_good None)
       (VStr "call-1") Script.transcript
       (VFloat (S754_finite true 6333186975989760 (-47))))
  = Err (Pydantic.validation_error "call_duration_seconds").
Proof. reflexivity. Qed.

(** * Further properties *)

(** ** The parser at its edges *)

Lemma find_at_absent (pat s : string) (i : nat) :
  Str.contains pat s = false -> Str.find_at pat s i = None.
Proof.
  unfold Str.contains. rewrite (find_at_shift pat s i).
  destruct (Str.find_at pat s 0); [ discriminate | reflexivity ].
Qed.

Lemma contains_cons (pat : string) (c : ascii) (s : string) :
  Str.contains pat (String c s)
  = Str.startswith pat (String c s) || Str.contains pat s.
Proof.
  unfold Str.contains. rewrite find_at_cons.
  destruct (Str.startswith pat (String c s)); [ reflexivity | ].
  rewrite find_at_shift. destruct (Str.find_at pat s 0); reflexivity.
Qed.

(** A text without the first part of a pattern is without the pattern. *)
Lemma contains_longer (a b s : string) :
  Str.contains a s = false -> Str.contains (a ++ b) s = false.
Proof.
  induction s as [ | c s IH].
  - unfold Str.contains. cbn [Str.find_at].
    destruct (Str.startswith a "") eqn:Ha; [ discriminate | ].
    destruct (Str.startswith (a ++ b) "") eqn:Hab; [ | reflexivity ].
    apply startswith_prefix in Hab. congruence.
  - rewrite !contains_cons. intros H. apply orb_false_elim in H as [H1 H2].
    rewrite (IH H2), orb_false_r.
    destruct (Str.startswith (a ++ b) (String c s)) eqn:Hab; [ | reflexivity ].
    apply startswith_prefix in Hab. congruence.
Qed.

(** X1.  A response that holds no triple backtick is handed to the
    decoder exactly as it is, white space included. *)
Theorem unfenced_response_decoded_as_is rt (response_text : string) :
  Str.contains "```" response_text = false ->
  BaseAgent.extract_json_text response_text = response_text /\
  BaseAgent._parse_json_response rt response_text = parsed rt response_text.
Proof.
  intros H. unfold BaseAgent._parse_json_response, BaseAgent.extract_json_text.
  pose proof (contains_longer "```" "json" response_text H) as Hj.
  change ("```" ++ "json") with "```json" in Hj.
  rewrite Hj, H. split; reflexivity.
Qed.

Lemma unfenced_response_decoded_as_is_run :
  BaseAgent._parse_json_response (Script.runtime_of Script.all_good None)
    Script.sentiment_json
  = Ok (VDict {[ "sentiment_counts" :=
                   VDict {[ "positive" := VInt 1; "negative" := VInt 4 ]} ]}).
Proof.
  exact (proj2 (unfenced_response_decoded_as_is
                  (Script.runtime_of Script.all_good None)
                  Script.sentiment_json eq_refl)).
Defined.

Lemma find_unclosed (head body : string) :
  Str.contains "```" body = false ->
  Str.find (head ++ body) "```" (Z.of_nat (String.length head)) = -1.
Proof.
  intros Hno. unfold Str.find. rewrite Nat2Z.id.
  destruct (String.length _ <? String.length head)%nat; [ reflexivity | ].
  pose proof (drop_app head body 0) as Hd.
  rewrite Nat.add_0_r in Hd. change (Str.drop 0 ?s) with s in Hd. rewrite Hd.
  rewrite (find_at_absent _ _ _ Hno). reflexivity.
Qed.

(** [s[a:-1]] with [a] the end of [head]. *)
Lemma slice_to_last (head body : string) :
  Str.slice (head ++ body) (Z.of_nat (String.length head)) (-1) = but_last body.
Proof.
  unfold Str.slice, Str.clamp, but_last. rewrite length_app.
  destruct (Z.of_nat (String.length head) <? 0) eqn:Ha;
    [ apply Z.ltb_lt in Ha; lia | ].
  change (-1 <? 0) with true. cbv iota.
  rewrite Z.min_l by lia. rewrite Nat2Z.id.
  pose proof (drop_app head body 0) as Hd.
  rewrite Nat.add_0_r in Hd. change (Str.drop 0 ?s) with s in Hd. rewrite Hd.
  f_equal. lia.
Qed.

Lemma unclosed_text (pre tag body : string) :
  fence_clear pre -> Str.contains "```" body = false ->
  let text := pre ++ ("```" ++ tag) ++ body in
  let start := Str.find text ("```" ++ tag) 0 + Z.of_nat (String.length ("```" ++ tag)) in
  Str.strip (Str.slice text start (Str.find text "```" start))
  = Str.strip (but_last body).
Proof.
  intros Hpre Hbody text start.
  assert (Hstart : start = Z.of_nat (String.length (pre ++ "```" ++ tag))).
  { unfold start, text.
    rewrite (proj2 (find_fence pre tag body Hpre)).
    rewrite !length_app. lia. }
  assert (Htext : text = (pre ++ "```" ++ tag) ++ body).
  { unfold text. rewrite !app_assoc. reflexivity. }
  rewrite Hstart, Htext, find_unclosed by assumption.
  rewrite slice_to_last. reflexivity.
Qed.

(** X2.  A fenced block that is opened and never closed loses its last
    character: what is decoded is the text after the opening fence without
    its final character, stripped.  An object that ends the response is so
    decoded without its closing brace. *)
Theorem unclosed_fence_loses_last_character (pre body : string) :
  fence_clear pre -> Str.contains "```" body = false ->
  BaseAgent.extract_json_text (pre ++ "```json" ++ body)
  = Str.strip (but_last body) /\
  (Str.contains "```json" (pre ++ "```" ++ body) = false ->
   BaseAgent.extract_json_text (pre ++ "```" ++ body) = Str.strip (but_last body)).
Proof.
  intros Hpre Hbody. unfold BaseAgent.extract_json_text. split.
  - pose proof (proj1 (find_fence pre "json" body Hpre)) as Hc.
    change ("```" ++ "json") with "```json" in Hc. rewrite Hc.
    exact (unclosed_text pre "json" body Hpre Hbody).
  - intros Hno. rewrite Hno.
    pose proof (proj1 (find_fence pre "" body Hpre)) as Hc.
    change ("```" ++ "") with "```" in Hc. rewrite Hc.
    exact (unclosed_text pre "" body Hpre Hbody).
Qed.

Lemma unclosed_fence_loses_last_character_run :
  BaseAgent.extract_json_text ("Result:" ++ "```json" ++ Script.stress_json)
  = "{" ++ Script.dq ++ "stressed_detected" ++ Script.dq ++ ": true".
Proof.
  exact (proj1 (unclosed_fence_loses_last_character "Result:" Script.stress_json
                  eq_refl eq_refl)).
Defined.

Lemma startswith_long (pat a b : string) :
  (String.length pat <= String.length a)%nat ->
  Str.startswith pat (a ++ b) = Str.startswith pat a.
Proof.
  revert a. induction pat as [ | c pat IH]; intros a Hlen; [ reflexivity | ].
  destruct a as [ | d a]; [ cbn in Hlen; lia | ].
  cbn [append Str.startswith]. destruct (Ascii.eqb c d); [ | reflexivity ].
  apply IH. cbn in Hlen. lia.
Qed.

(** The first occurrence of a pattern [stem ++ l] in [pre ++ pattern ++ rest]
    is the one after [pre], when none starts inside [pre]. *)
Lemma find_at_first (stem : string) (l : ascii) (pre rest : string) (i : nat) :
  Str.contains (stem ++ String l "") (pre ++ stem) = false ->
  Str.find_at (stem ++ String l "") (pre ++ (stem ++ String l "") ++ rest) i
  = Some (i + String.length pre)%nat.
Proof.
  revert i. induction pre as [ | c p IH]; intros i Hno.
  - change ("" ++ (stem ++ String l "") ++ rest)
      with ((stem ++ String l "") ++ rest).
    unfold Str.find_at.
    pose proof (startswith_app (stem ++ String l "") rest) as H.
    destruct ((stem ++ String l "") ++ rest); rewrite H; cbn; f_equal; lia.
  - change (String c p ++ stem) with (String c (p ++ stem)) in Hno.
    rewrite contains_cons in Hno. apply orb_false_elim in Hno as [Hhead Hp].
    change (String c p ++ (stem ++ String l "") ++ rest)
      with (String c (p ++ (stem ++ String l "") ++ rest)).
    rewrite find_at_cons.
    assert (Hs : Str.startswith (stem ++ String l "")
                   (String c (p ++ (stem ++ String l "") ++ rest)) = false).
    { rewrite <- Hhead.
      replace (String c (p ++ (stem ++ String l "") ++ rest))
        with (String c (p ++ stem) ++ String l rest).
      - apply startswith_long. cbn [String.length]. rewrite !length_app.
        cbn [String.length]. lia.
      - cbn [append]. f_equal. rewrite !app_assoc. reflexivity. }
    rewrite Hs, (IH (S i) Hp). cbn [String.length]. f_equal. lia.
Qed.

(** X3.  A block tagged [json] is the one that is parsed even when plain
    fences come before it: if no [```json] starts before the tagged fence
    and its closing fence is the first fence after it, the stripped body
    of the tagged block is what is decoded. *)
Theorem tagged_block_preferred (pre body post : string) :
  Str.contains "```json" (pre ++ "```jso") = false ->
  fence_clear body ->
  BaseAgent.extract_json_text (pre ++ "```json" ++ body ++ "```" ++ post)
  = Str.strip body.
Proof.
  intros Hpre Hbody. unfold BaseAgent.extract_json_text.
  pose proof (find_at_first "```jso" "n" pre (body ++ "```" ++ post) 0 Hpre) as Hf.
  change ("```jso" ++ "n") with "```json" in Hf.
  change (("```json") ++ body ++ "```" ++ post)
    with ("```json" ++ body ++ "```" ++ post) in Hf.
  assert (Hc : Str.contains "```json" (pre ++ "```json" ++ body ++ "```" ++ post)
               = true).
  { unfold Str.contains. rewrite Hf. reflexivity. }
  assert (Hfind : Str.find (pre ++ "```json" ++ body ++ "```" ++ post) "```json" 0
                  = Z.of_nat (String.length pre)).
  { unfold Str.find. change (Z.to_nat 0) with 0%nat. change (Str.drop 0 ?s) with s.
    rewrite Hf. destruct (String.length _ <? 0)%nat eqn:H; [ | reflexivity ].
    apply Nat.ltb_lt in H. lia. }
  rewrite Hc, Hfind.
  replace (Z.of_nat (String.length pre) + 7)
    with (Z.of_nat (String.length (pre ++ "```json")))
    by (rewrite length_app; cbn [String.length]; lia).
  replace (pre ++ "```json" ++ body ++ "```" ++ post)
    with ((pre ++ "```json") ++ body ++ "```" ++ post)
    by (rewrite !app_assoc; reflexivity).
  rewrite find_closing by assumption. rewrite slice_middle. reflexivity.
Qed.

Lemma tagged_block_preferred_run :
  BaseAgent.extract_json_text
    (("```" ++ Str.nl ++ "draft" ++ Str.nl ++ "```" ++ Str.nl)
     ++ "```json" ++ (Str.nl ++ Script.stress_json ++ Str.nl) ++ "```" ++ "")
  = Script.stress_json.
Proof.
  exact (tagged_block_preferred
           ("```" ++ Str.nl ++ "draft" ++ Str.nl ++ "```" ++ Str.nl)
           (Str.nl ++ Script.stress_json ++ Str.nl) "" eq_refl eq_refl).
Defined.

(** ** The agents and their answers *)

(** X4.  The sentiment agent never lets a safety block out: an exception
    it raises is no [RuntimeError] that holds the mark [SAFETY]. *)
Theorem sentiment_agent_keeps_safety_blocks rt transcript e :
  IO.outcome (Agents.analyze_sentiment rt transcript) = Err e ->
  exn_cls e = RuntimeError ->
  marked_safety e = false.
Proof.
  unfold Agents.analyze_sentiment. autorewrite with outcome.
  destruct (Agents.build_prompt rt SentimentAnalyzer transcript None) as [p | e0] eqn:Hp.
  - autorewrite with outcome.
    match goal with
    | |- context [ match ?m with Ok _ => _ | Err _ => _ end ] =>
        destruct m as [r0 | [cls msg]]
    end; [ discriminate | ].
    cbv beta iota. cbn [exn_cls exn_msg].
    destruct cls; autorewrite with outcome; try (intros [= <-]; discriminate).
    destruct (Str.contains "SAFETY" msg) eqn:Hm.
    + autorewrite with outcome. cbv beta iota. autorewrite with outcome.
      rewrite neutral_counts. discriminate.
    + autorewrite with outcome. intros [= <-] _. exact Hm.
  - intros [= <-]. unfold Agents.build_prompt in Hp.
    destruct (BaseAgent._create_prompt rt transcript None) as [b | e1] eqn:Hc;
      cbn in Hp; [ discriminate | ].
    injection Hp as <-. unfold BaseAgent._create_prompt in Hc.
    destruct (BaseAgent.render_messages rt transcript) as [ls | e2] eqn:Hr;
      cbn in Hc; [ discriminate | ].
    injection Hc as <-. intros Hcls. exfalso.
    clear - Hr Hcls. revert e2 Hr Hcls.
    induction transcript as [ | msg rest IH]; intros e2 Hr Hcls; [ discriminate | ].
    cbn [BaseAgent.render_messages] in Hr.
    destruct (BaseAgent.render_message rt msg) as [line | e3] eqn:Hm; cbn in Hr.
    + destruct (BaseAgent.render_messages rt rest) as [ls | e4]; cbn in Hr;
        [ discriminate | ].
      injection Hr as <-. eapply IH; [ reflexivity | exact Hcls ].
    + injection Hr as <-. unfold BaseAgent.render_message in Hm.
      destruct msg; try (injection Hm as <-; discriminate).
      destruct (default (VStr "unknown") (d !! "role"));
        try (injection Hm as <-; discriminate). discriminate.
Qed.

Lemma sentiment_agent_keeps_safety_blocks_run :
  marked_safety
    (Exn RuntimeError "Agent gemini-flash-latest failed: deadline exceeded") = false.
Proof.
  apply (sentiment_agent_keeps_safety_blocks
           (Script.runtime_of Script.all_down None) Script.transcript);
    reflexivity.
Defined.

Lemma counts_negative_refused rt (counts : gmap string pyval) z :
  (counts !! "positive" = Some (VInt z) \/ counts !! "negative" = Some (VInt z)) ->
  z < 0 ->
  exists e, SentimentCounts.new rt counts = Err e /\ exn_cls e = ValidationError.
Proof.
  intros H Hz. unfold SentimentCounts.new, Pydantic.required, Pydantic.int_ge0.
  assert (Hneg : (0 <=? z) = false) by (apply Z.leb_gt; exact Hz).
  destruct H as [H | H].
  - rewrite H. cbn [rbind Pydantic.validate_int]. rewrite Hneg.
    eexists. split; reflexivity.
  - rewrite H.
    destruct (counts !! "positive") as [vp | ]; cbn [rbind];
      [ | eexists; split; reflexivity ].
    unfold Pydantic.validate_int at 1.
    destruct vp; try (destruct (lax_int rt _)); cbn [rbind];
      try (eexists; split; reflexivity);
      match goal with
      | |- context [ if 0 <=? ?x then _ else _ ] =>
          destruct (0 <=? x); cbn [rbind Pydantic.validate_int];
          rewrite ?Hneg; eexists; split; reflexivity
      end.
Qed.

(** The outcome of an agent of the common shape whose request is answered. *)
Lemma agent_body_replied {A} rt (a : agent) v transcript duration
    (k : pyval -> result A) :
  replies rt a v ->
  (p <-r Agents.build_prompt rt a transcript duration ;;
   result_dict <-r Agents.ask rt a p ;;
   k result_dict)
  = (p <-r Agents.build_prompt rt a transcript duration ;; k v).
Proof.
  intros Hr.
  destruct (Agents.build_prompt rt a transcript duration) as [p | e] eqn:Hp;
    cbn [rbind]; [ | reflexivity ].
  rewrite (Hr p (build_prompt_instruction rt a _ _ _ Hp)). reflexivity.
Qed.

(** X5.  One sentiment count below zero voids the whole answer of the
    sentiment agent: the report then carries the counts 0 and 0, not the
    other, valid count. *)
Theorem negative_count_voids_both rt c transcript f (counts : gmap string pyval) z :
  gather_fault rt = None ->
  nonnegative f ->
  replies rt SentimentAnalyzer (VDict {[ "sentiment_counts" := VDict counts ]}) ->
  (counts !! "positive" = Some (VInt z) \/ counts !! "negative" = Some (VInt z)) ->
  z < 0 ->
  exists report,
    IO.outcome (Orchestrator.analyze_call rt (VStr c) transcript (VFloat f))
    = Ok report /\
    CallAnalysis.sentiment_counts (CallAnalysisReport.analysis report) = zero_counts.
Proof.
  intros Hg Hf Hr Hc Hz.
  rewrite analyze_call_outcome by assumption.
  rewrite extract_sentiment_settled, pick_stress, pick_stressor, pick_blocker,
    pick_severity.
  cbn [rbind]. rewrite create_typed by assumption.
  eexists. split; [ reflexivity | ].
  cbn [CallAnalysisReport.analysis CallAnalysis.sentiment_counts].
  assert (Hs : exists e, IO.outcome (Agents.analyze_sentiment rt transcript) = Err e).
  { unfold Agents.analyze_sentiment. autorewrite with outcome.
    destruct (Agents.build_prompt rt SentimentAnalyzer transcript None) as [p | e] eqn:Hp;
      [ | eauto ].
    autorewrite with outcome.
    rewrite (Hr p (build_prompt_instruction rt SentimentAnalyzer _ _ _ Hp)).
    cbn [rbind Pydantic.unpack]. unfold SentimentAnalysisResult.new.
    change (Pydantic.required {[ "sentiment_counts" := VDict counts ]} "sentiment_counts")
      with (Ok (A := pyval) (VDict counts)).
    cbn [rbind SentimentCounts.validate].
    destruct (counts_negative_refused rt counts z Hc Hz) as ([cls msg] & He & Hcls).
    rewrite He. cbn [rbind]. cbn in Hcls. subst cls. cbv beta iota.
    cbn [exn_cls]. autorewrite with outcome. eauto. }
  destruct Hs as [e He]. rewrite He. reflexivity.
Qed.

Lemma negative_count_voids_both_run :
  exists report,
    IO.outcome
      (Orchestrator.analyze_call
         {| generate_content := fun _ _ => Script.says "counts";
            json_loads := fun _ =>
              inl (VDict {[ "sentiment_counts" :=
                              VDict {[ "positive" := VInt 3;
                                       "negative" := VInt (-1) ]} ]});
            lax_bool := fun _ => None;
            lax_int := fun _ => None;
            lax_float := fun _ => None;
            str_upper := fun s => s;
            format_value := fun _ => "";
            utcnow_isoformat := "2025-11-29T06:55:00";
            gather_fault := None |}
         (VStr "call-1") Script.transcript (VFloat Script.duration))
    = Ok report /\
    CallAnalysis.sentiment_counts (CallAnalysisReport.analysis report) = zero_counts.
Proof.
  apply (negative_count_voids_both _ "call-1" Script.transcript Script.duration
           {[ "positive" := VInt 3; "negative" := VInt (-1) ]} (-1)).
  - reflexivity.
  - reflexivity.
  - intros p _. reflexivity.
  - right. reflexivity.
  - lia.
Defined.

(** X6.  A confidence outside the range from 0 to 1 voids the whole answer
    of the stress detector: a call the model marks as stressed is then
    reported as not stressed. *)
Theorem confidence_out_of_range_voids_stress rt c transcript f
    (kwargs : gmap string pyval) (b : bool) (conf : spec_float) :
  gather_fault rt = None ->
  nonnegative f ->
  replies rt StressDetector (VDict kwargs) ->
  kwargs !! "stressed_detected" = Some (VBool b) ->
  kwargs !! "confidence" = Some (VFloat conf) ->
  (SFleb Pydantic.float_zero conf = false \/ SFleb conf Pydantic.float_one = false) ->
  exists report,
    IO.outcome (Orchestrator.analyze_call rt (VStr c) transcript (VFloat f))
    = Ok report /\
    CallAnalysis.stressed_detected (CallAnalysisReport.analysis report) = false.
Proof.
  intros Hg Hf Hr Hb Hc Hrange.
  rewrite analyze_call_outcome by assumption.
  rewrite extract_sentiment_settled, pick_stress, pick_stressor, pick_blocker,
    pick_severity.
  cbn [rbind]. rewrite create_typed by assumption.
  eexists. split; [ reflexivity | ].
  cbn [CallAnalysisReport.analysis CallAnalysis.stressed_detected].
  unfold Agents.detect_stress. rewrite outcome_lift.
  rewrite (agent_body_replied rt StressDetector (VDict kwargs) transcript None _ Hr).
  destruct (Agents.build_prompt rt StressDetector transcript None); cbn [rbind];
    [ | reflexivity ].
  cbn [Pydantic.unpack rbind]. unfold StressDetectionResult.new, Pydantic.required.
  rewrite Hb, Hc. cbn [rbind Pydantic.validate_bool Pydantic.validate_float].
  unfold Pydantic.float_ge, Pydantic.float_le.
  destruct Hrange as [H | H].
  - rewrite H. reflexivity.
  - destruct (SFleb Pydantic.float_zero conf); cbn [rbind]; [ | reflexivity ].
    rewrite H. reflexivity.
Qed.

Lemma confidence_out_of_range_voids_stress_run :
  exists report,
    IO.outcome
      (Orchestrator.analyze_call
         {| generate_content := fun _ _ => Script.says "stress";
            json_loads := fun _ =>
              inl (VDict {[ "stressed_detected" := VBool true;
                            "confidence" := VFloat (S754_finite false 6755399441055744 (-52)) ]});
            lax_bool := fun _ => None;
            lax_int := fun _ => None;
            lax_float := fun _ => None;
            str_upper := fun s => s;
            format_value := fun _ => "";
            utcnow_isoformat := "2025-11-29T06:55:00";
            gather_fault := None |}
         (VStr "call-1") Script.transcript (VFloat Script.duration))
    = Ok report /\
    CallAnalysis.stressed_detected (CallAnalysisReport.analysis report) = false.
Proof.
  apply (confidence_out_of_range_voids_stress _ "call-1" Script.transcript
           Script.duration
           {[ "stressed_detected" := VBool true; "confidence" := VFloat (S754_finite false 6755399441055744 (-52)) ]}
           true (S754_finite false 6755399441055744 (-52))).
  - reflexivity.
  - reflexivity.
  - intros p _. reflexivity.
  - reflexivity.
  - reflexivity.
  - right. reflexivity.
Defined.

(** X7.  The result models read their own fields only: a key that is no
    field of the model, such as an explanation the generation service adds
    to its answer, changes nothing. *)
Theorem result_models_ignore_other_keys rt (kwargs : gmap string pyval) k v :
  (k <> "stressed_detected" -> k <> "confidence" ->
   StressDetectionResult.new rt (<[k := v]> kwargs)
   = StressDetectionResult.new rt kwargs) /\
  (k <> "sentiment_counts" ->
   SentimentAnalysisResult.new rt (<[k := v]> kwargs)
   = SentimentAnalysisResult.new rt kwargs) /\
  (k <> "top_stressors" ->
   StressorIdentificationResult.new (<[k := v]> kwargs)
   = StressorIdentificationResult.new kwargs) /\
  (k <> "common_blockers" ->
   BlockerIdentificationResult.new (<[k := v]> kwargs)
   = BlockerIdentificationResult.new kwargs) /\
  (k <> "is_severe_case" -> k <> "severity_indicators" ->
   SeverityClassificationResult.new rt (<[k := v]> kwargs)
   = SeverityClassificationResult.new rt kwargs) /\
  (k <> "positive" -> k <> "negative" ->
   SentimentCounts.new rt (<[k := v]> kwargs) = SentimentCounts.new rt kwargs).
Proof.
  repeat split; intros;
    unfold StressDetectionResult.new, SentimentAnalysisResult.new,
      StressorIdentificationResult.new, BlockerIdentificationResult.new,
      SeverityClassificationResult.new, SentimentCounts.new, Pydantic.required;
    rewrite !lookup_insert_ne by congruence; reflexivity.
Qed.

Lemma result_models_ignore_other_keys_run :
  StressDetectionResult.new (Script.runtime_of Script.all_good None)
    (<[ "explanation" := VStr "the caller mentions deadlines" ]>
       {[ "stressed_detected" := VBool true ]})
  = StressDetectionResult.new (Script.runtime_of Script.all_good None)
      {[ "stressed_detected" := VBool true ]}.
Proof.
  apply (proj1 (result_models_ignore_other_keys
                  (Script.runtime_of Script.all_good None)
                  {[ "stressed_detected" := VBool true ]} "explanation"
                  (VStr "the caller mentions deadlines")));
    discriminate.
Defined.

(** ** Transcripts that cannot be rendered *)

Lemma render_messages_unrenderable rt transcript :
  existsb unrenderable transcript = true ->
  exists e, BaseAgent.render_messages rt transcript = Err e.
Proof.
  induction transcript as [ | msg rest IH]; [ discriminate | ].
  cbn [existsb BaseAgent.render_messages]. intros H.
  destruct (BaseAgent.render_message rt msg) as [line | e] eqn:Hm;
    cbn [rbind]; [ | eauto ].
  assert (Hu : unrenderable msg = false).
  { unfold BaseAgent.render_message in Hm. unfold unrenderable.
    destruct msg; try discriminate.
    destruct (default (VStr "unknown") (d !! "role")); try discriminate.
    reflexivity. }
  rewrite Hu in H. cbn in H. destruct (IH H) as [e He]. rewrite He. cbn. eauto.
Qed.

Lemma build_prompt_unrenderable rt a transcript duration :
  existsb unrenderable transcript = true ->
  exists e, Agents.build_prompt rt a transcript duration = Err e.
Proof.
  intros H. destruct (render_messages_unrenderable rt transcript H) as [e He].
  unfold Agents.build_prompt, BaseAgent._create_prompt. rewrite He. cbn. eauto.
Qed.

(** X8.  One transcript message that is no dict, or whose role is no
    string, makes every agent fail before it asks the generation service:
    whatever the service would answer, the report is the one with all
    defaults. *)
Theorem unrenderable_transcript_gives_defaults rt c transcript f :
  gather_fault rt = None ->
  nonnegative f ->
  existsb unrenderable transcript = true ->
  IO.outcome (Orchestrator.analyze_call rt (VStr c) transcript (VFloat f))
  = Ok (default_report rt c f).
Proof.
  intros Hg Hf Hu.
  rewrite analyze_call_outcome by assumption.
  rewrite extract_sentiment_settled, pick_stress, pick_stressor, pick_blocker,
    pick_severity.
  cbn [rbind]. rewrite create_typed by assumption.
  unfold Agents.detect_stress, Agents.analyze_sentiment, Agents.identify_stressors,
    Agents.identify_blockers, Agents.classify_severity.
  autorewrite with outcome.
  destruct (build_prompt_unrenderable rt StressDetector transcript None Hu) as [e1 H1].
  destruct (build_prompt_unrenderable rt SentimentAnalyzer transcript None Hu) as [e2 H2].
  destruct (build_prompt_unrenderable rt StressorFinder transcript None Hu) as [e3 H3].
  destruct (build_prompt_unrenderable rt BlockerFinder transcript None Hu) as [e4 H4].
  destruct (build_prompt_unrenderable rt SeverityClassifier transcript
              (Some (VFloat f)) Hu) as [e5 H5].
  rewrite H1, H2, H3, H4, H5. reflexivity.
Qed.

Lemma unrenderable_transcript_gives_defaults_run :
  IO.outcome
    (Orchestrator.analyze_call (Script.runtime_of Script.all_good None)
       (VStr "call-1")
       [ VDict {[ "role" := VStr "user"; "content" := VStr "I am worn out" ]};
         VDict {[ "role" := VNone; "content" := VStr "noted" ]} ]
       (VFloat Script.duration))
  = Ok (default_report (Script.runtime_of Script.all_good None) "call-1"
          Script.duration).
Proof.
  apply (unrenderable_transcript_gives_defaults
           (Script.runtime_of Script.all_good None) "call-1"
           [ VDict {[ "role" := VStr "user"; "content" := VStr "I am worn out" ]};
             VDict {[ "role" := VNone; "content" := VStr "noted" ]} ]
           Script.duration); reflexivity.
Defined.

(** ** What the orchestrator prints *)

(** X9.  When the dispatch runs, the orchestrator prints, in this order:
    its start notice; for the stress detector, the sentiment analyzer, the
    stressor finder, the blocker finder and the severity classifier in
    turn, that the agent runs and that it returned or failed, each agent
    being run whatever the earlier ones did; one default notice for each
    agent that raised and for no other; and the completion notice exactly
    when a report is returned. *)
Theorem orchestrator_trace rt call_id transcript duration :
  gather_fault rt = None ->
  IO.output (Orchestrator.analyze_call rt call_id transcript duration)
  = (NStart call_id (List.length transcript) duration
     :: agent_block StressDetector (Agents.detect_stress rt transcript)
     ++ agent_block SentimentAnalyzer (Agents.analyze_sentiment rt transcript)
     ++ agent_block StressorFinder (Agents.identify_stressors rt transcript)
     ++ agent_block BlockerFinder (Agents.identify_blockers rt transcript)
     ++ agent_block SeverityClassifier
          (Agents.classify_severity rt transcript duration)
     ++ default_notice "stressed_detected" (Agents.detect_stress rt transcript)
     ++ default_notice "sentiment_counts" (Agents.analyze_sentiment rt transcript)
     ++ default_notice "top_stressors" (Agents.identify_stressors rt transcript)
     ++ default_notice "common_blockers" (Agents.identify_blockers rt transcript)
     ++ default_notice "is_severe_case"
          (Agents.classify_severity rt transcript duration)
     ++ match IO.outcome (Orchestrator.analyze_call rt call_id transcript duration) with
        | Ok _ => [NComplete]
        | Err _ => []
        end)%list.
Proof.
  intros Hg.
  unfold Orchestrator.analyze_call, Orchestrator.dispatch, Orchestrator.gather,
    Orchestrator._run_stress_detector, Orchestrator._run_sentiment_analyzer,
    Orchestrator._run_stressor_finder, Orchestrator._run_blocker_finder,
    Orchestrator._run_severity_classifier, agent_block, default_notice.
  rewrite Hg.
  destruct (Agents.detect_stress rt transcript) as [o1 [r1 | e1]];
  destruct (Agents.analyze_sentiment rt transcript) as [o2 [r2 | e2]];
  destruct (Agents.identify_stressors rt transcript) as [o3 [r3 | e3]];
  destruct (Agents.identify_blockers rt transcript) as [o4 [r4 | e4]];
  destruct (Agents.classify_severity rt transcript duration) as [o5 [r5 | e5]].
  all: cbn -[SentimentCounts.new CallAnalysisReport.create];
    rewrite ?neutral_counts;
    cbn -[SentimentCounts.new CallAnalysisReport.create].
  all: match goal with
       | |- context [ CallAnalysisReport.create ?a ?b ?c ?d ?e ?f ?g ?h ] =>
           destruct (CallAnalysisReport.create a b c d e f g h)
       end; cbn.
  all: repeat (rewrite <- List.app_assoc || rewrite List.app_nil_r
               || rewrite <- List.app_comm_cons); cbn.
  all: reflexivity.
Qed.

Lemma output_bind {A B} (m : io A) (k : A -> io B) :
  IO.output (IO.bind m k)
  = (IO.output m ++ match IO.outcome m with
                    | Ok a => IO.output (k a)
                    | Err _ => []
                    end)%list.
Proof.
  destruct m as [out [a | e]]; cbn.
  - destruct (k a). reflexivity.
  - rewrite List.app_nil_r. reflexivity.
Qed.

Lemma output_try_except {A} (m : io A) (h : exn -> io A) :
  IO.output (IO.try_except m h)
  = (IO.output m ++ match IO.outcome m with
                    | Ok _ => []
                    | Err e => IO.output (h e)
                    end)%list.
Proof.
  destruct m as [out [a | e]]; cbn.
  - rewrite List.app_nil_r. reflexivity.
  - destruct (h e). reflexivity.
Qed.

(** What a task prints is printed by the gather that holds the task. *)
Lemma gather_all_prints tasks task x :
  In task tasks -> In x (IO.output task) ->
  In x (IO.output (Orchestrator.gather_all tasks)).
Proof.
  induction tasks as [ | t rest IH]; intros Hin Hx; [ destruct Hin | ].
  cbn [Orchestrator.gather_all]. rewrite output_bind, output_try_except.
  apply in_or_app. destruct Hin as [-> | Hin].
  - left. apply in_or_app. left. exact Hx.
  - right. rewrite outcome_try_except.
    assert (Hok : exists r,
              match IO.outcome t with
              | Ok a => Ok a
              | Err e => IO.outcome (IO.ret (Orchestrator.ExceptionResult e))
              end = Ok r).
    { destruct (IO.outcome t); eexists; reflexivity. }
    destruct Hok as [r ->]. rewrite output_bind. apply in_or_app. left.
    apply IH; assumption.
Qed.

(** Every agent is run once the dispatch runs. *)
Lemma agents_all_run rt call_id transcript duration a :
  gather_fault rt = None ->
  In (NRunning a)
    (IO.output (Orchestrator.analyze_call rt call_id transcript duration)).
Proof.
  intros Hg. unfold Orchestrator.analyze_call. rewrite output_bind.
  apply in_or_app. right. rewrite outcome_print. rewrite output_bind.
  apply in_or_app. left.
  unfold Orchestrator.dispatch. rewrite output_try_except.
  apply in_or_app. left. rewrite output_bind. apply in_or_app. left.
  unfold Orchestrator.gather. rewrite Hg.
  assert (Hrun : forall A (wrap : A -> Orchestrator.agent_result) (call : io A),
            In (NRunning a) (IO.output (Orchestrator.run_agent a wrap call))).
  { intros A wrap call. unfold Orchestrator.run_agent.
    rewrite output_try_except. apply in_or_app. left.
    rewrite output_bind. apply in_or_app. left. left. reflexivity. }
  destruct a.
  - eapply gather_all_prints; [ left; reflexivity | apply Hrun ].
  - eapply gather_all_prints; [ right; left; reflexivity | apply Hrun ].
  - eapply gather_all_prints; [ do 2 right; left; reflexivity | apply Hrun ].
  - eapply gather_all_prints; [ do 3 right; left; reflexivity | apply Hrun ].
  - eapply gather_all_prints; [ do 4 right; left; reflexivity | apply Hrun ].
Qed.

Lemma orchestrator_trace_run :
  IO.output
    (Orchestrator.analyze_call (Script.runtime_of Script.all_blocked None)
       (VStr "call-1") Script.transcript (VFloat Script.duration))
  = [ NStart (VStr "call-1") 1 (VFloat Script.duration);
      NRunning StressDetector;
      NFailed StressDetector
        (Exn RuntimeError
           "Agent gemini-flash-latest failed: SAFETY - Response blocked by safety filters");
      NRunning SentimentAnalyzer; NSafetyNeutral; NSucceeded SentimentAnalyzer;
      NRunning StressorFinder;
      NFailed StressorFinder
        (Exn RuntimeError
           "Agent gemini-flash-latest failed: SAFETY - Response blocked by safety filters");
      NRunning BlockerFinder;
      NFailed BlockerFinder
        (Exn RuntimeError
           "Agent gemini-flash-latest failed: SAFETY - Response blocked by safety filters");
      NRunning SeverityClassifier;
      NFailed SeverityClassifier
        (Exn RuntimeError
           "Agent gemini-pro-latest failed: SAFETY - Response blocked by safety filters");
      NDefault "stressed_detected"; NDefault "top_stressors";
      NDefault "common_blockers"; NDefault "is_severe_case"; NComplete ].
Proof.
  exact (orchestrator_trace (Script.runtime_of Script.all_blocked None)
           (VStr "call-1") Script.transcript (VFloat Script.duration) eq_refl).
Defined.

(** ** More on the validated entry point *)

(** X10.  The entry point reads the three keys [call_id],
    [duration_seconds] and [transcript] only: any other key of the processed
    call, such as the agent id or the time stamps, changes nothing. *)
Theorem analyze_call_reads_three_keys rt (data : gmap string pyval) k v :
  k <> "call_id" -> k <> "duration_seconds" -> k <> "transcript" ->
  CallAnalyzer.analyze_call rt (<[k := v]> data) = CallAnalyzer.analyze_call rt data.
Proof.
  intros H1 H2 H3. unfold CallAnalyzer.analyze_call, CallAnalyzer.item.
  cbn [CallAnalyzer.check_required CallAnalyzer.required_fields].
  rewrite !lookup_insert_ne by congruence. reflexivity.
Qed.

Lemma analyze_call_reads_three_keys_run :
  CallAnalyzer.analyze_call (Script.runtime_of Script.all_good None)
    (<[ "agent_id" := VStr "assistant-7" ]>
       {[ "call_id" := VStr "call-1";
          "duration_seconds" := VFloat Script.duration;
          "transcript" := VList Script.transcript ]})
  = CallAnalyzer.analyze_call (Script.runtime_of Script.all_good None)
      {[ "call_id" := VStr "call-1";
         "duration_seconds" := VFloat Script.duration;
         "transcript" := VList Script.transcript ]}.
Proof.
  apply (analyze_call_reads_three_keys (Script.runtime_of Script.all_good None)
           {[ "call_id" := VStr "call-1";
              "duration_seconds" := VFloat Script.duration;
              "transcript" := VList Script.transcript ]}
           "agent_id" (VStr "assistant-7")); discriminate.
Defined.

Lemma analyze_call_passes rt (data : gmap string pyval) call_id duration m rest :
  data !! "call_id" = Some call_id ->
  data !! "duration_seconds" = Some duration ->
  data !! "transcript" = Some (VList (m :: rest)) ->
  CallAnalyzer.analyze_call rt data
  = Orchestrator.analyze_call rt call_id (m :: rest) duration.
Proof.
  intros H1 H2 H3. unfold CallAnalyzer.analyze_call.
  rewrite (check_required_ok data call_id duration (VList (m :: rest)))
    by assumption.
  unfold CallAnalyzer.item. rewrite H1, H2, H3.
  rewrite !bind_lift_ok. cbn [CallAnalyzer.check_transcript].
  rewrite bind_lift_ok. reflexivity.
Qed.

Lemma create_refuses_call_id rt call_id duration (b : bool) counts (s k : string)
    (v : bool) :
  (forall c, call_id <> VStr c) ->
  CallAnalysisReport.create rt call_id duration (VBool b) counts (VStr s) (VStr k)
    (VBool v)
  = Err (Pydantic.validation_error "call_id").
Proof.
  intros Hc. unfold CallAnalysisReport.create, CallAnalysis.new.
  cbn [Pydantic.validate_bool Pydantic.validate_str rbind].
  destruct call_id; try reflexivity. exfalso. eapply Hc. reflexivity.
Qed.

(** X11.  The entry point checks that the call id is there, not that it is
    a string.  A call id that is no string is refused by the report model
    only, with a validation error, after all five agents have been run. *)
Theorem call_id_checked_after_agents rt (data : gmap string pyval)
    call_id duration m rest :
  gather_fault rt = None ->
  data !! "call_id" = Some call_id ->
  (forall c, call_id <> VStr c) ->
  data !! "duration_seconds" = Some duration ->
  data !! "transcript" = Some (VList (m :: rest)) ->
  IO.outcome (CallAnalyzer.analyze_call rt data)
  = Err (Pydantic.validation_error "call_id") /\
  forall a, In (NRunning a) (IO.output (CallAnalyzer.analyze_call rt data)).
Proof.
  intros Hg H1 Hc H2 H3.
  rewrite (analyze_call_passes rt data call_id duration m rest H1 H2 H3).
  assert (Ho : IO.outcome (Orchestrator.analyze_call rt call_id (m :: rest) duration)
               = Err (Pydantic.validation_error "call_id")).
  { rewrite analyze_call_outcome by assumption.
    rewrite extract_sentiment_settled, pick_stress, pick_stressor, pick_blocker,
      pick_severity.
    cbn [rbind]. apply create_refuses_call_id. assumption. }
  split; [ exact Ho | ].
  intros a. apply agents_all_run. assumption.
Qed.

Lemma call_id_checked_after_agents_run :
  IO.outcome
    (CallAnalyzer.analyze_call (Script.runtime_of Script.all_good None)
       {[ "call_id" := VInt 7;
          "duration_seconds" := VFloat Script.duration;
          "transcript" := VList Script.transcript ]})
  = Err (Pydantic.validation_error "call_id").
Proof.
  refine (proj1 (call_id_checked_after_agents
                   (Script.runtime_of Script.all_good None)
                   {[ "call_id" := VInt 7;
                      "duration_seconds" := VFloat Script.duration;
                      "transcript" := VList Script.transcript ]}
                   (VInt 7) (VFloat Script.duration)
                   (VDict {[ "role" := VStr "user";
                             "content" := VStr "I might hurt myself" ]}) []
                   eq_refl eq_refl _ eq_refl eq_refl)).
  intros c. discriminate.
Defined.

(** ** The webhook processor *)

Lemma raise_if_ok (cond : bool) (e : exn) u :
  CallReportProcessor.raise_if cond e = Ok u -> cond = false.
Proof. destruct cond; [ discriminate | reflexivity ]. Qed.

Lemma truthy_str_nonempty (s : string) : truthy (VStr s) = true -> s <> "".
Proof. cbn. intros H ->. discriminate H. Qed.

Lemma get_some (d : gmap string pyval) key (v : pyval) :
  Processor.get d key VNone = v -> truthy v = true -> d !! key = Some v.
Proof.
  unfold Processor.get. destruct (d !! key); intros <-; [ reflexivity | discriminate ].
Qed.

Lemma validate_str_ok field v s : Pydantic.validate_str field v = Ok s -> v = VStr s.
Proof. destruct v; cbn; congruence. Qed.

Lemma process_inv rt message call :
  CallReportProcessor.process_end_of_call_report rt message = Ok call ->
  exists c a tr,
    CallReportProcessor.equals_str (Processor.get message "type" VNone)
      "end-of-call-report" = true /\
    Processor.get message "call" (VDict ∅) = VDict c /\
    truthy (Processor.get c "id" VNone) = true /\
    Processor.get message "assistant" (VDict ∅) = VDict a /\
    truthy (Processor.get a "id" VNone) = true /\
    truthy (Processor.get message "startedAt" VNone) = true /\
    truthy (Processor.get message "endedAt" VNone) = true /\
    (items <-r CallReportProcessor.iterate
                 (Processor.get message "messages" (VList [])) ;;
     Processor._transform_messages items) = Ok tr /\
    ProcessedCall.new rt (Processor.get c "id" VNone) (Processor.get a "id" VNone)
      (match Processor.get message "customer" (VDict ∅) with
       | VDict k => Processor.get k "number" VNone
       | _ => VNone
       end)
      (Processor.get c "type" (VStr "unknown"))
      (Processor.get message "startedAt" VNone)
      (Processor.get message "endedAt" VNone)
      (Processor.get message "durationSeconds" VNone) tr = Ok call.
Proof.
  unfold CallReportProcessor.process_end_of_call_report. intros H.
  apply rbind_ok in H as (u1 & H1 & H). apply raise_if_ok, negb_false_iff in H1.
  apply rbind_ok in H as (c & Hc & H).
  apply rbind_ok in H as (u2 & H2 & H). apply raise_if_ok, negb_false_iff in H2.
  apply rbind_ok in H as (k & Hk & H).
  apply rbind_ok in H as (a & Ha & H).
  apply rbind_ok in H as (u3 & H3 & H). apply raise_if_ok, negb_false_iff in H3.
  apply rbind_ok in H as (u4 & H4 & H). apply raise_if_ok, negb_false_iff in H4.
  apply rbind_ok in H as (u5 & H5 & H). apply raise_if_ok, negb_false_iff in H5.
  apply rbind_ok in H as (u6 & H6 & H).
  apply rbind_ok in H as (tr & Htr & H).
  exists c, a, tr.
  destruct (Processor.get message "call" (VDict ∅)); try discriminate Hc.
  destruct (Processor.get message "assistant" (VDict ∅)); try discriminate Ha.
  destruct (Processor.get message "customer" (VDict ∅)); try discriminate Hk.
  cbn in Hc, Ha, Hk. injection Hc as ->. injection Ha as ->. injection Hk as ->.
  repeat split; assumption.
Qed.

Lemma new_call_inv rt call_id agent_id customer_number call_type start_timestamp
    end_timestamp duration_seconds tr call :
  ProcessedCall.new rt call_id agent_id customer_number call_type start_timestamp
    end_timestamp duration_seconds tr = Ok call ->
  call_id = VStr (ProcessedCall.call_id call) /\
  agent_id = VStr (ProcessedCall.agent_id call) /\
  call_type = VStr (ProcessedCall.call_type call) /\
  start_timestamp = VStr (ProcessedCall.start_timestamp call) /\
  end_timestamp = VStr (ProcessedCall.end_timestamp call) /\
  Pydantic.validate_float rt "duration_seconds" duration_seconds
    = Ok (ProcessedCall.duration_seconds call) /\
  SFltb Pydantic.float_zero (ProcessedCall.duration_seconds call) = true /\
  ProcessedCall.transcript call = tr.
Proof.
  unfold ProcessedCall.new. intros H.
  apply rbind_ok in H as (c & Hc & H). apply validate_str_ok in Hc.
  apply rbind_ok in H as (a & Ha & H). apply validate_str_ok in Ha.
  apply rbind_ok in H as (n & Hn & H).
  apply rbind_ok in H as (k & Hk & H). apply validate_str_ok in Hk.
  apply rbind_ok in H as (s & Hs & H). apply validate_str_ok in Hs.
  apply rbind_ok in H as (e & He & H). apply validate_str_ok in He.
  apply rbind_ok in H as (d & Hd & H).
  apply rbind_ok in Hd as (f & Hf & Hd).
  unfold ProcessedCall.float_gt in Hd.
  destruct (SFltb Pydantic.float_zero f) eqn:Hpos; [ | discriminate Hd ].
  injection Hd as <-. injection H as <-. cbn. auto 10.
Qed.

(** X12.  A call the processor returns is complete.  The message is an
    end-of-call report; the call id and the agent id are the non-empty
    strings found under [call.id] and [assistant.id], the two time stamps
    the non-empty strings under [startedAt] and [endedAt]; and the
    duration is above zero. *)
Theorem processed_call_is_complete rt (message : gmap string pyval) call :
  CallReportProcessor.process_end_of_call_report rt message = Ok call ->
  exists c a : gmap string pyval,
    message !! "type" = Some (VStr "end-of-call-report") /\
    message !! "call" = Some (VDict c) /\
    c !! "id" = Some (VStr (ProcessedCall.call_id call)) /\
    ProcessedCall.call_id call <> "" /\
    message !! "assistant" = Some (VDict a) /\
    a !! "id" = Some (VStr (ProcessedCall.agent_id call)) /\
    ProcessedCall.agent_id call <> "" /\
    message !! "startedAt" = Some (VStr (ProcessedCall.start_timestamp call)) /\
    ProcessedCall.start_timestamp call <> "" /\
    message !! "endedAt" = Some (VStr (ProcessedCall.end_timestamp call)) /\
    ProcessedCall.end_timestamp call <> "" /\
    SFltb Pydantic.float_zero (ProcessedCall.duration_seconds call) = true.
Proof.
  intros H.
  apply process_inv in H as (c & a & tr & Ht & Hc & Hci & Ha & Hai & Hs & He & _ & H).
  apply new_call_inv in H as (Ei & Ea & _ & Es & Ee & _ & Hd & _).
  rewrite Ei in Hci. rewrite Ea in Hai. rewrite Es in Hs. rewrite Ee in He.
  exists c, a.
  assert (Hcall : message !! "call" = Some (VDict c)).
  { unfold Processor.get in Hc. destruct (message !! "call") as [v | ].
    - congruence.
    - injection Hc as <-. rewrite <- Ei in Hci. discriminate Hci. }
  assert (Hasst : message !! "assistant" = Some (VDict a)).
  { unfold Processor.get in Ha. destruct (message !! "assistant") as [v | ].
    - congruence.
    - injection Ha as <-. rewrite <- Ea in Hai. discriminate Hai. }
  assert (Htype : message !! "type" = Some (VStr "end-of-call-report")).
  { unfold Processor.get, CallReportProcessor.equals_str in Ht.
    destruct (message !! "type") as [v | ]; [ | discriminate Ht ].
    destruct v; try discriminate Ht.
    apply String.eqb_eq in Ht. congruence. }
  repeat split;
    first [ assumption
          | apply truthy_str_nonempty; assumption
          | apply get_some; assumption ].
Qed.

Lemma processed_call_is_complete_run :
  exists c a : gmap string pyval,
    Webhook.message !! "type" = Some (VStr "end-of-call-report") /\
    Webhook.message !! "call" = Some (VDict c) /\
    c !! "id" = Some (VStr "123") /\
    "123" <> "" /\
    Webhook.message !! "assistant" = Some (VDict a) /\
    a !! "id" = Some (VStr "456") /\
    "456" <> "" /\
    Webhook.message !! "startedAt" = Some (VStr "2025-11-29T06:53:19.677Z") /\
    "2025-11-29T06:53:19.677Z" <> "" /\
    Webhook.message !! "endedAt" = Some (VStr "2025-11-29T06:55:00.142Z") /\
    "2025-11-29T06:55:00.142Z" <> "" /\
    SFltb Pydantic.float_zero Script.duration = true.
Proof.
  exact (processed_call_is_complete (Script.runtime_of Script.all_good None)
           Webhook.message Webhook.call eq_refl).
Defined.

Lemma transform_loop_no_dict raw_messages :
  forall transcript,
    (forall m, In m raw_messages -> forall d, m <> VDict d) ->
    Processor.transform_loop raw_messages transcript = Ok transcript.
Proof.
  induction raw_messages as [ | m rest IH]; intros transcript Hn.
  - reflexivity.
  - cbn [Processor.transform_loop].
    destruct m as [ | b | z | f | s | l | d];
      try (apply IH; intros m Hm; apply Hn; right; exact Hm).
    exfalso. apply (Hn (VDict d) (or_introl eq_refl) d). reflexivity.
Qed.

(** X13.  The transcript of a call the processor returns holds, in their
    order, the entries kept from the list under [messages]; without that
    key it is empty.  A string or a dict under [messages] is iterated
    without complaint and gives an empty transcript as well. *)
Theorem processed_transcript_entries rt (message : gmap string pyval) call :
  CallReportProcessor.process_end_of_call_report rt message = Ok call ->
  ProcessedCall.transcript call
  = match message !! "messages" with
    | Some (VList l) => omap kept_entry l
    | _ => []
    end.
Proof.
  intros H.
  apply process_inv in H as (c & a & tr & _ & _ & _ & _ & _ & _ & _ & Htr & H).
  apply new_call_inv in H as (_ & _ & _ & _ & _ & _ & _ & ->).
  apply rbind_ok in Htr as (items & Hi & Htr).
  unfold Processor.get in Hi.
  destruct (message !! "messages") as [v | ].
  - destruct v as [ | b | z | f | s | l | d]; try discriminate Hi;
      injection Hi as <-.
    + unfold Processor._transform_messages in Htr.
      rewrite transform_loop_no_dict in Htr.
      * congruence.
      * intros m Hm d. apply in_map_iff in Hm as (ch & <- & _). discriminate.
    + apply transform_result_entries. assumption.
    + unfold Processor._transform_messages in Htr.
      rewrite transform_loop_no_dict in Htr.
      * congruence.
      * intros m Hm d'. apply in_map_iff in Hm as (ch & <- & _). discriminate.
  - injection Hi as <-. cbn in Htr. congruence.
Qed.

Lemma processed_transcript_entries_run :
  ProcessedCall.transcript Webhook.call
  = [ {| TranscriptMessage.role := "user"; TranscriptMessage.content := "Hello" |};
      {| TranscriptMessage.role := "assistant";
         TranscriptMessage.content := "Hi there!" |} ].
Proof.
  exact (processed_transcript_entries (Script.runtime_of Script.all_good None)
           Webhook.message Webhook.call eq_refl).
Defined.

(** X14.  Unlike [call] and [assistant], the [customer] entry is not
    checked before it is used: a message of the right type with a call id
    whose [customer] is present and no dict, a JSON null for one, makes the
    processor raise an [AttributeError], not the [ValueError] it raises for
    the other malformed fields. *)
Theorem customer_used_unchecked rt (message c : gmap string pyval) v :
  message !! "type" = Some (VStr "end-of-call-report") ->
  message !! "call" = Some (VDict c) ->
  truthy (Processor.get c "id" VNone) = true ->
  message !! "customer" = Some v ->
  (forall d, v <> VDict d) ->
  exists e,
    CallReportProcessor.process_end_of_call_report rt message = Err e /\
    exn_cls e = AttributeError.
Proof.
  intros Ht Hc Hi Hk Hv.
  unfold CallReportProcessor.process_end_of_call_report, Processor.get.
  rewrite Ht, Hc, Hk. cbn [CallReportProcessor.equals_str].
  rewrite String.eqb_refl. cbn [negb CallReportProcessor.raise_if rbind
    CallReportProcessor.expect_dict].
  unfold Processor.get in Hi. rewrite Hi.
  cbn [negb CallReportProcessor.raise_if rbind].
  destruct v; try (eexists; split; [ reflexivity | reflexivity ]).
  exfalso. eapply Hv. reflexivity.
Qed.

Lemma customer_used_unchecked_run :
  exists e,
    CallReportProcessor.process_end_of_call_report
      (Script.runtime_of Script.all_good None)
      (<[ "customer" := VNone ]> Webhook.message) = Err e /\
    exn_cls e = AttributeError.
Proof.
  refine (customer_used_unchecked (Script.runtime_of Script.all_good None)
            (<[ "customer" := VNone ]> Webhook.message)
            {[ "id" := VStr "123"; "type" := VStr "webCall" ]} VNone
            eq_refl eq_refl eq_refl eq_refl _).
  intros d. discriminate.
Defined.

(** ** From the processor to the analysis *)

Lemma dump_lookups (call : ProcessedCall.t) :
  ProcessedCall.model_dump call !! "call_id" = Some (VStr (ProcessedCall.call_id call)) /\
  ProcessedCall.model_dump call !! "duration_seconds"
    = Some (VFloat (ProcessedCall.duration_seconds call)) /\
  ProcessedCall.model_dump call !! "transcript"
    = Some (VList (ProcessedCall.dump_message <$> ProcessedCall.transcript call)).
Proof.
  unfold ProcessedCall.model_dump. repeat split.
Qed.

Lemma above_zero_nonnegative (f : spec_float) :
  SFltb Pydantic.float_zero f = true -> nonnegative f.
Proof.
  unfold nonnegative, SFltb, SFleb.
  destruct (SFcompare Pydantic.float_zero f) as [[ | | ] | ]; congruence.
Qed.

Lemma render_dumped rt (tr : list TranscriptMessage.t) :
  BaseAgent.render_messages rt (ProcessedCall.dump_message <$> tr)
  = Ok (entry_line rt <$> tr).
Proof.
  induction tr as [ | m rest IH]; [ reflexivity | ].
  rewrite !fmap_cons. cbn [BaseAgent.render_messages]. rewrite IH. reflexivity.
Qed.

(** X17.  A transcript made by the processor can always be rendered: for
    every agent, with or without a duration, the prompt is built, so that no
    agent fails on a processed call before the generation service is asked.
    Without a duration the prompt shows, under the transcript header, one
    line per entry: the upper-cased role and the content. *)
Theorem processed_transcript_renders rt (a : agent) (tr : list TranscriptMessage.t)
    (duration : option pyval) :
  (exists base,
     Agents.build_prompt rt a (ProcessedCall.dump_message <$> tr) duration
     = Ok {| base_prompt := base; prompt_instruction := a |}) /\
  Agents.build_prompt rt a (ProcessedCall.dump_message <$> tr) None
  = Ok {| base_prompt :=
            BaseAgent.join_lines ("CALL TRANSCRIPT:" :: (entry_line rt <$> tr));
          prompt_instruction := a |}.
Proof.
  unfold Agents.build_prompt, BaseAgent._create_prompt.
  rewrite render_dumped. cbn [rbind].
  split; [ eexists; reflexivity | reflexivity ].
Qed.

(** ** The database manager *)

Section DatabaseFacts.
Import Database.

(** X18.  [save_call_report] returns [True] only after the row was
    inserted and committed and the clean-up went through: the driver was
    asked, in this order, for a connection, a cursor, the insert of this
    very row, the returned id, the commit, then to close the cursor and to
    take the connection back; nothing was rolled back. *)
Theorem saved_means_committed dr report_db s :
  Run.outcome (DatabaseManager.save_call_report dr report_db s) = Ok true ->
  exists report_id,
    Run.events (DatabaseManager.save_call_report dr report_db s)
    = ((if _pool s then [] else [NewPool; PoolCreated]) ++
       [ GetConn; Cursor; Execute report_db; FetchOne; Commit; Saved report_id;
         CloseCursor; PutConn ])%list /\
    execute dr report_db = Ok tt /\ commit dr = Ok tt /\ putconn dr = Ok tt.
Proof.
  destruct s as [p c k].
  destruct dr as [np gc cu ex fo co rb cl pc].
  unfold DatabaseManager.save_call_report, Run.outcome, Run.events. cbn.
  destruct p; [ | destruct np as [[] | ] ]; cbn;
    (destruct gc as [[] | ]; cbn; [ | discriminate ]);
    (destruct cu as [[] | ]; cbn; [ | destruct rb as [[] | ]; discriminate ]);
    (destruct (ex report_db) as [[] | ]; cbn;
     [ | destruct rb as [[] | ], cl as [[] | ], pc as [[] | ]; discriminate ]);
    (destruct fo as [[[ | i row] | ] | ]; cbn;
     try (destruct rb as [[] | ], cl as [[] | ], pc as [[] | ]; discriminate));
    (destruct co as [[] | ]; cbn;
     [ | destruct rb as [[] | ], cl as [[] | ], pc as [[] | ]; discriminate ]);
    (destruct cl as [[] | ]; cbn; [ | discriminate ]);
    (destruct pc as [[] | ]; cbn; [ | discriminate ]);
    intros _; eexists; repeat split.
Qed.

Lemma saved_means_committed_run :
  exists report_id,
    Run.events (DatabaseManager.save_call_report Driver.working Driver.row
              (Driver.imported false))
    = [ NewPool; PoolCreated; GetConn; Cursor; Execute Driver.row; FetchOne; Commit;
        Saved report_id; CloseCursor; PutConn ] /\
    execute Driver.working Driver.row = Ok tt /\
    commit Driver.working = Ok tt /\ putconn Driver.working = Ok tt.
Proof.
  exact (saved_means_committed Driver.working Driver.row (Driver.imported false)
           eq_refl).
Defined.

(** X19.  When no cursor is obtained, because the pool cannot be made,
    hands out no connection, or the connection gives no cursor, the
    [finally] block reads the unbound name [cursor]:
    [save_call_report] raises [UnboundLocalError] where it is documented to
    return [False], and nothing is given back to the pool, not even a
    connection that was obtained. *)
Theorem no_cursor_no_answer dr report_db s e :
  (_pool s = false /\ new_pool dr = Err e) \/ getconn dr = Err e \/ cursor dr = Err e ->
  Run.outcome (DatabaseManager.save_call_report dr report_db s)
  = Err (DatabaseManager.UnboundLocalError "cursor") /\
  ~ In PutConn (Run.events (DatabaseManager.save_call_report dr report_db s)) /\
  ~ In CloseCursor (Run.events (DatabaseManager.save_call_report dr report_db s)).
Proof.
  destruct s as [p c k].
  destruct dr as [np gc cu ex fo co rb cl pc].
  unfold DatabaseManager.save_call_report, Run.outcome, Run.events. cbn.
  intros [[-> ->] | [-> | ->]]; cbn.
  - repeat split; intros [H | [H | [H | []]]]; discriminate H.
  - destruct p; [ | destruct np as [[] | ] ]; cbn;
      repeat split; intros H; repeat (destruct H as [H | H]; try discriminate H);
      exact H.
  - destruct p; [ | destruct np as [[] | ] ]; cbn;
      destruct gc as [[] | ], rb as [[] | ]; cbn;
      repeat split; intros H; repeat (destruct H as [H | H]; try discriminate H);
      exact H.
Qed.

Lemma no_cursor_no_answer_run :
  Run.outcome (DatabaseManager.save_call_report Driver.no_server Driver.row
             (Driver.imported false))
  = Err (DatabaseManager.UnboundLocalError "cursor") /\
  ~ In PutConn (Run.events (DatabaseManager.save_call_report Driver.no_server Driver.row
                          (Driver.imported false))) /\
  ~ In CloseCursor
      (Run.events (DatabaseManager.save_call_report Driver.no_server Driver.row
                 (Driver.imported false))).
Proof.
  apply (no_cursor_no_answer Driver.no_server Driver.row (Driver.imported false)
           (Exn OtherException "could not connect to server")).
  left. split; reflexivity.
Defined.

(** X20.  [save_call_report] returns [False] only when a cursor was
    obtained and the insert, the reading of the returned id or the commit
    failed; by then the failure was printed, the transaction rolled back,
    the cursor closed and the connection given back, in this order. *)
Theorem not_saved_means_rolled_back dr report_db s :
  Run.outcome (DatabaseManager.save_call_report dr report_db s) = Ok false ->
  exists pre e,
    Run.events (DatabaseManager.save_call_report dr report_db s)
    = (pre ++ [SaveFailed e; Rollback; CloseCursor; PutConn])%list /\
    In Cursor pre /\
    (execute dr report_db = Err e \/
     (row <-r fetchone dr ;; DatabaseManager.first_column row) = Err e \/
     commit dr = Err e) /\
    rollback dr = Ok tt /\ close dr = Ok tt /\ putconn dr = Ok tt.
Proof.
  destruct s as [p c k].
  destruct dr as [np gc cu ex fo co rb cl pc].
  unfold DatabaseManager.save_call_report, Run.outcome, Run.events. cbn.
  destruct p; [ | destruct np as [[] | ] ]; cbn;
    (destruct gc as [[] | ]; cbn; [ | discriminate ]);
    (destruct cu as [[] | ]; cbn; [ | destruct rb as [[] | ]; discriminate ]);
    (destruct rb as [[] | ]; cbn);
    (destruct cl as [[] | ]; cbn);
    (destruct pc as [[] | ]; cbn);
    (destruct (ex report_db) as [[] | ]; cbn);
    try (destruct fo as [[[ | i row] | ] | ]; cbn);
    try (destruct co as [[] | ]; cbn);
    try discriminate;
    intros _;
    first [ eexists [_; _; _]; eexists; split; [ reflexivity | ]
          | eexists [_; _; _; _]; eexists; split; [ reflexivity | ]
          | eexists [_; _; _; _; _]; eexists; split; [ reflexivity | ]
          | eexists [_; _; _; _; _; _]; eexists; split; [ reflexivity | ]
          | eexists [_; _; _; _; _; _; _]; eexists; split; [ reflexivity | ] ];
    repeat split; cbn; auto 10.
Qed.

Lemma not_saved_means_rolled_back_run :
  exists pre e,
    Run.events (DatabaseManager.save_call_report Driver.refusing Driver.row
              (Driver.imported true))
    = (pre ++ [SaveFailed e; Rollback; CloseCursor; PutConn])%list /\
    In Cursor pre /\
    (execute Driver.refusing Driver.row = Err e \/
     (row <-r fetchone Driver.refusing ;; DatabaseManager.first_column row) = Err e \/
     commit Driver.refusing = Err e) /\
    rollback Driver.refusing = Ok tt /\ close Driver.refusing = Ok tt /\
    putconn Driver.refusing = Ok tt.
Proof.
  exact (not_saved_means_rolled_back Driver.refusing Driver.row (Driver.imported true)
           eq_refl).
Defined.

End DatabaseFacts.
(** ** The stored columns read back *)

Section TokenFacts.

Lemma lstrip_eq_or_shorter (s : string) :
  Str.lstrip s = s \/ (String.length (Str.lstrip s) < String.length s)%nat.
Proof.
  induction s as [ | c s IH]; [ left; reflexivity | ].
  cbn [Str.lstrip]. destruct (Str.isspace c); [ | left; reflexivity ].
  right. cbn [String.length]. destruct IH as [-> | IH]; lia.
Qed.

Lemma rstrip_eq_or_shorter (s : string) :
  Str.rstrip s = s \/ (String.length (Str.rstrip s) < String.length s)%nat.
Proof.
  induction s as [ | c s IH]; [ left; reflexivity | ].
  cbn [Str.rstrip]. destruct (Str.rstrip s) as [ | d r] eqn:Hr.
  - destruct (Str.isspace c).
    + right. cbn. lia.
    + destruct IH as [<- | IH]; [ left; reflexivity | right; cbn in *; lia ].
  - destruct IH as [<- | IH]; [ left; reflexivity | right; cbn in *; lia ].
Qed.

Lemma strip_fixed (t : string) :
  Str.strip t = t -> Str.lstrip t = t /\ Str.rstrip t = t.
Proof.
  unfold Str.strip. intros H.
  destruct (lstrip_eq_or_shorter t) as [Hl | Hl].
  - rewrite Hl in H. split; assumption.
  - exfalso. destruct (rstrip_eq_or_shorter (Str.lstrip t)) as [Hr | Hr];
      rewrite <- H in Hl at 2; [ rewrite Hr in Hl | ]; lia.
Qed.

Lemma rstrip_idempotent (s : string) : Str.rstrip (Str.rstrip s) = Str.rstrip s.
Proof.
  induction s as [ | c s IH]; [ reflexivity | ].
  cbn [Str.rstrip]. destruct (Str.rstrip s) as [ | d r] eqn:Hr.
  - destruct (Str.isspace c) eqn:Hc; [ reflexivity | ].
    cbn [Str.rstrip]. rewrite Hc. reflexivity.
  - cbn [Str.rstrip]. cbn [Str.rstrip] in IH. rewrite IH. reflexivity.
Qed.

Lemma lstrip_head (s : string) :
  Str.lstrip s = "" \/
  exists c r, Str.lstrip s = String c r /\ Str.isspace c = false.
Proof.
  induction s as [ | c s IH]; [ left; reflexivity | ].
  cbn [Str.lstrip]. destruct (Str.isspace c) eqn:Hc; [ exact IH | ].
  right. exists c, s. split; [ reflexivity | assumption ].
Qed.

Lemma rstrip_keeps_head (c : ascii) (r : string) :
  Str.isspace c = false -> exists z, Str.rstrip (String c r) = String c z.
Proof.
  intros Hc. cbn [Str.rstrip]. destruct (Str.rstrip r).
  - rewrite Hc. eexists. reflexivity.
  - eexists. reflexivity.
Qed.

Lemma strip_idempotent (s : string) : Str.strip (Str.strip s) = Str.strip s.
Proof.
  unfold Str.strip.
  destruct (lstrip_head s) as [-> | (c & r & -> & Hc)]; [ reflexivity | ].
  destruct (rstrip_keeps_head c r Hc) as (z & Hz).
  rewrite Hz at 1. cbn [Str.lstrip]. rewrite Hc, <- Hz.
  apply rstrip_idempotent.
Qed.

Lemma lstrip_chars (a : ascii) (s : string) :
  has_char a (Str.lstrip s) = true -> has_char a s = true.
Proof.
  induction s as [ | c s IH]; [ discriminate | ].
  cbn [Str.lstrip]. destruct (Str.isspace c); [ | exact (fun H => H) ].
  intros H. cbn [has_char]. rewrite (IH H). apply orb_true_r.
Qed.

Lemma rstrip_chars (a : ascii) (s : string) :
  has_char a (Str.rstrip s) = true -> has_char a s = true.
Proof.
  induction s as [ | c s IH]; [ discriminate | ].
  cbn [Str.rstrip]. destruct (Str.rstrip s) as [ | d r].
  - destruct (Str.isspace c); [ discriminate | ].
    cbn [has_char]. rewrite orb_false_r. intros ->. reflexivity.
  - cbn [has_char] in *. intros H. apply orb_true_iff in H as [-> | H].
    + reflexivity.
    + rewrite (IH H). apply orb_true_r.
Qed.

Lemma split_comma_parts (s tok : string) :
  In tok (Worker.split_comma s) -> has_char "," tok = false.
Proof.
  revert tok. induction s as [ | c s IH]; intros tok.
  - intros [<- | []]. reflexivity.
  - cbn [Worker.split_comma]. destruct (Ascii.eqb c ",") eqn:Hc.
    + intros [<- | H]; [ reflexivity | apply IH; assumption ].
    + destruct (Worker.split_comma s) as [ | t ts].
      * intros [<- | []]. cbn [has_char]. rewrite Ascii.eqb_sym, Hc. reflexivity.
      * intros [<- | H].
        -- cbn [has_char]. rewrite Ascii.eqb_sym, Hc. apply IH. left. reflexivity.
        -- apply IH. right. assumption.
Qed.

Lemma stripped_some (tok t : string) :
  Worker.stripped tok = Some t -> t = Str.strip tok /\ t <> "".
Proof.
  unfold Worker.stripped. destruct (String.eqb (Str.strip tok) "") eqn:He;
    [ discriminate | ].
  intros [= <-]. split; [ reflexivity | ].
  intros H. rewrite H in He. discriminate He.
Qed.

Lemma split_comma_whole (a : string) :
  has_char "," a = false -> Worker.split_comma a = [a].
Proof.
  induction a as [ | c a IH]; [ reflexivity | ].
  cbn [has_char Worker.split_comma]. intros H.
  apply orb_false_iff in H as [Hc Ha].
  rewrite Ascii.eqb_sym, Hc, (IH Ha). reflexivity.
Qed.

Lemma split_comma_app (a b : string) :
  has_char "," a = false ->
  Worker.split_comma (a ++ "," ++ b) = a :: Worker.split_comma b.
Proof.
  induction a as [ | c a IH]; [ reflexivity | ].
  cbn [has_char]. intros H. apply orb_false_iff in H as [Hc Ha].
  change (String c a ++ "," ++ b) with (String c (a ++ "," ++ b)).
  cbn [Worker.split_comma]. rewrite Ascii.eqb_sym, Hc, (IH Ha). reflexivity.
Qed.

Lemma tokens_after_space (r : string) :
  omap Worker.stripped (Worker.split_comma (String " " r))
  = omap Worker.stripped (Worker.split_comma r).
Proof.
  cbn [Worker.split_comma].
  change (Ascii.eqb " " ",") with false. cbv iota.
  destruct (Worker.split_comma r) as [ | tok toks] eqn:Hs.
  - destruct r; cbn in Hs; [ discriminate | ].
    destruct (Ascii.eqb a ","); [ discriminate | ].
    destruct (Worker.split_comma r); discriminate.
  - reflexivity.
Qed.

End TokenFacts.

(** X21.  Every token the worker reads from a stored column is a stripped,
    non-empty text; read from a column that is no list, it holds no comma
    either.  So the counters never count an empty name, and never the same
    name twice because of the blanks around it. *)
Theorem tokens_are_stripped rt (s_field : pyval) (t : string) :
  In t (Worker.tokens rt s_field) ->
  t <> "" /\ Str.strip t = t /\
  ((forall l, s_field <> VList l) -> has_char "," t = false).
Proof.
  unfold Worker.tokens. destruct (truthy s_field); [ | intros [] ].
  assert (Hlist : forall l, In t (omap (fun x => Worker.stripped (Worker.str rt x)) l) ->
                            t <> "" /\ Str.strip t = t).
  { intros l H. apply list_elem_of_In, list_elem_of_omap in H as (x & _ & H).
    apply stripped_some in H as [-> H]. split; [ exact H | apply strip_idempotent ]. }
  assert (Htext : forall s, In t (omap Worker.stripped (Worker.split_comma s)) ->
                            t <> "" /\ Str.strip t = t /\ has_char "," t = false).
  { intros s H. apply list_elem_of_In, list_elem_of_omap in H as (tok & Htok & H).
    apply list_elem_of_In, split_comma_parts in Htok.
    apply stripped_some in H as [-> H].
    split; [ exact H | ]. split; [ apply strip_idempotent | ].
    destruct (has_char "," (Str.strip tok)) eqn:Hc; [ | reflexivity ].
    apply rstrip_chars, lstrip_chars in Hc. congruence. }
  destruct s_field as [ | b | z | f | s | l | d]; intros H;
    try (destruct (Htext _ H) as (H1 & H2 & H3); auto).
  destruct (Hlist _ H) as (H1 & H2). repeat split; try assumption.
  intros Hn. exfalso. apply (Hn l). reflexivity.
Qed.

Lemma tokens_are_stripped_run :
  "deadlines" <> "" /\ Str.strip "deadlines" = "deadlines" /\
  ((forall l, VStr " workload ,, deadlines " <> VList l) ->
   has_char "," "deadlines" = false).
Proof.
  apply (tokens_are_stripped (Script.runtime_of Script.all_good None)
           (VStr " workload ,, deadlines ") "deadlines").
  right. left. reflexivity.
Defined.

Lemma clean_inv (name : string) :
  clean name = true ->
  name <> "" /\ has_char "," name = false /\ Str.strip name = name.
Proof.
  unfold clean. intros H.
  apply andb_prop in H as [H Hs]. apply andb_prop in H as [He Hc].
  apply String.eqb_eq in Hs. apply negb_true_iff in He, Hc.
  repeat split; try assumption. intros ->. discriminate He.
Qed.

Lemma stripped_clean (name : string) :
  clean name = true -> Worker.stripped name = Some name.
Proof.
  intros H. apply clean_inv in H as (He & _ & Hs).
  unfold Worker.stripped. rewrite Hs.
  destruct (String.eqb name "") eqn:E; [ | reflexivity ].
  apply String.eqb_eq in E. contradiction.
Qed.

Lemma join_clean (names : list string) :
  forallb clean names = true ->
  exists text,
    CallReportDB.join (VStr <$> names) = Ok text /\
    (names = [] -> text = "") /\
    (names <> [] -> text <> "" /\
                    omap Worker.stripped (Worker.split_comma text) = names).
Proof.
  induction names as [ | name rest IH]; intros Hc.
  - exists "". repeat split; congruence.
  - cbn [forallb] in Hc. apply andb_prop in Hc as [Hn Hrest].
    specialize (IH Hrest) as (text & Hj & _ & Ht).
    destruct (clean_inv name Hn) as (He & Hcomma & _).
    rewrite fmap_cons. cbn [CallReportDB.join].
    destruct rest as [ | name' rest'].
    + exists name. cbn [fmap list_fmap]. repeat split; try congruence.
      rewrite split_comma_whole by assumption.
      cbn [omap list_omap]. rewrite stripped_clean by assumption. reflexivity.
    + rewrite fmap_cons in *. rewrite Hj. cbn [rbind].
      destruct Ht as [_ Ht]; [ discriminate | ].
      exists (name ++ ", " ++ text). repeat split; try congruence.
      * destruct name; [ contradiction | discriminate ].
      * change (name ++ ", " ++ text) with (name ++ "," ++ String " " text).
        rewrite split_comma_app by assumption.
        cbn [omap list_omap]. rewrite stripped_clean by assumption.
        rewrite tokens_after_space, Ht. reflexivity.
Qed.

(** X22.  Names written as a comma-joined text column are read back by
    the worker as they were: for names that are not empty, hold no comma
    and have no white space at either end, the column made from their
    [", "]-joined text, a stored [None] for no name at all, gives the
    worker exactly these names, in their order. *)
Theorem stored_names_read_back rt (names : list string) :
  forallb clean names = true ->
  exists text col,
    CallReportDB.join (VStr <$> names) = Ok text /\
    CallReportDB.to_column rt (VStr text) = Ok col /\
    Worker.tokens rt (column VNone col) = names.
Proof.
  intros Hc. destruct (join_clean names Hc) as (text & Hj & Hnil & Hcons).
  exists text. destruct names as [ | name rest].
  - rewrite (Hnil eq_refl). exists None. repeat split; assumption.
  - destruct Hcons as [Hne Ht]; [ discriminate | ].
    exists (Some text). split; [ assumption | ].
    assert (Htr : truthy (VStr text) = true).
    { cbn. destruct (String.eqb text "") eqn:E; [ | reflexivity ].
      apply String.eqb_eq in E. contradiction. }
    unfold CallReportDB.to_column, Worker.tokens, column. rewrite Htr.
    split; [ reflexivity | exact Ht ].
Qed.

Lemma stored_names_read_back_run :
  exists text col,
    CallReportDB.join [VStr "workload"; VStr "manager behaviour"; VStr "deadlines"]
    = Ok text /\
    CallReportDB.to_column (Script.runtime_of Script.all_good None) (VStr text)
    = Ok col /\
    Worker.tokens (Script.runtime_of Script.all_good None) (column VNone col)
    = ["workload"; "manager behaviour"; "deadlines"].
Proof.
  exact (stored_names_read_back (Script.runtime_of Script.all_good None)
           ["workload"; "manager behaviour"; "deadlines"] eq_refl).
Defined.

(** ** The entry point and its globals *)

Lemma validated_passes rt (data : gmap string pyval) :
  CallAnalyzer.analyze_call rt data
  = match Startup.validated data with
    | Ok (call_id, duration_seconds, transcript) =>
        Orchestrator.analyze_call rt call_id transcript duration_seconds
    | Err e => IO.raise e
    end.
Proof.
  unfold CallAnalyzer.analyze_call, Startup.validated.
  destruct (CallAnalyzer.check_required CallAnalyzer.required_fields data) as [[] | e];
    [ | reflexivity ].
  rewrite bind_lift_ok. cbn [rbind].
  destruct (CallAnalyzer.item data "call_id") as [c | e]; [ | reflexivity ].
  rewrite bind_lift_ok. cbn [rbind].
  destruct (CallAnalyzer.item data "duration_seconds") as [d | e]; [ | reflexivity ].
  rewrite bind_lift_ok. cbn [rbind].
  destruct (CallAnalyzer.item data "transcript") as [t | e]; [ | reflexivity ].
  rewrite bind_lift_ok. cbn [rbind].
  destruct (CallAnalyzer.check_transcript t) as [l | e]; [ | reflexivity ].
  rewrite bind_lift_ok. reflexivity.
Qed.

Lemma get_orchestrator_startable env g :
  startable env g ->
  exists out g',
    Startup.get_orchestrator env g = (out, g', Ok tt) /\
    Startup._orchestrator g' = true /\
    (Startup._orchestrator g = true -> out = [] /\ g' = g).
Proof.
  destruct g as [configured made]. unfold startable.
  cbn [Startup._orchestrator Startup._api_configured].
  intros [-> | [Hkey Hmodels]].
  - exists [], {| Startup._api_configured := configured;
                  Startup._orchestrator := true |}. auto.
  - destruct made.
    { exists [], {| Startup._api_configured := configured;
                    Startup._orchestrator := true |}. auto. }
    unfold Startup.get_orchestrator, Startup.new_orchestrator, Startup.new_agent,
      Startup._configure_api, Startup._get_api_key.
    rewrite !Hmodels.
    destruct configured.
    + do 2 eexists. split; [ reflexivity | ]. split; [ reflexivity | discriminate ].
    + destruct Hkey as [Hkey | (k & Hk & Hne)]; [ discriminate Hkey | ].
      rewrite Hk. destruct (String.eqb k "") eqn:E.
      { apply String.eqb_eq in E. contradiction. }
      do 2 eexists. split; [ reflexivity | ]. split; [ reflexivity | discriminate ].
Qed.

(** X23.  The entry point with its lazily made orchestrator behaves as
    the entry point over a ready orchestrator whenever the orchestrator
    can be had: it exists already, or the API key is set (or was read
    before) and every agent's model gets built.  Once it exists, a call
    asks nothing more of the library and leaves the globals as they are. *)
Theorem entry_point_once_startable rt env (data : gmap string pyval) g :
  startable env g ->
  (Startup.analyze_call rt env data g).2 = CallAnalyzer.analyze_call rt data /\
  (Startup._orchestrator g = true ->
   (Startup.analyze_call rt env data g).1 = ([], g)).
Proof.
  intros Hs. rewrite validated_passes. unfold Startup.analyze_call.
  destruct (Startup.validated data) as [[[c d] t] | e].
  - destruct (get_orchestrator_startable env g Hs) as (out & g' & -> & _ & Hout).
    split; [ reflexivity | ].
    intros Hm. destruct (Hout Hm) as [-> ->]. reflexivity.
  - split; reflexivity.
Qed.

Lemma entry_point_once_startable_run :
  (Startup.analyze_call (Script.runtime_of Script.all_good None) Deployment.with_key
     (ProcessedCall.model_dump Webhook.call) Deployment.fresh).2
  = CallAnalyzer.analyze_call (Script.runtime_of Script.all_good None)
      (ProcessedCall.model_dump Webhook.call) /\
  (Startup._orchestrator Deployment.fresh = true ->
   (Startup.analyze_call (Script.runtime_of Script.all_good None) Deployment.with_key
      (ProcessedCall.model_dump Webhook.call) Deployment.fresh).1
   = ([], Deployment.fresh)).
Proof.
  apply (entry_point_once_startable (Script.runtime_of Script.all_good None)
           Deployment.with_key (ProcessedCall.model_dump Webhook.call)
           Deployment.fresh).
  right. split.
  - right. exists "example-key". split; [ reflexivity | discriminate ].
  - intros a. reflexivity.
Defined.

(** X24.  Without an API key, and with nothing made before, a call that
    passes the checks of the entry point raises the [ValueError] of the
    missing key: no agent is run, nothing is asked of the library and the
    globals stay as they were, so that the next call fails alike.  A call
    that fails the checks raises their error as before. *)
Theorem no_key_no_analysis rt env (data : gmap string pyval) g :
  Startup._orchestrator g = false ->
  Startup._api_configured g = false ->
  Startup.GOOGLE_API_KEY env = None \/ Startup.GOOGLE_API_KEY env = Some "" ->
  Startup.analyze_call rt env data g
  = ([], g, match Startup.validated data with
            | Ok _ => IO.raise Startup.key_not_found
            | Err e => IO.raise e
            end).
Proof.
  destruct g as [configured made]. cbn [Startup._orchestrator Startup._api_configured].
  intros -> -> Hkey. unfold Startup.analyze_call.
  destruct (Startup.validated data) as [[[c d] t] | e]; [ | reflexivity ].
  unfold Startup.get_orchestrator, Startup.new_orchestrator, Startup.new_agent,
    Startup._configure_api, Startup._get_api_key.
  destruct Hkey as [-> | ->]; reflexivity.
Qed.

Lemma no_key_no_analysis_run :
  Startup.analyze_call (Script.runtime_of Script.all_good None) Deployment.without_key
    (ProcessedCall.model_dump Webhook.call) Deployment.fresh
  = ([], Deployment.fresh, IO.raise Startup.key_not_found).
Proof.
  exact (no_key_no_analysis (Script.runtime_of Script.all_good None)
           Deployment.without_key (ProcessedCall.model_dump Webhook.call)
           Deployment.fresh eq_refl eq_refl (or_introl eq_refl)).
Defined.
(** ** The log folder names *)

Lemma replace_char_gone (old new : ascii) (s : string) :
  old <> new -> has_char old (LogHelpers.replace_char old new s) = false.
Proof.
  intros Hne. induction s as [ | c s IH]; [ reflexivity | ].
  cbn [LogHelpers.replace_char has_char]. rewrite IH, orb_false_r.
  destruct (Ascii.eqb c old) eqn:Hc.
  - apply Ascii.eqb_neq. assumption.
  - rewrite Ascii.eqb_sym. assumption.
Qed.

Lemma replace_char_keeps (a old new : ascii) (s : string) :
  a <> new -> has_char a s = false ->
  has_char a (LogHelpers.replace_char old new s) = false.
Proof.
  intros Hne. induction s as [ | c s IH]; [ reflexivity | ].
  cbn [LogHelpers.replace_char has_char]. intros H.
  apply orb_false_iff in H as [Hc Hs]. rewrite (IH Hs), orb_false_r.
  destruct (Ascii.eqb c old); [ apply Ascii.eqb_neq; assumption | assumption ].
Qed.

Lemma replace_char_length (old new : ascii) (s : string) :
  String.length (LogHelpers.replace_char old new s) = String.length s.
Proof.
  induction s as [ | c s IH]; [ reflexivity | ].
  cbn [LogHelpers.replace_char String.length]. rewrite IH. reflexivity.
Qed.

Lemma replace_char_absent (old new : ascii) (s : string) :
  has_char old s = false -> LogHelpers.replace_char old new s = s.
Proof.
  induction s as [ | c s IH]; [ reflexivity | ].
  cbn [LogHelpers.replace_char has_char]. intros H.
  apply orb_false_iff in H as [Hc Hs]. rewrite (IH Hs).
  rewrite Ascii.eqb_sym, Hc. reflexivity.
Qed.

(** X25.  The type that goes into a log folder name holds neither a
    slash nor a backslash; it has the length of the message type it was
    made from, and is that very type when there was nothing to replace. *)
Theorem safe_type_has_no_separator (msg_type : pyval) (safe : string) :
  LogHelpers.safe_type msg_type = Ok safe ->
  has_char "/" safe = false /\
  has_char LogHelpers.backslash safe = false /\
  exists s,
    msg_type = VStr s /\
    String.length safe = String.length s /\
    (has_char "/" s = false -> has_char LogHelpers.backslash s = false -> safe = s).
Proof.
  destruct msg_type as [ | b | z | f | s | l | d]; try discriminate.
  cbn [LogHelpers.safe_type]. intros [= <-].
  split; [ | split ].
  - apply replace_char_keeps; [ discriminate | ].
    apply replace_char_gone. discriminate.
  - apply replace_char_gone. discriminate.
  - exists s. split; [ reflexivity | ]. split.
    + rewrite !replace_char_length. reflexivity.
    + intros H1 H2. rewrite (replace_char_absent "/" "_" s H1).
      apply replace_char_absent. assumption.
Qed.

Lemma safe_type_has_no_separator_run :
  has_char "/" "status-update_..__x" = false /\
  has_char LogHelpers.backslash "status-update_..__x" = false /\
  exists s,
    VStr "status-update/../_x" = VStr s /\
    String.length "status-update_..__x" = String.length s /\
    (has_char "/" s = false -> has_char LogHelpers.backslash s = false ->
     "status-update_..__x" = s).
Proof.
  exact (safe_type_has_no_separator (VStr "status-update/../_x")
           "status-update_..__x" eq_refl).
Defined.

(** ** The webhook handler *)

Section RunFacts.
Context {S E : Type}.

Lemma run_bind {A B} (m : Run.t S E A) (k : A -> Run.t S E B) (s : S) :
  Run.bind m k s
  = match m s with
    | (out, s', Ok a) =>
        ((out ++ Run.events (k a s'))%list, Run.final (k a s'), Run.outcome (k a s'))
    | (out, s', Err e) => (out, s', Err e)
    end.
Proof.
  unfold Run.bind. destruct (m s) as [[out s'] [a | e]]; [ | reflexivity ].
  destruct (k a s') as [[out' s''] r]. reflexivity.
Qed.

Lemma run_try_except {A} (m : Run.t S E A) (h : exn -> Run.t S E A) (s : S) :
  Run.try_except m h s
  = match m s with
    | (out, s', Ok a) => (out, s', Ok a)
    | (out, s', Err e) =>
        ((out ++ Run.events (h e s'))%list, Run.final (h e s'), Run.outcome (h e s'))
    end.
Proof.
  unfold Run.try_except. destruct (m s) as [[out s'] [a | e]]; [ reflexivity | ].
  destruct (h e s') as [[out' s''] r]. reflexivity.
Qed.

End RunFacts.

Lemma process_report_returns rt msg_type message st :
  exists out processed_data,
    Main.process_report rt msg_type message st = (out, st, Ok processed_data) /\
    (forall ev, ~ In (Main.Db ev) out) /\
    (forall data, processed_data = Some data ->
       CallReportProcessor.equals_str msg_type "end-of-call-report" = true /\
       exists call,
         CallReportProcessor.process_end_of_call_report rt message = Ok call /\
         data = ProcessedCall.model_dump call).
Proof.
  unfold Main.process_report.
  destruct (CallReportProcessor.equals_str msg_type "end-of-call-report").
  - rewrite run_try_except, run_bind. unfold Run.lift.
    destruct (CallReportProcessor.process_end_of_call_report rt message) as [call | e].
    + do 2 eexists. split; [ reflexivity | ]. split.
      * intros ev [H | []]. discriminate H.
      * intros data [= <-]. split; [ reflexivity | ]. exists call. auto.
    + do 2 eexists. split; [ reflexivity | ]. split.
      * intros ev [H | []]. discriminate H.
      * discriminate.
  - exists [], None. split; [ reflexivity | ]. split.
    + intros ev [].
    + discriminate.
Qed.

(** X26.  A message whose type is missing or no string is not
    acknowledged: after the line that announces it, the handler fails on
    the sanitising of the type with an [AttributeError] that it lets
    through; nothing is logged, processed or analysed. *)
Theorem untyped_message_raises rt env fs dr (body message : gmap string pyval) st :
  body !! "message" = Some (VDict message) ->
  (forall t, message !! "type" <> Some (VStr t)) ->
  exists e,
    Main.vapi_webhook rt env fs dr (Ok (VDict body)) st
    = ([Main.Incoming (Processor.get message "type" VNone)], st, Main.Raised e) /\
    exn_cls e = AttributeError.
Proof.
  intros Hm Ht. unfold Main.vapi_webhook, CallReportProcessor.get_method.
  cbn [CallReportProcessor.expect_dict]. unfold Processor.get at 1. rewrite Hm.
  unfold Main.handle, Main.process_report, Main.save_webhook_log.
  assert (Hty : exists v, Processor.get message "type" VNone = v /\
                          forall t, v <> VStr t).
  { unfold Processor.get. destruct (message !! "type") as [v | ].
    - exists v. split; [ reflexivity | ]. intros t ->. apply (Ht t). reflexivity.
    - exists VNone. split; [ reflexivity | discriminate ]. }
  destruct Hty as (v & -> & Hv).
  destruct v as [ | b | z | f | s | l | d];
    try (eexists; split; reflexivity).
  exfalso. apply (Hv s). reflexivity.
Qed.

Lemma untyped_message_raises_run :
  exists e,
    Main.vapi_webhook (Script.runtime_of Script.all_good None) Deployment.with_key
      Server.disk Driver.working
      (Ok (VDict {[ "message" := VDict {[ "status" := VStr "in-progress" ]} ]}))
      Server.started
    = ([Main.Incoming VNone], Server.started, Main.Raised e) /\
    exn_cls e = AttributeError.
Proof.
  refine (untyped_message_raises (Script.runtime_of Script.all_good None)
            Deployment.with_key Server.disk Driver.working
            {[ "message" := VDict {[ "status" := VStr "in-progress" ]} ]}
            {[ "status" := VStr "in-progress" ]} Server.started eq_refl _).
  intros t. discriminate.
Defined.

Section RunMembership.
Context {S E : Type}.

Lemma in_bind {A B} (m : Run.t S E A) (k : A -> Run.t S E B) (s : S) (x : E) :
  In x (Run.events (Run.bind m k s)) ->
  In x (Run.events (m s)) \/
  exists a, Run.outcome (m s) = Ok a /\ In x (Run.events (k a (Run.final (m s)))).
Proof.
  rewrite run_bind. destruct (m s) as [[out s'] [a | e]]; cbn.
  - intros H. apply in_app_or in H as [H | H]; [ left; assumption | ].
    right. exists a. split; [ reflexivity | assumption ].
  - auto.
Qed.

Lemma in_try_except {A} (m : Run.t S E A) (h : exn -> Run.t S E A) (s : S) (x : E) :
  In x (Run.events (Run.try_except m h s)) ->
  In x (Run.events (m s)) \/
  exists e, Run.outcome (m s) = Err e /\ In x (Run.events (h e (Run.final (m s)))).
Proof.
  rewrite run_try_except. destruct (m s) as [[out s'] [a | e]]; cbn.
  - auto.
  - intros H. apply in_app_or in H as [H | H]; [ left; assumption | ].
    right. exists e. split; [ reflexivity | assumption ].
Qed.

Lemma outcome_run_bind {A B} (m : Run.t S E A) (k : A -> Run.t S E B) (s : S) :
  Run.outcome (Run.bind m k s)
  = match Run.outcome (m s) with
    | Ok a => Run.outcome (k a (Run.final (m s)))
    | Err e => Err e
    end.
Proof.
  rewrite run_bind. destruct (m s) as [[out s'] [a | e]]; reflexivity.
Qed.

Lemma outcome_run_try_except {A} (m : Run.t S E A) (h : exn -> Run.t S E A) (s : S) :
  Run.outcome (Run.try_except m h s)
  = match Run.outcome (m s) with
    | Ok a => Ok a
    | Err e => Run.outcome (h e (Run.final (m s)))
    end.
Proof.
  rewrite run_try_except. destruct (m s) as [[out s'] [a | e]]; reflexivity.
Qed.

End RunMembership.

(** X27.  A message with a string type is always acknowledged once its
    log files are written: whatever the processor, the agents, the
    analysis log or the database do, the handler prints the failure and
    answers [{"status": "ok"}]. *)
Theorem typed_message_acknowledged rt env fs dr (body message : gmap string pyval)
    (t : string) st :
  body !! "message" = Some (VDict message) ->
  message !! "type" = Some (VStr t) ->
  (forall safe processed_data,
     Main.write_webhook_log fs safe processed_data = Ok tt) ->
  (Main.vapi_webhook rt env fs dr (Ok (VDict body)) st).2 = Main.Acknowledged.
Proof.
  intros Hm Ht Hfs. unfold Main.vapi_webhook, CallReportProcessor.get_method.
  cbn [CallReportProcessor.expect_dict]. unfold Processor.get at 1. rewrite Hm.
  assert (Hh : Run.outcome (Main.handle rt env fs dr message st) = Ok tt).
  { unfold Main.handle, Processor.get. rewrite Ht.
    rewrite outcome_run_bind. cbn [Run.emit Run.outcome Run.final fst snd].
    rewrite outcome_run_bind.
    destruct (process_report_returns rt (VStr t) message st)
      as (out & processed_data & -> & _ & _).
    cbn [Run.outcome Run.final fst snd].
    rewrite outcome_run_bind.
    unfold Main.save_webhook_log at 1. rewrite outcome_run_bind.
    cbn [LogHelpers.safe_type Run.lift Run.outcome Run.final Run.request fst snd].
    rewrite Hfs.
    rewrite outcome_run_bind. cbn [Run.emit Run.outcome Run.final fst snd].
    rewrite outcome_run_bind.
    destruct processed_data as [data | ];
      cbn [Run.emit Run.ret Run.outcome Run.final fst snd];
      rewrite outcome_run_bind.
    - match goal with
      | |- context [ if ?c then _ else _ ] => destruct c; [ | reflexivity ]
      end.
      rewrite outcome_run_try_except.
      match goal with
      | |- match match ?r with _ => _ end with _ => _ end = _ =>
          destruct r as [[] | e]; reflexivity
      end.
    - reflexivity. }
  destruct (Main.handle rt env fs dr message st) as [[out st'] [[] | e]];
    [ reflexivity | discriminate Hh ].
Qed.

Lemma typed_message_acknowledged_run :
  (Main.vapi_webhook (Script.runtime_of Script.all_down None) Deployment.without_key
     Server.disk Driver.no_server (Ok (VDict Server.body)) Server.started).2
  = Main.Acknowledged.
Proof.
  apply (typed_message_acknowledged (Script.runtime_of Script.all_down None)
           Deployment.without_key Server.disk Driver.no_server Server.body
           Webhook.message "end-of-call-report" Server.started).
  - reflexivity.
  - reflexivity.
  - intros safe processed_data. reflexivity.
Defined.

(** *** What reaches the database *)

Lemma validated_dump (call : ProcessedCall.t) :
  Startup.validated (ProcessedCall.model_dump call)
  = match ProcessedCall.transcript call with
    | [] => Err (Exn ValueError "Transcript must be a non-empty list")
    | _ =>
        Ok (VStr (ProcessedCall.call_id call),
            VFloat (ProcessedCall.duration_seconds call),
            ProcessedCall.dump_message <$> ProcessedCall.transcript call)
    end.
Proof.
  destruct (dump_lookups call) as (H1 & H2 & H3).
  unfold Startup.validated.
  rewrite (check_required_ok _ _ _ _ H1 H2 H3).
  unfold CallAnalyzer.item. rewrite H1, H2, H3. cbn [rbind].
  destruct (ProcessedCall.transcript call); reflexivity.
Qed.

Lemma report_inv rt call_id transcript duration report :
  IO.outcome (Orchestrator.analyze_call rt call_id transcript duration) = Ok report ->
  call_id = VStr (CallAnalysisReport.call_id report) /\
  Pydantic.validate_float rt "call_duration_seconds" duration
    = Ok (CallAnalysisReport.call_duration_seconds report) /\
  counts_valid (CallAnalysis.sentiment_counts (CallAnalysisReport.analysis report)).
Proof.
  destruct (gather_fault rt) as [e | ] eqn:Hg.
  - rewrite (analyze_call_fault rt call_id duration transcript e Hg). discriminate.
  - rewrite analyze_call_outcome by assumption.
    rewrite extract_sentiment_settled. cbn [rbind]. intros H.
    apply create_inv in H as (Hc & Hd & _ & Hcounts).
    split; [ assumption | ]. split; [ assumption | ].
    rewrite Hcounts. unfold counts_valid.
    destruct (IO.outcome (Agents.analyze_sentiment rt transcript)) as [r | e] eqn:Hs.
    + eapply analyze_sentiment_nonneg; eassumption.
    + cbn. lia.
Qed.

Lemma startup_report_inv rt env (call : ProcessedCall.t) g report :
  IO.outcome (Startup.analyze_call rt env (ProcessedCall.model_dump call) g).2
    = Ok report ->
  CallAnalysisReport.call_id report = ProcessedCall.call_id call /\
  CallAnalysisReport.call_duration_seconds report
    = ProcessedCall.duration_seconds call /\
  counts_valid (CallAnalysis.sentiment_counts (CallAnalysisReport.analysis report)).
Proof.
  unfold Startup.analyze_call. rewrite validated_dump.
  destruct (ProcessedCall.transcript call) as [ | m rest]; [ discriminate | ].
  destruct (Startup.get_orchestrator env g) as [[out g'] [u | e]]; [ | discriminate ].
  cbn [snd]. intros H. apply report_inv in H as (Hc & Hd & Hn).
  cbn in Hd. split; [ congruence | ]. split; [ congruence | assumption ].
Qed.

Lemma initialize_pool_events dr s ev :
  In ev (Run.events (DatabaseManager._initialize_pool dr s)) ->
  ev = Database.NewPool \/ ev = Database.PoolCreated \/
  exists e, ev = Database.PoolError e.
Proof.
  unfold DatabaseManager._initialize_pool. destruct dr as [np gc cu ex fo co rb cl pc].
  cbn. destruct np as [[] | e]; cbn; intros H;
    repeat (destruct H as [<- | H]; eauto); destruct H.
Qed.

Lemma save_executes_its_row dr report_db s row :
  In (Database.Execute row)
     (Run.events (DatabaseManager.save_call_report dr report_db s)) ->
  row = report_db.
Proof.
  destruct s as [p c k]. destruct dr as [np gc cu ex fo co rb cl pc].
  unfold DatabaseManager.save_call_report, Run.events. cbn.
  destruct p; [ | destruct np as [[] | ] ]; cbn;
    (destruct gc as [[] | ]; cbn);
    try (destruct cu as [[] | ]; cbn);
    try (destruct rb as [[] | ]; cbn);
    try (destruct (ex report_db) as [[] | ]; cbn);
    try (destruct fo as [[[ | i r] | ] | ]; cbn);
    try (destruct co as [[] | ]; cbn);
    try (destruct cl as [[] | ]; cbn);
    try (destruct pc as [[] | ]; cbn);
    intros H;
    repeat (destruct H as [H | H]; [ try discriminate H; congruence | ]);
    destruct H.
Qed.

Lemma manager_events {A} (m : Database.db A) st ev :
  In (Main.Db ev) (Run.events (Main.manager m st)) ->
  exists s, In ev (Run.events (m s)).
Proof.
  unfold Main.manager.
  match goal with |- context [ m ?s ] => exists s; destruct (m s) as [[out s'] r] end.
  cbn in *. apply in_map_iff in H as (ev' & [= ->] & H). exact H.
Qed.

Lemma analyze_call_steps rt env data st :
  (forall ev, ~ In (Main.Db ev) (Run.events (Main.analyze_call rt env data st))) /\
  Run.outcome (Main.analyze_call rt env data st)
  = IO.outcome (Startup.analyze_call rt env data (Main.globals st)).2.
Proof.
  unfold Main.analyze_call.
  destruct (Startup.analyze_call rt env data (Main.globals st)) as [[started g] [out r]].
  split; [ | reflexivity ].
  intros ev H. cbn in H. apply in_app_or in H as [H | H];
    apply in_map_iff in H as (x & Hx & _); discriminate Hx.
Qed.

Lemma save_analysis_report_steps fs msg_type call_id st ev :
  ~ In (Main.Db ev) (Run.events (Main.save_analysis_report fs msg_type call_id st)).
Proof.
  unfold Main.save_analysis_report. rewrite run_bind.
  destruct (LogHelpers.safe_type msg_type) as [safe | e]; cbn.
  - intros [H | []]. discriminate H.
  - intros [].
Qed.

Lemma import_database_steps dr st row :
  ~ In (Main.Db (Database.Execute row)) (Run.events (Main.import_database dr st)).
Proof.
  unfold Main.import_database. rewrite run_bind. cbn [Run.read].
  destruct (Main.database_imported st); [ intros [] | ].
  intros H. cbn [app] in H. unfold Run.events in H at 1. cbn [fst] in H.
  apply in_bind in H as [H | (u & _ & H)]; [ destruct H | ].
  apply manager_events in H as (s & H).
  apply initialize_pool_events in H as [H | [H | (e & H)]]; discriminate H.
Qed.

Lemma run_analysis_row rt env fs dr msg_type data st row :
  In (Main.Db (Database.Execute row))
     (Run.events (Main.run_analysis rt env fs dr msg_type data st)) ->
  exists report,
    IO.outcome (Startup.analyze_call rt env data (Main.globals st)).2 = Ok report /\
    CallReportDB.from_analysis_report rt report = Ok row.
Proof.
  unfold Main.run_analysis. intros H.
  apply in_bind in H as [H | (u & _ & H)];
    [ destruct H as [H | []]; discriminate H | ].
  apply in_bind in H as [H | (report & Hreport & H)];
    [ exfalso; eapply (proj1 (analyze_call_steps _ _ _ _)); exact H | ].
  rewrite (proj2 (analyze_call_steps _ _ _ _)) in Hreport.
  exists report. split; [ exact Hreport | ].
  apply in_bind in H as [H | (call_id & _ & H)];
    [ destruct (CallAnalyzer.item data "call_id"); destruct H | ].
  apply in_bind in H as [H | (u1 & _ & H)];
    [ exfalso; eapply save_analysis_report_steps; exact H | ].
  apply in_bind in H as [H | (u2 & _ & H)];
    [ destruct H as [H | []]; discriminate H | ].
  apply in_bind in H as [H | (u3 & _ & H)].
  { destruct (CallAnalysis.is_severe_case _); [ | destruct H ].
    destruct H as [H | []]. discriminate H. }
  apply in_bind in H as [H | (u4 & _ & H)];
    [ exfalso; eapply import_database_steps; exact H | ].
  apply in_bind in H as [H | (u5 & _ & H)];
    [ destruct H as [H | []]; discriminate H | ].
  apply in_bind in H as [H | (report_db & Hrow & H)].
  { destruct (CallReportDB.from_analysis_report rt report); destruct H. }
  apply in_bind in H as [H | (b & _ & H)]; [ | destruct H ].
  apply manager_events in H as (s & H). apply save_executes_its_row in H.
  subst row. exact Hrow.
Qed.

Lemma processed_call_id rt (message : gmap string pyval) call :
  CallReportProcessor.process_end_of_call_report rt message = Ok call ->
  exists c : gmap string pyval,
    message !! "call" = Some (VDict c) /\
    c !! "id" = Some (VStr (ProcessedCall.call_id call)) /\
    ProcessedCall.call_id call <> "" /\
    SFltb Pydantic.float_zero (ProcessedCall.duration_seconds call) = true.
Proof.
  intros H.
  apply process_inv in H as (c & a & tr & _ & Hc & Hci & _ & _ & _ & _ & _ & H).
  apply new_call_inv in H as (Ei & _ & _ & _ & _ & _ & Hd & _).
  exists c. rewrite Ei in Hci.
  split; [ | split; [ apply get_some; assumption | ] ].
  - unfold Processor.get in Hc. destruct (message !! "call") as [v | ].
    + congruence.
    + injection Hc as <-. discriminate Ei.
  - split; [ apply truthy_str_nonempty; assumption | assumption ].
Qed.

Lemma from_report_inv rt (report : CallAnalysisReport.t) row :
  CallReportDB.from_analysis_report rt report = Ok row ->
  CallReportDB.call_id row = CallAnalysisReport.call_id report /\
  CallReportDB.call_duration_seconds row
    = CallAnalysisReport.call_duration_seconds report /\
  CallReportDB.sentiment_counts row
    = SentimentCounts.model_dump
        (CallAnalysis.sentiment_counts (CallAnalysisReport.analysis report)).
Proof.
  unfold CallReportDB.from_analysis_report. rewrite !to_column_str. cbn [rbind].
  intros [= <-]. auto.
Qed.

(** X28.  Whatever reaches the database comes from a processed report:
    a row is inserted only for a message of type [end-of-call-report], and
    it carries the non-empty call id found under [call.id] of that
    message, a duration above zero, and counts that are not negative,
    whatever the agents answered. *)
Theorem stored_row_comes_from_message rt env fs dr (body : gmap string pyval) st row :
  In (Main.Db (Database.Execute row))
     (Main.vapi_webhook rt env fs dr (Ok (VDict body)) st).1.1 ->
  exists message c : gmap string pyval,
    body !! "message" = Some (VDict message) /\
    message !! "type" = Some (VStr "end-of-call-report") /\
    message !! "call" = Some (VDict c) /\
    c !! "id" = Some (VStr (CallReportDB.call_id row)) /\
    CallReportDB.call_id row <> "" /\
    SFltb Pydantic.float_zero (CallReportDB.call_duration_seconds row) = true /\
    forall k z, CallReportDB.sentiment_counts row !! k = Some z -> 0 <= z.
Proof.
  unfold Main.vapi_webhook, CallReportProcessor.get_method.
  cbn [CallReportProcessor.expect_dict].
  destruct (Processor.get body "message" VNone) as [ | | | | | | message] eqn:Hb;
    try (intros []).
  assert (Hm : body !! "message" = Some (VDict message)).
  { unfold Processor.get in Hb. destruct (body !! "message"); congruence. }
  intros H.
  assert (Hin : In (Main.Db (Database.Execute row))
                   (Run.events (Main.handle rt env fs dr message st))).
  { destruct (Main.handle rt env fs dr message st) as [[out st'] [u | e]]; exact H. }
  clear H. unfold Main.handle in Hin.
  set (msg_type := Processor.get message "type" VNone) in *.
  apply in_bind in Hin as [H | (u & _ & H)];
    [ destruct H as [H | []]; discriminate H | ].
  cbn [Run.final Run.emit fst snd] in H.
  destruct (process_report_returns rt msg_type message st)
    as (out & processed_data & Hp & Hnodb & Hdata).
  apply in_bind in H as [H | (pd & Hpd & H)];
    [ rewrite Hp in H; exfalso; eapply Hnodb; exact H | ].
  rewrite Hp in Hpd, H. cbn [Run.outcome Run.final fst snd] in Hpd, H.
  injection Hpd as <-.
  apply in_bind in H as [H | (u1 & _ & H)].
  { exfalso. unfold Main.save_webhook_log in H. rewrite run_bind in H.
    destruct (LogHelpers.safe_type msg_type); cbn in H;
      [ destruct H as [H | []]; discriminate H | destruct H ]. }
  apply in_bind in H as [H | (u2 & _ & H)];
    [ destruct H as [H | []]; discriminate H | ].
  apply in_bind in H as [H | (u3 & _ & H)].
  { destruct processed_data; [ destruct H as [H | []]; discriminate H | destruct H ]. }
  apply in_bind in H as [H | (u4 & _ & H)];
    [ | destruct H as [H | []]; discriminate H ].
  destruct processed_data as [data | ]; [ | destruct H ].
  destruct (Hdata data eq_refl) as (Hty & call & Hcall & ->).
  match type of H with
  | context [ if ?c then _ else _ ] => destruct c; [ | destruct H ]
  end.
  apply in_try_except in H as [H | (e & _ & H)];
    [ | destruct H as [H | []]; discriminate H ].
  apply run_analysis_row in H as (report & Hreport & Hrow).
  apply startup_report_inv in Hreport as (Hid & Hdur & Hcounts).
  apply from_report_inv in Hrow as (Rid & Rdur & Rcounts).
  destruct (processed_call_id rt message call Hcall) as (c & Hc & Hci & Hne & Hpos).
  exists message, c. rewrite Rid, Hid, Rdur, Hdur, Rcounts.
  repeat split; try assumption.
  - unfold msg_type, Processor.get, CallReportProcessor.equals_str in Hty.
    destruct (message !! "type") as [v | ]; [ | discriminate Hty ].
    destruct v; try discriminate Hty. apply String.eqb_eq in Hty. congruence.
  - intros k z. unfold SentimentCounts.model_dump. destruct Hcounts as [Hp0 Hn0].
    intros Hk. apply lookup_insert_Some in Hk as [[_ <-] | [_ Hk]]; [ assumption | ].
    apply lookup_singleton_Some in Hk as [_ <-]. assumption.
Qed.

Lemma stored_row_comes_from_message_run :
  exists message c : gmap string pyval,
    Server.body !! "message" = Some (VDict message) /\
    message !! "type" = Some (VStr "end-of-call-report") /\
    message !! "call" = Some (VDict c) /\
    c !! "id" = Some (VStr "123") /\
    "123" <> "" /\
    SFltb Pydantic.float_zero Script.duration = true /\
    forall k z,
      ({[ "positive" := 1; "negative" := 4 ]} : gmap string Z) !! k = Some z -> 0 <= z.
Proof.
  refine (stored_row_comes_from_message (Script.runtime_of Script.all_good None)
            Deployment.with_key Server.disk Driver.working Server.body Server.started
            {| CallReportDB.call_id := "123";
               CallReportDB.call_duration_seconds := Script.duration;
               CallReportDB.stressed_detected := true;
               CallReportDB.sentiment_counts := {[ "positive" := 1; "negative" := 4 ]};
               CallReportDB.top_stressors := Some "workload, deadlines";
               CallReportDB.common_blockers := Some "lack of clarity";
               CallReportDB.is_severe_case := true |} _).
  apply (nth_error_In _ 32). vm_compute. reflexivity.
Defined.

(** ** From the processor to the analysis, with the orchestrator made on
    demand *)

(** X15.  The dump of a processed call always passes the entry point's
    check of the required fields.  With an empty transcript the call is
    refused there, before the orchestrator is asked for and before
    anything is printed; otherwise, whenever the orchestrator can be had,
    it is run on the call id, the dumped transcript and the duration. *)
Theorem processed_call_enters_analysis rt env (call : ProcessedCall.t) g :
  (ProcessedCall.transcript call = [] ->
   Startup.analyze_call rt env (ProcessedCall.model_dump call) g
   = ([], g, IO.raise (Exn ValueError "Transcript must be a non-empty list"))) /\
  (ProcessedCall.transcript call <> [] ->
   startable env g ->
   (Startup.analyze_call rt env (ProcessedCall.model_dump call) g).2
   = Orchestrator.analyze_call rt (VStr (ProcessedCall.call_id call))
       (ProcessedCall.dump_message <$> ProcessedCall.transcript call)
       (VFloat (ProcessedCall.duration_seconds call))).
Proof.
  unfold Startup.analyze_call. rewrite validated_dump. split.
  - intros ->. reflexivity.
  - intros Hne Hs. destruct (ProcessedCall.transcript call) as [ | m rest];
      [ congruence | ].
    destruct (get_orchestrator_startable env g Hs) as (out & g' & -> & _ & _).
    reflexivity.
Qed.

Lemma processed_call_enters_analysis_run :
  (Startup.analyze_call (Script.runtime_of Script.all_good None) Deployment.with_key
     (ProcessedCall.model_dump Webhook.call) Deployment.fresh).2
  = Orchestrator.analyze_call (Script.runtime_of Script.all_good None) (VStr "123")
      [ VDict {[ "role" := VStr "user"; "content" := VStr "Hello" ]};
        VDict {[ "role" := VStr "assistant"; "content" := VStr "Hi there!" ]} ]
      (VFloat Script.duration).
Proof.
  apply (proj2 (processed_call_enters_analysis (Script.runtime_of Script.all_good None)
                  Deployment.with_key Webhook.call Deployment.fresh)).
  - discriminate.
  - right. split.
    + right. exists "example-key". split; [ reflexivity | discriminate ].
    + intros a. reflexivity.
Defined.

(** X16.  What the processor lets through, the report model accepts: for
    a call returned by the processor with at least one transcript entry,
    and whenever the orchestrator can be had, the analysis returns a report
    that carries the call id and the duration of the call, whatever the
    agents do.  The one exception is a failure of the dispatch, which
    raises the orchestration [RuntimeError]. *)
Theorem processed_call_gets_report rt env (message : gmap string pyval) call g :
  CallReportProcessor.process_end_of_call_report rt message = Ok call ->
  ProcessedCall.transcript call <> [] ->
  startable env g ->
  match gather_fault rt with
  | None =>
      exists report,
        IO.outcome
          (Startup.analyze_call rt env (ProcessedCall.model_dump call) g).2
        = Ok report /\
        CallAnalysisReport.call_id report = ProcessedCall.call_id call /\
        CallAnalysisReport.call_duration_seconds report
        = ProcessedCall.duration_seconds call
  | Some e =>
      IO.outcome (Startup.analyze_call rt env (ProcessedCall.model_dump call) g).2
      = Err (Exn RuntimeError
               ("Critical failure in agent orchestration: " ++ exn_msg e))
  end.
Proof.
  intros H Hne Hs.
  apply process_inv in H as (c & a & tr & _ & _ & _ & _ & _ & _ & _ & _ & H).
  apply new_call_inv in H as (_ & _ & _ & _ & _ & _ & Hd & _).
  apply above_zero_nonnegative in Hd.
  unfold Startup.analyze_call. rewrite validated_dump.
  destruct (ProcessedCall.transcript call) as [ | m rest]; [ congruence | ].
  destruct (get_orchestrator_startable env g Hs) as (out & g' & -> & _ & _).
  cbn [snd].
  destruct (gather_fault rt) as [e | ] eqn:Hg.
  - rewrite (analyze_call_fault _ _ _ _ e Hg). reflexivity.
  - rewrite analyze_call_outcome by assumption.
    rewrite extract_sentiment_settled, pick_stress, pick_stressor, pick_blocker,
      pick_severity.
    cbn [rbind]. rewrite create_typed by assumption.
    eexists. split; [ reflexivity | ]. split; reflexivity.
Qed.

Lemma processed_call_gets_report_run :
  exists report,
    IO.outcome
      (Startup.analyze_call (Script.runtime_of Script.all_down None)
         Deployment.with_key (ProcessedCall.model_dump Webhook.call)
         Deployment.fresh).2
    = Ok report /\
    CallAnalysisReport.call_id report = "123" /\
    CallAnalysisReport.call_duration_seconds report = Script.duration.
Proof.
  refine (processed_call_gets_report (Script.runtime_of Script.all_down None)
            Deployment.with_key Webhook.message Webhook.call Deployment.fresh
            eq_refl _ _).
  - discriminate.
  - right. split.
    + right. exists "example-key". split; [ reflexivity | discriminate ].
    + intros a. reflexivity.
Defined.
